(** * MultiAgentDev: row-level security, audit trail and realtime sync

    A shallow embedding of the PostgreSQL schema of the repository
    (tables, CHECK / UNIQUE / FOREIGN KEY constraints, row-level-security
    policies, SECURITY DEFINER helpers and triggers found under
    [supabase/migrations]) and of the realtime reducer of the
    [useAgentsRealtime] hook, together with the properties the design
    document states about them.

    Conventions.
    - A SQL column that may hold NULL is an [option]; a NOT NULL column is
      a plain value.
    - A SQL boolean expression evaluates to [option bool] ([None] is the
      unknown truth value); a policy or a CHECK is applied to that value
      with [is_true] (policies) or [check_passes] (CHECK constraints).
    - A table is the list of its rows, in insertion order.
    - JSONB objects are finite maps from keys to JSONB values. *)

From Stdlib Require Import ZArith QArith Qcanon String Ascii List Bool Lia.
From stdpp Require Import base option numbers list strings gmap fin_maps.

Local Open Scope string_scope.
Local Open Scope Z_scope.
Local Open Scope list_scope.

(* ===================================================================== *)
(** ** SQL scalar types *)
(* ===================================================================== *)

(** [UUID]: a 128-bit identifier, kept as a natural number. *)
Definition uuid := N.

(** [TIMESTAMPTZ]: microseconds since the epoch. *)
Definition timestamptz := Z.

(** [FLOAT] (double precision).  Finite values are kept as canonical
    rationals (every finite double is one); the three special values are
    explicit.  PostgreSQL orders them
    [-Infinity < finite < Infinity < NaN] and treats [NaN = NaN]. *)
Inductive float8 : Type :=
  | FNegInf
  | FFin (q : Qc)
  | FPosInf
  | FNaN.

Definition float8_rank (x : float8) : Z :=
  match x with FNegInf => 0 | FFin _ => 1 | FPosInf => 2 | FNaN => 3 end.

Definition float8_le (x y : float8) : bool :=
  match x, y with
  | FFin p, FFin q => Qle_bool p q
  | _, _ => float8_rank x <=? float8_rank y
  end.

Definition float8_ge (x y : float8) : bool := float8_le y x.

Global Instance float8_eq_dec : EqDecision float8.
Proof. solve_decision. Defined.

Definition float8_of_Z (z : Z) : float8 := FFin (Q2Qc (inject_Z z)).

(** Decimal literals of the schema: [0.7] is [7 / 10]. *)
Definition float8_of_frac (n : Z) (d : positive) : float8 := FFin (Q2Qc (n # d)).

(** [app_role AS ENUM ('admin', 'user')]. *)
Inductive app_role : Type := admin | user.

Global Instance app_role_eq_dec : EqDecision app_role.
Proof. solve_decision. Defined.

(* ===================================================================== *)
(** ** Three-valued logic *)
(* ===================================================================== *)

(** [a = b] on nullable operands. *)
Definition sql_eq {A} `{EqDecision A} (a b : option A) : option bool :=
  match a, b with
  | Some x, Some y => Some (bool_decide (x = y))
  | _, _ => None
  end.

(** [a AND b]. *)
Definition sql_and (a b : option bool) : option bool :=
  match a, b with
  | Some false, _ | _, Some false => Some false
  | Some true, Some true => Some true
  | _, _ => None
  end.

(** [a IS DISTINCT FROM b]: never unknown. *)
Definition is_distinct_from {A} `{EqDecision A} (a b : option A) : bool :=
  negb (bool_decide (a = b)).

(** [a IN (SELECT ...)] over the rows returned by the subquery. *)
Definition sql_in {A} `{EqDecision A} (a : option A) (l : list (option A)) : option bool :=
  match a with
  | None => match l with [] => Some false | _ => None end
  | Some x =>
      if existsb (fun y => bool_decide (y = Some x)) l then Some true
      else if existsb (fun y => bool_decide (y = None)) l then None
      else Some false
  end.

(** A row passes a policy (USING / WITH CHECK) only when the expression
    is true; a WHERE clause keeps a row under the same rule. *)
Definition is_true (t : option bool) : bool :=
  match t with Some true => true | _ => false end.

(** A CHECK constraint is violated only when the expression is false. *)
Definition check_passes (t : option bool) : bool :=
  match t with Some false => false | _ => true end.

(** [COALESCE(a1, ..., an)]: the first operand that is not NULL. *)
Fixpoint COALESCE {A} (l : list (option A)) : option A :=
  match l with
  | [] => None
  | Some a :: _ => Some a
  | None :: rest => COALESCE rest
  end.

(** [a + b] on nullable integers. *)
Definition sql_add (a b : option Z) : option Z :=
  match a, b with Some x, Some y => Some (x + y) | _, _ => None end.

(** Comparisons on nullable operands. *)
Definition sql_cmp {A} (cmp : A → A → bool) (a b : option A) : option bool :=
  match a, b with Some x, Some y => Some (cmp x y) | _, _ => None end.

(** The value a column takes in [UPDATE ... SET]: the assigned value when
    the column is listed, the old value otherwise. *)
Definition assigned {A} (new : option A) (old : A) : A := default old new.

Definition assigned_nullable {A} (new : option A) (old : option A) : option A :=
  match new with Some v => Some v | None => old end.

(** [LEFT(s, n)] on a nullable text. *)
Definition LEFT (s : option string) (n : nat) : option string :=
  (fun t => String.substring 0 n t) <$> s.

(* ===================================================================== *)
(** ** JSONB *)
(* ===================================================================== *)

#[local] Set Warnings "-register-all".

Inductive jsonb : Type :=
  | JNull
  | JBool (b : bool)
  | JNum (q : Qc)
  | JStr (s : string)
  | JObj (m : gmap string jsonb).

(** Conversion of column values inside [jsonb_build_object]; NULL becomes
    the JSON null.  A non-finite float is not a JSON number and is stored
    as its text. *)
Definition json_text (s : option string) : jsonb :=
  match s with Some t => JStr t | None => JNull end.

Definition json_bool (b : option bool) : jsonb :=
  match b with Some t => JBool t | None => JNull end.

Definition json_int (z : option Z) : jsonb :=
  match z with Some t => JNum (Q2Qc (inject_Z t)) | None => JNull end.

Definition json_float (x : option float8) : jsonb :=
  match x with
  | Some (FFin q) => JNum q
  | Some FNaN => JStr "NaN"
  | Some FPosInf => JStr "Infinity"
  | Some FNegInf => JStr "-Infinity"
  | None => JNull
  end.

Definition json_jsonb (j : option jsonb) : jsonb :=
  match j with Some t => t | None => JNull end.

(** [jsonb_build_object(k1, v1, ..., kn, vn)]: later keys win. *)
Definition jsonb_build_object (kvs : list (string * jsonb)) : gmap string jsonb :=
  fold_left (fun m kv => <[kv.1 := kv.2]> m) kvs ∅.

(** [a || b] on two JSONB objects: keys of [b] override those of [a]. *)
Definition jsonb_concat (a b : gmap string jsonb) : gmap string jsonb := b ∪ a.

(** [j != '{}'::jsonb] for an object [j]. *)
Definition jsonb_nonempty (j : gmap string jsonb) : bool := bool_decide (j ≠ ∅).

(* ===================================================================== *)
(** ** Tables *)
(* ===================================================================== *)

(** [profiles] (initial schema, plus [deleted_at] from the soft-delete
    migration). *)
Module Profiles.
Record row : Type := Build {
  id : uuid;
  organization_id : option uuid;
  email : option string;
  full_name : option string;
  avatar_url : option string;
  role : app_role;
  created_at : option timestamptz;
  updated_at : option timestamptz;
  deleted_at : option timestamptz
}.

Definition set_deleted_at (v : option timestamptz) (r : row) : row :=
  Build (id r) (organization_id r) (email r) (full_name r) (avatar_url r)
        (role r) (created_at r) (updated_at r) v.

Definition set_updated_at (v : option timestamptz) (r : row) : row :=
  Build (id r) (organization_id r) (email r) (full_name r) (avatar_url r)
        (role r) (created_at r) v (deleted_at r).
End Profiles.

(** [agents].  The columns [settings], [created_at] and [is_orchestrator]
    are read by none of the policies, constraints or triggers below and
    are left out. *)
Module Agents.
Record row : Type := Build {
  id : uuid;
  organization_id : uuid;
  name : string;
  slug : string;
  role : string;
  description : option string;
  icon : option string;
  system_prompt : option string;
  is_active : option bool;
  ai_model : option string;
  temperature : option float8;
  max_tokens : option Z;
  welcome_message : option string;
  capabilities : option jsonb;
  category : option string;
  version : option Z;
  modified_by : option uuid;
  updated_at : option timestamptz
}.

Definition set_version (v : option Z) (r : row) : row :=
  Build (id r) (organization_id r) (name r) (slug r) (role r) (description r)
        (icon r) (system_prompt r) (is_active r) (ai_model r) (temperature r)
        (max_tokens r) (welcome_message r) (capabilities r) (category r)
        v (modified_by r) (updated_at r).

Definition set_updated_at (v : option timestamptz) (r : row) : row :=
  Build (id r) (organization_id r) (name r) (slug r) (role r) (description r)
        (icon r) (system_prompt r) (is_active r) (ai_model r) (temperature r)
        (max_tokens r) (welcome_message r) (capabilities r) (category r)
        (version r) (modified_by r) v.
End Agents.

(** [sub_agents]: the same configuration columns under a parent agent;
    the table has no [version] column. *)
Module SubAgents.
Record row : Type := Build {
  id : uuid;
  parent_agent_id : uuid;
  organization_id : uuid;
  name : string;
  slug : string;
  role : string;
  description : option string;
  icon : option string;
  ai_model : option string;
  temperature : option float8;
  max_tokens : option Z;
  system_prompt : option string;
  capabilities : option jsonb;
  is_active : option bool;
  updated_at : option timestamptz;
  created_by : option uuid;
  modified_by : option uuid
}.

Definition set_updated_at (v : option timestamptz) (r : row) : row :=
  Build (id r) (parent_agent_id r) (organization_id r) (name r) (slug r)
        (role r) (description r) (icon r) (ai_model r) (temperature r)
        (max_tokens r) (system_prompt r) (capabilities r) (is_active r)
        v (created_by r) (modified_by r).
End SubAgents.

(** [agent_config_history]; the surrogate key [id] is left out. *)
Module AgentConfigHistory.
Record row : Type := Build {
  agent_id : uuid;
  changed_by : uuid;
  changed_at : option timestamptz;
  changes : jsonb;
  previous_config : jsonb;
  change_reason : option string
}.
End AgentConfigHistory.

Record db : Type := Db {
  profiles : list Profiles.row;
  agents : list Agents.row;
  sub_agents : list SubAgents.row;
  agent_config_history : list AgentConfigHistory.row
}.

Definition with_profiles (l : list Profiles.row) (d : db) : db :=
  Db l (agents d) (sub_agents d) (agent_config_history d).

(** Errors raised by a statement; the statement then has no effect. *)
Inductive sql_error : Type :=
  | insufficient_privilege          (* new row violates row-level security *)
  | check_violation (constraint : string)
  | unique_violation (constraint : string)
  | foreign_key_violation (constraint : string).

Inductive result (A : Type) : Type :=
  | Ok (a : A)
  | Err (e : sql_error).
Arguments Ok {A} a.
Arguments Err {A} e.

Global Instance result_ret : MRet result := fun A a => Ok a.

Global Instance result_bind : MBind result := fun A B k r =>
  match r with Ok a => k a | Err e => Err e end.

(** Raise [e] unless [b] holds. *)
Definition require (b : bool) (e : sql_error) : result unit :=
  if b then Ok tt else Err e.

(* ===================================================================== *)
(** ** SECURITY DEFINER helpers and row-level-security policies *)
(* ===================================================================== *)

Section Policies.
(** The database the statement runs against and the caller, [auth.uid()]
    ([None] for a request without a session). *)
Variable d : db.
Variable uid : option uuid.

(** [SELECT organization_id FROM profiles WHERE id = auth.uid()]. *)
Definition get_my_org : option uuid :=
  match filter (fun p => is_true (sql_eq (Some (Profiles.id p)) uid)) (profiles d) with
  | p :: _ => Profiles.organization_id p
  | [] => None
  end.

(** [EXISTS (SELECT 1 FROM profiles WHERE id = auth.uid()
      AND role = 'admin' AND deleted_at IS NULL)]. *)
Definition am_i_admin : bool :=
  existsb (fun p =>
    is_true (sql_and (sql_and (sql_eq (Some (Profiles.id p)) uid)
                              (Some (bool_decide (Profiles.role p = admin))))
                     (Some (bool_decide (Profiles.deleted_at p = None)))))
    (profiles d).

(** [EXISTS (SELECT 1 FROM profiles WHERE id = auth.uid()
      AND deleted_at IS NULL)]. *)
Definition am_i_active : bool :=
  existsb (fun p =>
    is_true (sql_and (sql_eq (Some (Profiles.id p)) uid)
                     (Some (bool_decide (Profiles.deleted_at p = None)))))
    (profiles d).

(** [is_org_admin(org_id)]: [SELECT role INTO user_role FROM profiles
    WHERE id = auth.uid() AND organization_id = org_id;
    RETURN user_role = 'admin']. *)
Definition is_org_admin (org_id : option uuid) : option bool :=
  let user_role :=
    match filter (fun p =>
            is_true (sql_and (sql_eq (Some (Profiles.id p)) uid)
                             (sql_eq (Profiles.organization_id p) org_id)))
            (profiles d) with
    | p :: _ => Some (Profiles.role p)
    | [] => None
    end in
  sql_eq user_role (Some admin).

(** ["profiles_select_own"]: [USING (auth.uid() = id)]. *)
Definition profiles_select_own (p : Profiles.row) : option bool :=
  sql_eq uid (Some (Profiles.id p)).

(** ["agents_select"]: [USING (organization_id = get_my_org())]. *)
Definition agents_select (a : Agents.row) : option bool :=
  sql_eq (Some (Agents.organization_id a)) get_my_org.

(** ["agents_insert_admin"], and the USING / WITH CHECK expression shared
    by ["agents_update_admin"] and ["agents_delete_admin"]:
    [organization_id = get_my_org() AND am_i_admin()]. *)
Definition agents_insert_admin (a : Agents.row) : option bool :=
  sql_and (sql_eq (Some (Agents.organization_id a)) get_my_org) (Some am_i_admin).

Definition agents_update_admin (a : Agents.row) : option bool :=
  sql_and (sql_eq (Some (Agents.organization_id a)) get_my_org) (Some am_i_admin).

Definition agents_delete_admin (a : Agents.row) : option bool :=
  sql_and (sql_eq (Some (Agents.organization_id a)) get_my_org) (Some am_i_admin).

(** [sub_agents_select_org]: [organization_id IN (SELECT organization_id
    FROM profiles WHERE id = auth.uid())]; the subquery runs as the
    caller and sees the profiles that ["profiles_select_own"] lets
    through. *)
Definition sub_agents_select_org (s : SubAgents.row) : option bool :=
  sql_in (Some (SubAgents.organization_id s))
    (fmap Profiles.organization_id
       (filter (fun p => is_true (sql_eq (Some (Profiles.id p)) uid))
          (filter (fun p => is_true (profiles_select_own p)) (profiles d)))).

(** [sub_agents_insert_admin], [sub_agents_update_admin],
    [sub_agents_delete_admin]: [is_org_admin(organization_id)]. *)
Definition sub_agents_insert_admin (s : SubAgents.row) : option bool :=
  is_org_admin (Some (SubAgents.organization_id s)).

Definition sub_agents_update_admin (s : SubAgents.row) : option bool :=
  is_org_admin (Some (SubAgents.organization_id s)).

Definition sub_agents_delete_admin (s : SubAgents.row) : option bool :=
  is_org_admin (Some (SubAgents.organization_id s)).

(** ["Admins can insert config history"] (migration
    20260126_admin_panel_and_users, dropped by no later migration):
    [WITH CHECK (EXISTS (SELECT 1 FROM profiles
      WHERE profiles.id = auth.uid() AND profiles.role = 'admin'))].
    The subquery runs as the caller, under ["profiles_select_own"]. *)
Definition admins_can_insert_config_history (h : AgentConfigHistory.row) : option bool :=
  Some (existsb (fun p =>
          is_true (sql_and (sql_eq (Some (Profiles.id p)) uid)
                           (Some (bool_decide (Profiles.role p = admin)))))
          (filter (fun p => is_true (profiles_select_own p)) (profiles d))).

(** [SELECT * FROM agents WHERE id = agent_id] as the caller: the first
    visible row, or nothing (reported as "not found"). *)
Definition get_agent (agent_id : uuid) : option Agents.row :=
  head (filter (fun a => bool_decide (Agents.id a = agent_id))
          (filter (fun a => is_true (agents_select a)) (agents d))).

(** [SELECT * FROM agents] as the caller, optionally restricted to
    [is_active = true]. *)
Definition list_agents (active_only : bool) : list Agents.row :=
  filter (fun a => negb active_only || is_true (sql_eq (Agents.is_active a) (Some true)))
    (filter (fun a => is_true (agents_select a)) (agents d)).

(** [SELECT * FROM sub_agents WHERE id = sub_agent_id] as the caller. *)
Definition get_sub_agent (sub_agent_id : uuid) : option SubAgents.row :=
  head (filter (fun s => bool_decide (SubAgents.id s = sub_agent_id))
          (filter (fun s => is_true (sub_agents_select_org s)) (sub_agents d))).
End Policies.

(* ===================================================================== *)
(** ** Column constraints *)
(* ===================================================================== *)

(** [CHECK (temperature >= 0 AND temperature <= 2)]. *)
Definition temperature_check (temperature : option float8) : bool :=
  check_passes
    (sql_and (sql_cmp float8_ge temperature (Some (float8_of_Z 0)))
             (sql_cmp float8_le temperature (Some (float8_of_Z 2)))).

(** [CHECK (max_tokens > 0 AND max_tokens <= 128000)]. *)
Definition max_tokens_check (max_tokens : option Z) : bool :=
  check_passes
    (sql_and (sql_cmp Z.gtb max_tokens (Some 0))
             (sql_cmp Z.leb max_tokens (Some 128000))).

(** The column default
    ['{"rag_enabled": true, "web_search": false, "code_execution": false,
       "image_generation": false}']. *)
Definition default_capabilities : jsonb :=
  JObj (jsonb_build_object
          [("rag_enabled", JBool true); ("web_search", JBool false);
           ("code_execution", JBool false); ("image_generation", JBool false)]).

(* ===================================================================== *)
(** ** Statements on [agents] *)
(* ===================================================================== *)

(** The column list of an [INSERT INTO agents].  [None] in a column with a
    default means the column is not listed. *)
Module AgentInsert.
Record t : Type := Build {
  id : uuid;                       (* supplied, or [uuid_generate_v4()] *)
  organization_id : uuid;
  name : string;
  slug : string;
  role : string;
  description : option string;
  icon : option string;
  system_prompt : option string;
  is_active : option bool;
  ai_model : option string;
  temperature : option float8;
  max_tokens : option Z;
  welcome_message : option string;
  capabilities : option jsonb;
  category : option string
}.
End AgentInsert.

(** The new row, with the column defaults of [CREATE TABLE agents]:
    [version INTEGER DEFAULT 1], [modified_by] NULL,
    [updated_at DEFAULT NOW()]. *)
Definition agent_new_row (now : timestamptz) (i : AgentInsert.t) : Agents.row :=
  Agents.Build
    (AgentInsert.id i) (AgentInsert.organization_id i) (AgentInsert.name i)
    (AgentInsert.slug i) (AgentInsert.role i) (AgentInsert.description i)
    (Some (default "🤖" (AgentInsert.icon i)))
    (AgentInsert.system_prompt i)
    (Some (default true (AgentInsert.is_active i)))
    (Some (default "gpt-4o-mini" (AgentInsert.ai_model i)))
    (Some (default (float8_of_frac 7 10) (AgentInsert.temperature i)))
    (Some (default 2048 (AgentInsert.max_tokens i)))
    (AgentInsert.welcome_message i)
    (Some (default default_capabilities (AgentInsert.capabilities i)))
    (Some (default "general" (AgentInsert.category i)))
    (Some 1) None (Some now).

(** The body of a [PATCH] on an agent ([AgentUpdate] of the API client)
    with the [modified_by] query parameter: the columns an update assigns.
    [None] means the column is not assigned. *)
Module AgentUpdate.
Record t : Type := Build {
  name : option string;
  role : option string;
  description : option string;
  icon : option string;
  system_prompt : option string;
  is_active : option bool;
  ai_model : option string;
  temperature : option float8;
  max_tokens : option Z;
  welcome_message : option string;
  capabilities : option jsonb;
  category : option string;
  modified_by : option uuid
}.
End AgentUpdate.

(** The row an [UPDATE agents SET ...] proposes, before triggers. *)
Definition agent_assign (u : AgentUpdate.t) (OLD : Agents.row) : Agents.row :=
  Agents.Build
    (Agents.id OLD) (Agents.organization_id OLD)
    (assigned (AgentUpdate.name u) (Agents.name OLD))
    (Agents.slug OLD)
    (assigned (AgentUpdate.role u) (Agents.role OLD))
    (assigned_nullable (AgentUpdate.description u) (Agents.description OLD))
    (assigned_nullable (AgentUpdate.icon u) (Agents.icon OLD))
    (assigned_nullable (AgentUpdate.system_prompt u) (Agents.system_prompt OLD))
    (assigned_nullable (AgentUpdate.is_active u) (Agents.is_active OLD))
    (assigned_nullable (AgentUpdate.ai_model u) (Agents.ai_model OLD))
    (assigned_nullable (AgentUpdate.temperature u) (Agents.temperature OLD))
    (assigned_nullable (AgentUpdate.max_tokens u) (Agents.max_tokens OLD))
    (assigned_nullable (AgentUpdate.welcome_message u) (Agents.welcome_message OLD))
    (assigned_nullable (AgentUpdate.capabilities u) (Agents.capabilities OLD))
    (assigned_nullable (AgentUpdate.category u) (Agents.category OLD))
    (Agents.version OLD)
    (assigned_nullable (AgentUpdate.modified_by u) (Agents.modified_by OLD))
    (Agents.updated_at OLD).

(** One entry of the diff:
    [jsonb_build_object(k, jsonb_build_object('old', o, 'new', n))]. *)
Definition change_entry (k : string) (o n : jsonb) : gmap string jsonb :=
  jsonb_build_object [(k, JObj (jsonb_build_object [("old", o); ("new", n)]))].

(** The snapshot [prev_config] of the trigger. *)
Definition prev_config (OLD : Agents.row) : gmap string jsonb :=
  jsonb_build_object
    [("name", JStr (Agents.name OLD));
     ("role", JStr (Agents.role OLD));
     ("description", json_text (Agents.description OLD));
     ("system_prompt", json_text (Agents.system_prompt OLD));
     ("ai_model", json_text (Agents.ai_model OLD));
     ("temperature", json_float (Agents.temperature OLD));
     ("max_tokens", json_int (Agents.max_tokens OLD));
     ("welcome_message", json_text (Agents.welcome_message OLD));
     ("capabilities", json_jsonb (Agents.capabilities OLD));
     ("is_active", json_bool (Agents.is_active OLD))].

(** The diff [changes_json] of the trigger: one [IF ... IS DISTINCT FROM
    ... THEN changes_json := changes_json || ...] per tracked column. *)
Definition changes_json (OLD NEW : Agents.row) : gmap string jsonb :=
  let c := (∅ : gmap string jsonb) in
  let c := if is_distinct_from (Some (Agents.name OLD)) (Some (Agents.name NEW))
           then jsonb_concat c (change_entry "name" (JStr (Agents.name OLD)) (JStr (Agents.name NEW)))
           else c in
  let c := if is_distinct_from (Some (Agents.role OLD)) (Some (Agents.role NEW))
           then jsonb_concat c (change_entry "role" (JStr (Agents.role OLD)) (JStr (Agents.role NEW)))
           else c in
  let c := if is_distinct_from (Agents.system_prompt OLD) (Agents.system_prompt NEW)
           then jsonb_concat c (change_entry "system_prompt"
                                  (json_text (LEFT (Agents.system_prompt OLD) 100))
                                  (json_text (LEFT (Agents.system_prompt NEW) 100)))
           else c in
  let c := if is_distinct_from (Agents.ai_model OLD) (Agents.ai_model NEW)
           then jsonb_concat c (change_entry "ai_model" (json_text (Agents.ai_model OLD))
                                  (json_text (Agents.ai_model NEW)))
           else c in
  let c := if is_distinct_from (Agents.temperature OLD) (Agents.temperature NEW)
           then jsonb_concat c (change_entry "temperature" (json_float (Agents.temperature OLD))
                                  (json_float (Agents.temperature NEW)))
           else c in
  let c := if is_distinct_from (Agents.is_active OLD) (Agents.is_active NEW)
           then jsonb_concat c (change_entry "is_active" (json_bool (Agents.is_active OLD))
                                  (json_bool (Agents.is_active NEW)))
           else c in
  c.

(** [track_agent_config_change()], the BEFORE UPDATE row trigger
    [track_agent_changes]: returns the row to store and the rows it
    inserts into [agent_config_history]. *)
Definition track_agent_config_change (now : timestamptz) (OLD NEW : Agents.row)
  : Agents.row * list AgentConfigHistory.row :=
  let prev := prev_config OLD in
  let changes := changes_json OLD NEW in
  match jsonb_nonempty changes, Agents.modified_by NEW with
  | true, Some who =>
      (Agents.set_version
         (sql_add (COALESCE [Agents.version OLD; Some 0]) (Some 1)) NEW,
       [AgentConfigHistory.Build (Agents.id NEW) who (Some now) (JObj changes) (JObj prev) None])
  | _, _ => (NEW, [])
  end.

(** [update_updated_at_column()], the BEFORE UPDATE row trigger
    [update_agents_updated_at]. *)
Definition update_updated_at_column (now : timestamptz) (NEW : Agents.row) : Agents.row :=
  Agents.set_updated_at (Some now) NEW.

(** The BEFORE UPDATE triggers of [agents] fire in name order:
    [track_agent_changes], then [update_agents_updated_at]. *)
Definition agents_before_update (now : timestamptz) (OLD NEW : Agents.row)
  : Agents.row * list AgentConfigHistory.row :=
  let '(NEW1, recs) := track_agent_config_change now OLD NEW in
  (update_updated_at_column now NEW1, recs).

Definition with_agents (l : list Agents.row) (d : db) : db :=
  Db (profiles d) l (sub_agents d) (agent_config_history d).

(** Does a profile with this id exist (target of the foreign keys
    [agents_modified_by_fk] and [ach_changed_by_fk])? *)
Definition profile_exists (d : db) (who : uuid) : bool :=
  existsb (fun p => bool_decide (Profiles.id p = who)) (profiles d).

Definition agent_exists (d : db) (agent_id : uuid) : bool :=
  existsb (fun a => bool_decide (Agents.id a = agent_id)) (agents d).

Definition fk_profile (d : db) (who : option uuid) : bool :=
  match who with Some w => profile_exists d w | None => true end.

(** [INSERT INTO agents (...) VALUES (...)] as caller [uid].  Order of the
    checks: WITH CHECK of the insert policy, column CHECKs, then the
    unique indexes.  (The foreign key to [organizations] holds whenever
    the policy passes, the organization being the caller's own.) *)
Definition insert_agent (d : db) (uid : option uuid) (now : timestamptz)
    (i : AgentInsert.t) : result db :=
  let NEW := agent_new_row now i in
  _ ← require (is_true (agents_insert_admin d uid NEW)) insufficient_privilege;
  _ ← require (temperature_check (Agents.temperature NEW))
        (check_violation "agents_temperature_check");
  _ ← require (max_tokens_check (Agents.max_tokens NEW))
        (check_violation "agents_max_tokens_check");
  _ ← require (negb (agent_exists d (Agents.id NEW))) (unique_violation "agents_pkey");
  _ ← require (negb (existsb (fun a =>
                  bool_decide (Agents.organization_id a = Agents.organization_id NEW)
                  && bool_decide (Agents.slug a = Agents.slug NEW)) (agents d)))
        (unique_violation "agents_organization_id_slug_key");
  Ok (with_agents (agents d ++ [NEW]) d).

(** The update of one row that the statement selected. *)
Definition update_agent_row (d : db) (uid : option uuid) (now : timestamptz)
    (u : AgentUpdate.t) (OLD : Agents.row) : result (Agents.row * list AgentConfigHistory.row) :=
  let '(NEW, recs) := agents_before_update now OLD (agent_assign u OLD) in
  _ ← require (is_true (agents_update_admin d uid NEW)) insufficient_privilege;
  _ ← require (temperature_check (Agents.temperature NEW))
        (check_violation "agents_temperature_check");
  _ ← require (max_tokens_check (Agents.max_tokens NEW))
        (check_violation "agents_max_tokens_check");
  _ ← require (fk_profile d (Agents.modified_by NEW))
        (foreign_key_violation "agents_modified_by_fk");
  Ok (NEW, recs).

(** The rows [UPDATE agents ... WHERE id = target] touches: those that
    match and pass the USING expression of the update policy. *)
Definition update_agent_selects (d : db) (uid : option uuid) (target : uuid)
    (a : Agents.row) : bool :=
  bool_decide (Agents.id a = target) && is_true (agents_update_admin d uid a).

Fixpoint update_agent_rows (d : db) (uid : option uuid) (now : timestamptz)
    (target : uuid) (u : AgentUpdate.t) (rows : list Agents.row)
  : result (list Agents.row * list AgentConfigHistory.row) :=
  match rows with
  | [] => Ok ([], [])
  | OLD :: rest =>
      if update_agent_selects d uid target OLD then
        '(NEW, recs) ← update_agent_row d uid now u OLD;
        '(rest', recs') ← update_agent_rows d uid now target u rest;
        Ok (NEW :: rest', recs ++ recs')
      else
        '(rest', recs') ← update_agent_rows d uid now target u rest;
        Ok (OLD :: rest', recs')
  end.

(** [UPDATE agents SET ... WHERE id = target] as caller [uid]. *)
Definition update_agent (d : db) (uid : option uuid) (now : timestamptz)
    (target : uuid) (u : AgentUpdate.t) : result db :=
  '(rows, recs) ← update_agent_rows d uid now target u (agents d);
  Ok (Db (profiles d) rows (sub_agents d) (agent_config_history d ++ recs)).

(** The rows [DELETE FROM agents WHERE id = target] removes. *)
Definition delete_agent_selects (d : db) (uid : option uuid) (target : uuid)
    (a : Agents.row) : bool :=
  bool_decide (Agents.id a = target) && is_true (agents_delete_admin d uid a).

(** [DELETE FROM agents WHERE id = target] as caller [uid], with the
    [ON DELETE CASCADE] of [sub_agents.parent_agent_id] and
    [agent_config_history.agent_id]. *)
Definition delete_agent (d : db) (uid : option uuid) (target : uuid) : db :=
  if existsb (delete_agent_selects d uid target) (agents d) then
    Db (profiles d)
       (filter (fun a => negb (delete_agent_selects d uid target a)) (agents d))
       (filter (fun s => negb (bool_decide (SubAgents.parent_agent_id s = target)))
          (sub_agents d))
       (filter (fun h => negb (bool_decide (AgentConfigHistory.agent_id h = target)))
          (agent_config_history d))
  else d.

(** [INSERT INTO agent_config_history (...) VALUES (...)] as caller
    [uid], where the policy ["Admins can insert config history"] is
    installed. *)
Definition insert_agent_config_history (d : db) (uid : option uuid)
    (h : AgentConfigHistory.row) : result db :=
  _ ← require (is_true (admins_can_insert_config_history d uid h)) insufficient_privilege;
  _ ← require (agent_exists d (AgentConfigHistory.agent_id h)) (foreign_key_violation "ach_agent_fk");
  _ ← require (profile_exists d (AgentConfigHistory.changed_by h))
        (foreign_key_violation "ach_changed_by_fk");
  Ok (Db (profiles d) (agents d) (sub_agents d) (agent_config_history d ++ [h])).

(* ===================================================================== *)
(** ** Statements on [sub_agents] *)
(* ===================================================================== *)

(** The column list of an [INSERT INTO sub_agents] (the create form of
    the admin panel, under a parent agent). *)
Module SubAgentInsert.
Record t : Type := Build {
  id : uuid;                       (* supplied, or [gen_random_uuid()] *)
  parent_agent_id : uuid;
  organization_id : uuid;
  name : string;
  slug : string;
  role : string;
  description : option string;
  icon : option string;
  ai_model : option string;
  temperature : option float8;
  max_tokens : option Z;
  system_prompt : option string;
  capabilities : option jsonb;
  is_active : option bool;
  created_by : option uuid
}.
End SubAgentInsert.

(** The new row, with the column defaults of [CREATE TABLE sub_agents]. *)
Definition sub_agent_new_row (now : timestamptz) (i : SubAgentInsert.t) : SubAgents.row :=
  SubAgents.Build
    (SubAgentInsert.id i) (SubAgentInsert.parent_agent_id i)
    (SubAgentInsert.organization_id i) (SubAgentInsert.name i)
    (SubAgentInsert.slug i) (SubAgentInsert.role i)
    (SubAgentInsert.description i)
    (Some (default "🔧" (SubAgentInsert.icon i)))
    (Some (default "gpt-4o-mini" (SubAgentInsert.ai_model i)))
    (Some (default (float8_of_frac 7 10) (SubAgentInsert.temperature i)))
    (Some (default 2048 (SubAgentInsert.max_tokens i)))
    (SubAgentInsert.system_prompt i)
    (Some (default default_capabilities (SubAgentInsert.capabilities i)))
    (Some (default true (SubAgentInsert.is_active i)))
    (Some now) (SubAgentInsert.created_by i) None.

(** The body of a [PATCH] on a sub-agent (the edit form of the admin
    panel) with the [modified_by] query parameter. *)
Module SubAgentUpdate.
Record t : Type := Build {
  name : option string;
  role : option string;
  description : option string;
  icon : option string;
  ai_model : option string;
  temperature : option float8;
  max_tokens : option Z;
  system_prompt : option string;
  is_active : option bool;
  capabilities : option jsonb;
  modified_by : option uuid
}.
End SubAgentUpdate.

Definition sub_agent_assign (u : SubAgentUpdate.t) (OLD : SubAgents.row) : SubAgents.row :=
  SubAgents.Build
    (SubAgents.id OLD) (SubAgents.parent_agent_id OLD) (SubAgents.organization_id OLD)
    (assigned (SubAgentUpdate.name u) (SubAgents.name OLD))
    (SubAgents.slug OLD)
    (assigned (SubAgentUpdate.role u) (SubAgents.role OLD))
    (assigned_nullable (SubAgentUpdate.description u) (SubAgents.description OLD))
    (assigned_nullable (SubAgentUpdate.icon u) (SubAgents.icon OLD))
    (assigned_nullable (SubAgentUpdate.ai_model u) (SubAgents.ai_model OLD))
    (assigned_nullable (SubAgentUpdate.temperature u) (SubAgents.temperature OLD))
    (assigned_nullable (SubAgentUpdate.max_tokens u) (SubAgents.max_tokens OLD))
    (assigned_nullable (SubAgentUpdate.system_prompt u) (SubAgents.system_prompt OLD))
    (assigned_nullable (SubAgentUpdate.capabilities u) (SubAgents.capabilities OLD))
    (assigned_nullable (SubAgentUpdate.is_active u) (SubAgents.is_active OLD))
    (SubAgents.updated_at OLD) (SubAgents.created_by OLD)
    (assigned_nullable (SubAgentUpdate.modified_by u) (SubAgents.modified_by OLD)).

(** [update_sub_agents_updated_at()], the BEFORE UPDATE row trigger
    [sub_agents_updated_at]. *)
Definition update_sub_agents_updated_at (now : timestamptz) (NEW : SubAgents.row)
  : SubAgents.row :=
  SubAgents.set_updated_at (Some now) NEW.

Definition with_sub_agents (l : list SubAgents.row) (d : db) : db :=
  Db (profiles d) (agents d) l (agent_config_history d).

Definition sub_agent_exists (d : db) (sub_agent_id : uuid) : bool :=
  existsb (fun s => bool_decide (SubAgents.id s = sub_agent_id)) (sub_agents d).

(** [INSERT INTO sub_agents (...) VALUES (...)] as caller [uid]. *)
Definition insert_sub_agent (d : db) (uid : option uuid) (now : timestamptz)
    (i : SubAgentInsert.t) : result db :=
  let NEW := sub_agent_new_row now i in
  _ ← require (is_true (sub_agents_insert_admin d uid NEW)) insufficient_privilege;
  _ ← require (temperature_check (SubAgents.temperature NEW))
        (check_violation "sub_agents_temperature_check");
  _ ← require (max_tokens_check (SubAgents.max_tokens NEW))
        (check_violation "sub_agents_max_tokens_check");
  _ ← require (negb (sub_agent_exists d (SubAgents.id NEW)))
        (unique_violation "sub_agents_pkey");
  _ ← require (negb (existsb (fun s =>
                  bool_decide (SubAgents.parent_agent_id s = SubAgents.parent_agent_id NEW)
                  && bool_decide (SubAgents.slug s = SubAgents.slug NEW)) (sub_agents d)))
        (unique_violation "sub_agents_parent_agent_id_slug_key");
  _ ← require (agent_exists d (SubAgents.parent_agent_id NEW))
        (foreign_key_violation "sub_agents_parent_agent_id_fkey");
  _ ← require (fk_profile d (SubAgents.created_by NEW))
        (foreign_key_violation "sub_agents_created_by_fkey");
  Ok (with_sub_agents (sub_agents d ++ [NEW]) d).

Definition update_sub_agent_row (d : db) (uid : option uuid) (now : timestamptz)
    (u : SubAgentUpdate.t) (OLD : SubAgents.row) : result SubAgents.row :=
  let NEW := update_sub_agents_updated_at now (sub_agent_assign u OLD) in
  _ ← require (is_true (sub_agents_update_admin d uid NEW)) insufficient_privilege;
  _ ← require (temperature_check (SubAgents.temperature NEW))
        (check_violation "sub_agents_temperature_check");
  _ ← require (max_tokens_check (SubAgents.max_tokens NEW))
        (check_violation "sub_agents_max_tokens_check");
  _ ← require (fk_profile d (SubAgents.modified_by NEW))
        (foreign_key_violation "sub_agents_modified_by_fkey");
  Ok NEW.

Definition update_sub_agent_selects (d : db) (uid : option uuid) (target : uuid)
    (s : SubAgents.row) : bool :=
  bool_decide (SubAgents.id s = target) && is_true (sub_agents_update_admin d uid s).

Fixpoint update_sub_agent_rows (d : db) (uid : option uuid) (now : timestamptz)
    (target : uuid) (u : SubAgentUpdate.t) (rows : list SubAgents.row)
  : result (list SubAgents.row) :=
  match rows with
  | [] => Ok []
  | OLD :: rest =>
      if update_sub_agent_selects d uid target OLD then
        NEW ← update_sub_agent_row d uid now u OLD;
        rest' ← update_sub_agent_rows d uid now target u rest;
        Ok (NEW :: rest')
      else
        rest' ← update_sub_agent_rows d uid now target u rest;
        Ok (OLD :: rest')
  end.

(** [UPDATE sub_agents SET ... WHERE id = target] as caller [uid]. *)
Definition update_sub_agent (d : db) (uid : option uuid) (now : timestamptz)
    (target : uuid) (u : SubAgentUpdate.t) : result db :=
  rows ← update_sub_agent_rows d uid now target u (sub_agents d);
  Ok (with_sub_agents rows d).

(** [DELETE FROM sub_agents WHERE id = target] as caller [uid]. *)
Definition delete_sub_agent (d : db) (uid : option uuid) (target : uuid) : db :=
  with_sub_agents
    (filter (fun s => negb (bool_decide (SubAgents.id s = target)
                           && is_true (sub_agents_delete_admin d uid s)))
       (sub_agents d)) d.

(* ===================================================================== *)
(** ** Statements on [profiles] *)
(* ===================================================================== *)

(** The columns of the new [auth.users] row the sign-up trigger reads;
    [raw_user_meta_data_full_name] is the value of
    [raw_user_meta_data->>'full_name'] (NULL when the key is missing). *)
Module AuthUsers.
Record row : Type := Build {
  id : uuid;
  email : option string;
  raw_user_meta_data_full_name : option string
}.
End AuthUsers.

(** [handle_new_user()], the AFTER INSERT trigger [on_auth_user_created]:
    [INSERT INTO public.profiles (id, email, full_name, role) VALUES
     (NEW.id, NEW.email, COALESCE(NEW.raw_user_meta_data->>'full_name',
     NEW.email), 'user')].  The columns not listed take their defaults:
    [organization_id], [avatar_url] and [deleted_at] are NULL, the two
    timestamps are [NOW()]. *)
Definition handle_new_user_row (now : timestamptz) (NEW : AuthUsers.row) : Profiles.row :=
  Profiles.Build
    (AuthUsers.id NEW)
    None
    (AuthUsers.email NEW)
    (COALESCE [AuthUsers.raw_user_meta_data_full_name NEW; AuthUsers.email NEW])
    None
    user
    (Some now) (Some now)
    None.

Definition handle_new_user (d : db) (now : timestamptz) (NEW : AuthUsers.row) : result db :=
  _ ← require (negb (profile_exists d (AuthUsers.id NEW))) (unique_violation "profiles_pkey");
  Ok (with_profiles (profiles d ++ [handle_new_user_row now NEW]) d).

(** [update_updated_at_column()] as the BEFORE UPDATE row trigger
    [update_profiles_updated_at]. *)
Definition update_profiles_updated_at (now : timestamptz) (NEW : Profiles.row) : Profiles.row :=
  Profiles.set_updated_at (Some now) NEW.

(** [is_user_active(user_id)]: [EXISTS (SELECT 1 FROM profiles
      WHERE id = user_id AND deleted_at IS NULL)]. *)
Definition is_user_active (d : db) (user_id : uuid) : bool :=
  existsb (fun p => bool_decide (Profiles.id p = user_id)
                    && bool_decide (Profiles.deleted_at p = None)) (profiles d).

(** [soft_delete_user(target_user_id)]: [UPDATE profiles
      SET deleted_at = NOW() WHERE id = target_user_id AND deleted_at IS NULL;
      RETURN FOUND]. *)
Definition soft_delete_user (d : db) (now : timestamptz) (target_user_id : uuid)
  : db * bool :=
  let hit p := bool_decide (Profiles.id p = target_user_id)
               && bool_decide (Profiles.deleted_at p = None) in
  (with_profiles
     (fmap (fun p => if hit p
                    then update_profiles_updated_at now (Profiles.set_deleted_at (Some now) p)
                    else p) (profiles d)) d,
   existsb hit (profiles d)).

(** [restore_user(target_user_id)]: [UPDATE profiles
      SET deleted_at = NULL WHERE id = target_user_id
      AND deleted_at IS NOT NULL; RETURN FOUND]. *)
Definition restore_user (d : db) (now : timestamptz) (target_user_id : uuid)
  : db * bool :=
  let hit p := bool_decide (Profiles.id p = target_user_id)
               && negb (bool_decide (Profiles.deleted_at p = None)) in
  (with_profiles
     (fmap (fun p => if hit p
                    then update_profiles_updated_at now (Profiles.set_deleted_at None p)
                    else p) (profiles d)) d,
   existsb hit (profiles d)).

(** The role assignment of the set-up notes, run from the SQL console:
    [UPDATE profiles SET role = r, organization_id = org, full_name = n
     WHERE email = e]. *)
Definition assign_role (d : db) (now : timestamptz) (e : string) (r : app_role)
    (org : uuid) (n : string) : db :=
  with_profiles
    (fmap (fun p =>
            if is_true (sql_eq (Profiles.email p) (Some e)) then
              update_profiles_updated_at now
                (Profiles.Build (Profiles.id p) (Some org) (Profiles.email p)
                   (Some n) (Profiles.avatar_url p) r
                   (Profiles.created_at p) (Profiles.updated_at p)
                   (Profiles.deleted_at p))
            else p) (profiles d)) d.

(* ===================================================================== *)
(** ** The realtime reducer of [useAgentsRealtime] *)
(* ===================================================================== *)

(** The payload of a [postgres_changes] event on [agents]: the event type
    with [payload.new], or the key of [payload.old] for a delete. *)
Inductive postgres_change : Type :=
  | INSERT (newAgent : Agents.row)
  | UPDATE (updatedAgent : Agents.row)
  | DELETE (deletedAgent_id : uuid).

(** Truthiness of a nullable boolean field in a condition. *)
Definition truthy (b : option bool) : bool :=
  match b with Some true => true | _ => false end.

(** The state update the handler passes to [setAgents] for one event. *)
Definition on_postgres_changes (activeOnly : bool) (payload : postgres_change)
    (prev : list Agents.row) : list Agents.row :=
  match payload with
  | INSERT newAgent =>
      if negb activeOnly || truthy (Agents.is_active newAgent)
      then prev ++ [newAgent]
      else prev
  | UPDATE updatedAgent =>
      if activeOnly && negb (truthy (Agents.is_active updatedAgent)) then
        filter (fun a => negb (bool_decide (Agents.id a = Agents.id updatedAgent))) prev
      else if activeOnly && truthy (Agents.is_active updatedAgent)
              && negb (bool_decide
                         (is_Some (find (fun a => bool_decide (Agents.id a = Agents.id updatedAgent))
                                     prev))) then
        prev ++ [updatedAgent]
      else
        fmap (fun a => if bool_decide (Agents.id a = Agents.id updatedAgent)
                      then updatedAgent else a) prev
  | DELETE deletedAgent_id =>
      filter (fun a => negb (bool_decide (Agents.id a = deletedAgent_id))) prev
  end.

(** The reconciliation vocabulary of the design document, and what each
    operation means on a subscriber's view. *)
Inductive ReconciliationOp : Type :=
  | Upsert (entity : Agents.row)
  | Remove (entityId : uuid).

(** [Remove] drops every entry with the id; [Upsert] replaces the entries
    with the entity's id, or adds the entity when there is none. *)
Definition apply_op (op : ReconciliationOp) (view : list Agents.row) : list Agents.row :=
  match op with
  | Remove i => filter (fun a => Agents.id a ≠ i) view
  | Upsert e =>
      if decide (Agents.id e ∈ fmap Agents.id view)
      then fmap (fun a => if decide (Agents.id a = Agents.id e) then e else a) view
      else view ++ [e]
  end.

(* ===================================================================== *)
(** ** Requests and reachable states *)
(* ===================================================================== *)

(** The statements a deployment receives: sign-ups, the role assignment
    of the set-up notes, the soft-delete helpers, and the statements of
    authenticated callers on the configuration tables. *)
Inductive operation : Type :=
  | SignUp (NEW : AuthUsers.row)
  | AssignRole (email : string) (r : app_role) (org : uuid) (full_name : string)
  | SoftDeleteUser (target : uuid)
  | RestoreUser (target : uuid)
  | InsertAgent (uid : option uuid) (i : AgentInsert.t)
  | UpdateAgent (uid : option uuid) (target : uuid) (u : AgentUpdate.t)
  | DeleteAgent (uid : option uuid) (target : uuid)
  | InsertSubAgent (uid : option uuid) (i : SubAgentInsert.t)
  | UpdateSubAgent (uid : option uuid) (target : uuid) (u : SubAgentUpdate.t)
  | DeleteSubAgent (uid : option uuid) (target : uuid)
  | InsertConfigHistory (uid : option uuid) (h : AgentConfigHistory.row).

Definition run (now : timestamptz) (op : operation) (d : db) : result db :=
  match op with
  | SignUp NEW => handle_new_user d now NEW
  | AssignRole email r org full_name => Ok (assign_role d now email r org full_name)
  | SoftDeleteUser target => Ok (soft_delete_user d now target).1
  | RestoreUser target => Ok (restore_user d now target).1
  | InsertAgent uid i => insert_agent d uid now i
  | UpdateAgent uid target u => update_agent d uid now target u
  | DeleteAgent uid target => Ok (delete_agent d uid target)
  | InsertSubAgent uid i => insert_sub_agent d uid now i
  | UpdateSubAgent uid target u => update_sub_agent d uid now target u
  | DeleteSubAgent uid target => Ok (delete_sub_agent d uid target)
  | InsertConfigHistory uid h => insert_agent_config_history d uid h
  end.

(** A statement that raises an error is rolled back. *)
Definition step (now : timestamptz) (op : operation) (d : db) : db :=
  match run now op d with Ok d' => d' | Err _ => d end.

Definition run_all (ops : list (timestamptz * operation)) (d : db) : db :=
  fold_left (fun d x => step x.1 x.2 d) ops d.

Definition empty_db : db := Db [] [] [] [].

Definition reachable (d : db) : Prop := ∃ ops, run_all ops empty_db = d.



(** The number of records of a history table that reference an agent. *)
Definition count_for (hist : list AgentConfigHistory.row) (agent_id : uuid) : Z :=
  Z.of_nat (length (filter (fun h => AgentConfigHistory.agent_id h = agent_id) hist)).

(** The number of audit records that reference an agent. *)
Definition audit_count (d : db) (agent_id : uuid) : Z :=
  count_for (agent_config_history d) agent_id.

(** The primary keys. *)
Definition pk_profiles (d : db) : Prop := NoDup (fmap Profiles.id (profiles d)).
Definition pk_agents (d : db) : Prop := NoDup (fmap Agents.id (agents d)).
Definition pk_sub_agents (d : db) : Prop := NoDup (fmap SubAgents.id (sub_agents d)).

(** Whether an update changes one of the six tracked columns. *)
Definition tracked_change (OLD NEW : Agents.row) : Prop :=
  Agents.name OLD ≠ Agents.name NEW
  ∨ Agents.role OLD ≠ Agents.role NEW
  ∨ Agents.system_prompt OLD ≠ Agents.system_prompt NEW
  ∨ Agents.ai_model OLD ≠ Agents.ai_model NEW
  ∨ Agents.temperature OLD ≠ Agents.temperature NEW
  ∨ Agents.is_active OLD ≠ Agents.is_active NEW.






(* ===================================================================== *)
(** ** Vocabulary of the statements below *)
(* ===================================================================== *)

(** The row a soft delete, respectively a restore, leaves for a profile. *)
Definition deactivated (now : timestamptz) (p : Profiles.row) : Profiles.row :=
  Profiles.set_updated_at (Some now) (Profiles.set_deleted_at (Some now) p).

Definition reactivated (now : timestamptz) (p : Profiles.row) : Profiles.row :=
  Profiles.set_updated_at (Some now) (Profiles.set_deleted_at None p).







(** The record the trigger writes for an accepted change of [OLD]. *)
Definition audit_record (now : timestamptz) (OLD NEW : Agents.row) (who : uuid)
  : AgentConfigHistory.row :=
  AgentConfigHistory.Build (Agents.id OLD) who (Some now)
    (JObj (changes_json OLD NEW)) (JObj (prev_config OLD)) None.

(** The two origins of an audit record: written by the update trigger
    for a selected row of an accepted update, or inserted directly by a
    caller whose profile has the admin role. *)
Definition written_by_trigger (now : timestamptz) (op : operation) (d : db)
    (h : AgentConfigHistory.row) : Prop :=
  ∃ uid target u OLD who,
    op = UpdateAgent uid target u
    ∧ OLD ∈ agents d ∧ update_agent_selects d uid target OLD = true
    ∧ tracked_change OLD (agent_assign u OLD)
    ∧ Agents.modified_by (agent_assign u OLD) = Some who
    ∧ h = audit_record now OLD (agent_assign u OLD) who.

Definition inserted_by_admin (op : operation) (d : db) (h : AgentConfigHistory.row)
  : Prop :=
  ∃ uid p,
    op = InsertConfigHistory uid h
    ∧ p ∈ profiles d ∧ uid = Some (Profiles.id p) ∧ Profiles.role p = admin.


(* ===================================================================== *)
(** ** Demo data *)
(* ===================================================================== *)

Module Demo.
(** The demo tenant and a second tenant. *)
Definition org_2b : uuid := 1%N.
Definition org_other : uuid := 2%N.

Definition mk_profile (i : uuid) (org : option uuid) (r : app_role)
    (deleted : option timestamptz) : Profiles.row :=
  Profiles.Build i org None None None r (Some 0) (Some 0) deleted.

Definition admin_2b : Profiles.row := mk_profile 10%N (Some org_2b) admin None.
Definition member_2b : Profiles.row := mk_profile 11%N (Some org_2b) user None.
Definition gone_2b : Profiles.row := mk_profile 12%N (Some org_2b) user (Some 500).
Definition gone_admin_2b : Profiles.row := mk_profile 13%N (Some org_2b) admin (Some 500).
Definition admin_other : Profiles.row := mk_profile 20%N (Some org_other) admin None.

Definition copy_insert : AgentInsert.t :=
  AgentInsert.Build 55%N org_2b "Agent Copy" "agent-copy" "Copywriting Specialist"
    None None None (Some true) (Some "gpt-4o-mini") (Some (float8_of_frac 8 10))
    (Some 4096) None None (Some "marketing").

Definition agent_copy : Agents.row := agent_new_row 0 copy_insert.

Definition ads_insert : AgentInsert.t :=
  AgentInsert.Build 66%N org_2b "Agent ADS" "agent-ads" "Advertising Specialist"
    None None None (Some false) (Some "gpt-4o") (Some (float8_of_frac 6 10))
    (Some 4096) None None (Some "advertising").

Definition agent_ads : Agents.row := agent_new_row 0 ads_insert.

Definition writer_insert : SubAgentInsert.t :=
  SubAgentInsert.Build 77%N 55%N org_2b "Hook Writer" "hook-writer" "Hooks"
    None None None None None None None None (Some 10%N).

Definition sub_writer : SubAgents.row := sub_agent_new_row 0 writer_insert.

Definition demo : db :=
  Db [admin_2b; member_2b; gone_2b; gone_admin_2b; admin_other]
     [agent_copy; agent_ads] [sub_writer] [].

(** A made-up audit record for [agent_copy]. *)
Definition forged : AgentConfigHistory.row :=
  AgentConfigHistory.Build 55%N 10%N (Some 1) (JObj ∅) (JObj ∅) (Some "made up").


Definition set_temperature (t : float8) (who : uuid) : AgentUpdate.t :=
  AgentUpdate.Build None None None None None None None (Some t) None None None None
    (Some who).

Definition rename_writer : SubAgentUpdate.t :=
  SubAgentUpdate.Build (Some "Hook Writer 2") None None None None None None None None
    None (Some 10%N).

(** A short history: an admin of 2B is set up, creates the agent
    [agent_copy], and raises its temperature. *)
Definition setup : list (timestamptz * operation) :=
  [(0, SignUp (AuthUsers.Build 10%N (Some "admin@2b.com") (Some "Admin 2B")));
   (1, AssignRole "admin@2b.com" admin org_2b "Admin 2B");
   (2, InsertAgent (Some 10%N) copy_insert)].

Definition story : list (timestamptz * operation) :=
  setup ++ [(3, UpdateAgent (Some 10%N) 55%N (set_temperature (float8_of_frac 12 10) 10%N))].

End Demo.

(* ===================================================================== *)
(** ** Tenants of the configuration tables *)
(* ===================================================================== *)

(** The agents, respectively sub-agents, of a table that belong to other
    tenants than the caller's: those whose [organization_id] is not the
    one [get_my_org()] resolves for the caller. *)
Definition foreign_agents (d : db) (uid : option uuid) (rows : list Agents.row)
  : list Agents.row :=
  filter (fun a => Some (Agents.organization_id a) ≠ get_my_org d uid) rows.

Definition foreign_sub_agents (d : db) (uid : option uuid) (rows : list SubAgents.row)
  : list SubAgents.row :=
  filter (fun s => Some (SubAgents.organization_id s) ≠ get_my_org d uid) rows.

(* ===================================================================== *)
(** ** Integrity constraints as state predicates *)
(* ===================================================================== *)

(** The foreign keys of the configuration tables, row by row:
    [sub_agents.parent_agent_id], [sub_agents.created_by] and
    [sub_agents.modified_by]; [agent_config_history.agent_id]
    ([ach_agent_fk]) and [agent_config_history.changed_by]
    ([ach_changed_by_fk]); [agents.modified_by]
    ([agents_modified_by_fk]). *)
Definition sub_agent_refs (d : db) (s : SubAgents.row) : Prop :=
  SubAgents.parent_agent_id s ∈ Agents.id <$> agents d
  ∧ fk_profile d (SubAgents.created_by s) = true
  ∧ fk_profile d (SubAgents.modified_by s) = true.

Definition audit_refs (d : db) (h : AgentConfigHistory.row) : Prop :=
  AgentConfigHistory.agent_id h ∈ Agents.id <$> agents d
  ∧ AgentConfigHistory.changed_by h ∈ Profiles.id <$> profiles d.

Definition agent_refs (d : db) (a : Agents.row) : Prop :=
  fk_profile d (Agents.modified_by a) = true.

Definition foreign_keys_hold (d : db) : Prop :=
  (∀ s, s ∈ sub_agents d → sub_agent_refs d s)
  ∧ (∀ h, h ∈ agent_config_history d → audit_refs d h)
  ∧ (∀ a, a ∈ agents d → agent_refs d a).

(** The unique indexes [UNIQUE(organization_id, slug)] of [agents] and
    [UNIQUE(parent_agent_id, slug)] of [sub_agents]. *)
Definition agent_slug_key (a : Agents.row) : uuid * string :=
  (Agents.organization_id a, Agents.slug a).

Definition sub_agent_slug_key (s : SubAgents.row) : uuid * string :=
  (SubAgents.parent_agent_id s, SubAgents.slug s).

Definition unique_slugs (d : db) : Prop :=
  NoDup (agent_slug_key <$> agents d) ∧ NoDup (sub_agent_slug_key <$> sub_agents d).

(* ===================================================================== *)
(** ** Reading the audit table *)
(* ===================================================================== *)

(** ["agent_config_history_select"] (consolidated policy fix):
    [USING (EXISTS (SELECT 1 FROM agents
       WHERE agents.id = agent_config_history.agent_id
       AND agents.organization_id = get_my_org()))].
    The subquery runs as the caller and sees the agents that
    ["agents_select"] lets through. *)
Definition agent_config_history_select (d : db) (uid : option uuid)
    (h : AgentConfigHistory.row) : option bool :=
  Some (existsb (fun a =>
          is_true (sql_and (sql_eq (Some (Agents.id a))
                                   (Some (AgentConfigHistory.agent_id h)))
                           (sql_eq (Some (Agents.organization_id a)) (get_my_org d uid))))
          (filter (fun a => is_true (agents_select d uid a)) (agents d))).

(** ["Users can view agent config history"] (migration
    20260126_admin_panel_and_users, dropped by no later migration):
    [USING (EXISTS (SELECT 1 FROM agents a
       JOIN profiles p ON p.organization_id = a.organization_id
       WHERE a.id = agent_config_history.agent_id AND p.id = auth.uid()))].
    Both tables of the join are read as the caller. *)
Definition users_can_view_agent_config_history (d : db) (uid : option uuid)
    (h : AgentConfigHistory.row) : option bool :=
  Some (existsb (fun a =>
          existsb (fun p =>
            is_true (sql_eq (Profiles.organization_id p) (Some (Agents.organization_id a)))
            && is_true (sql_and (sql_eq (Some (Agents.id a))
                                        (Some (AgentConfigHistory.agent_id h)))
                                (sql_eq (Some (Profiles.id p)) uid)))
            (filter (fun p => is_true (profiles_select_own uid p)) (profiles d)))
          (filter (fun a => is_true (agents_select d uid a)) (agents d))).

(** The two SELECT policies are permissive: a record is visible when one
    of them admits it. *)
Definition agent_config_history_visible (d : db) (uid : option uuid)
    (h : AgentConfigHistory.row) : bool :=
  is_true (agent_config_history_select d uid h)
  || is_true (users_can_view_agent_config_history d uid h).

(** [SELECT * FROM agent_config_history WHERE agent_id = agent_id] as the
    caller. *)
Definition list_agent_config_history (d : db) (uid : option uuid) (agent_id : uuid)
  : list AgentConfigHistory.row :=
  filter (fun h => bool_decide (AgentConfigHistory.agent_id h = agent_id))
    (filter (fun h => agent_config_history_visible d uid h) (agent_config_history d)).

(* ===================================================================== *)
(** ** The content of an audit record *)
(* ===================================================================== *)



(* ===================================================================== *)
(** ** The subscriber's list over time *)
(* ===================================================================== *)

(** The handler of [useAgentsRealtime] over a sequence of events: each
    event queues one update of the list, and the updates run in order. *)
Definition replay (activeOnly : bool) (events : list postgres_change)
    (prev : list Agents.row) : list Agents.row :=
  fold_left (fun view payload => on_postgres_changes activeOnly payload view) events prev.

(* ===================================================================== *)
(** ** The slug of a new sub-agent *)
(* ===================================================================== *)

(** The create form of the admin panel derives the slug from the name,
    whenever the name is not empty: [toLowerCase()], then
    [replace(/[^a-z0-9\s-]/g, '')], [replace(/[\s_]+/g, '-')],
    [replace(/-+/g, '-')] and [slice(0, 50)].  A string is the list of
    its code units; the model covers the code units below 256
    (ISO 8859-1), which an [ascii] holds. *)
Definition code (c : ascii) : N := N_of_ascii c.

Definition in_range (lo hi : N) (c : ascii) : bool :=
  (lo <=? code c)%N && (code c <=? hi)%N.

(** [toLowerCase] on one code unit: the letters [A]-[Z], and the capital
    letters U+00C0 to U+00DE other than the multiplication sign U+00D7,
    move up by 32. *)
Definition toLowerCase_unit (c : ascii) : ascii :=
  if in_range 65 90 c || (in_range 192 222 c && negb (code c =? 215)%N)
  then ascii_of_N (code c + 32)
  else c.

Definition toLowerCase (s : list ascii) : list ascii := toLowerCase_unit <$> s.

(** The class [\s]: tab, line feed, vertical tab, form feed, carriage
    return, space and no-break space. *)
Definition is_space (c : ascii) : bool :=
  in_range 9 13 c || (code c =? 32)%N || (code c =? 160)%N.

Definition is_hyphen (c : ascii) : bool := (code c =? 45)%N.

(** The class [[a-z0-9\s-]], whose complement the first replacement
    removes. *)
Definition kept_by_first_replace (c : ascii) : bool :=
  in_range 97 122 c || in_range 48 57 c || is_space c || is_hyphen c.

(** The class [[\s_]] of the second replacement. *)
Definition is_space_or_underscore (c : ascii) : bool :=
  is_space c || (code c =? 95)%N.

(** [s.replace(/[class]+/g, rep)]: every maximal run of characters of
    the class becomes one [rep].  [in_run] tells whether the previous
    character belonged to the class. *)
Fixpoint replace_runs_from (in_run : bool) (class : ascii → bool) (rep : ascii)
    (s : list ascii) : list ascii :=
  match s with
  | [] => []
  | c :: rest =>
      if class c then
        if in_run then replace_runs_from true class rep rest
        else rep :: replace_runs_from true class rep rest
      else c :: replace_runs_from false class rep rest
  end.

Definition replace_runs (class : ascii → bool) (rep : ascii) (s : list ascii)
  : list ascii :=
  replace_runs_from false class rep s.

Definition slug_of_name (name : list ascii) : list ascii :=
  take 50
    (replace_runs is_hyphen "-"%char
       (replace_runs is_space_or_underscore "-"%char
          (filter (fun c => kept_by_first_replace c) (toLowerCase name)))).

(** The characters a generated slug is made of: [[a-z0-9-]]. *)
Definition is_slug_char (c : ascii) : bool :=
  in_range 97 122 c || in_range 48 57 c || is_hyphen c.

(** No two neighbours of the string both belong to the class. *)
Fixpoint no_adjacent (class : ascii → bool) (s : list ascii) : bool :=
  match s with
  | [] => true
  | c1 :: rest =>
      match rest with
      | c2 :: _ => negb (class c1 && class c2)
      | [] => true
      end && no_adjacent class rest
  end.

(* ===================================================================== *)
(** ** The route guard of the front end *)
(* ===================================================================== *)

(** What [middleware] answers: the request goes on ([NextResponse.next]),
    or it is redirected to a path with query parameters, with or without
    deleting the [sb-] session cookies. *)
Inductive middleware_response : Type :=
  | Next
  | Redirect (path : string) (searchParams : list (string * string))
             (clear_auth_cookies : bool).

Definition publicRoutes : list string :=
  ["/login"; "/register"; "/forgot-password"; "/reset-password"].

(** [publicRoutes.some((route) => pathname.startsWith(route))]. *)
Definition isPublicRoute (pathname : string) : bool :=
  existsb (fun route => String.prefix route pathname) publicRoutes.

(** [middleware(request)].  [configured] is the answer of
    [isSupabaseConfigured()]; [user] and [error] tell whether
    [supabase.auth.getUser()] returned a user, respectively an error. *)
Definition middleware (configured user error : bool) (pathname : string)
  : middleware_response :=
  if negb configured then Next
  else if error && (negb (isPublicRoute pathname) && negb (String.eqb pathname "/")) then
    Redirect "/login" [("redirectTo", pathname); ("error", "session_expired")] true
  else if negb user && negb (isPublicRoute pathname) && negb (String.eqb pathname "/") then
    Redirect "/login" [("redirectTo", pathname)] false
  else if user && isPublicRoute pathname then Redirect "/tienda/snatched" [] false
  else if user && String.eqb pathname "/" then Redirect "/tienda/snatched" [] false
  else if negb user && String.eqb pathname "/" then Redirect "/login" [] false
  else Next.

(* ===================================================================== *)
(** ** The helpers of the recursion fix *)
(* ===================================================================== *)

(** [role::text]. *)
Definition role_text (r : app_role) : string :=
  match r with admin => "admin" | user => "user" end.

(** The rows [WHERE id = user_id AND deleted_at IS NULL] of [profiles]. *)
Definition active_profile_rows (d : db) (user_id : option uuid) : list Profiles.row :=
  filter (fun p => is_true (sql_and (sql_eq (Some (Profiles.id p)) user_id)
                                    (Some (bool_decide (Profiles.deleted_at p = None)))))
    (profiles d).

(** [get_user_role(user_id)] (migration 20260127_fix_rls_recursion):
    [SELECT role::text FROM profiles
     WHERE id = user_id AND deleted_at IS NULL]. *)
Definition get_user_role (d : db) (user_id : option uuid) : option string :=
  match active_profile_rows d user_id with
  | p :: _ => Some (role_text (Profiles.role p))
  | [] => None
  end.

(** [get_user_organization(user_id)]: [SELECT organization_id
    FROM profiles WHERE id = user_id AND deleted_at IS NULL]. *)
Definition get_user_organization (d : db) (user_id : option uuid) : option uuid :=
  match active_profile_rows d user_id with
  | p :: _ => Profiles.organization_id p
  | [] => None
  end.

(** [is_admin(user_id)]: [EXISTS (SELECT 1 FROM profiles WHERE id = user_id
    AND role = 'admin' AND deleted_at IS NULL)]. *)
Definition is_admin (d : db) (user_id : option uuid) : bool :=
  existsb (fun p =>
    is_true (sql_and (sql_and (sql_eq (Some (Profiles.id p)) user_id)
                              (Some (bool_decide (Profiles.role p = admin))))
                     (Some (bool_decide (Profiles.deleted_at p = None)))))
    (profiles d).

(* ===================================================================== *)
(** ** Loading the caller's profile *)
(* ===================================================================== *)

(** [fetchProfile(userId)] of the auth context and [getServerProfile]:
    [supabase.from("profiles").select("*").eq("id", userId)
       .is("deleted_at", null).single()], run as the caller [uid] under
    ["profiles_select_own"].  [single()] answers with the row when the
    query returns exactly one and with an error otherwise, which both
    functions turn into [null].  (The time-out that [fetchProfile] races
    the query against is outside the model.) *)
Definition fetchProfile (d : db) (uid : option uuid) (userId : uuid)
  : option Profiles.row :=
  match filter (fun p => bool_decide (Profiles.id p = userId)
                         && bool_decide (Profiles.deleted_at p = None))
          (filter (fun p => is_true (profiles_select_own uid p)) (profiles d)) with
  | [p] => Some p
  | _ => None
  end.

(* ===================================================================== *)
(** * Properties *)
(* ===================================================================== *)

(* ===================================================================== *)
(** ** Basic facts *)
(* ===================================================================== *)

Lemma is_true_sql_eq {A} `{EqDecision A} (x : A) (y : option A) :
  is_true (sql_eq (Some x) y) = bool_decide (y = Some x).
Proof.
  destruct y as [y|]; simpl; [|done].
  destruct (decide (x = y)) as [->|Hne].
  - by rewrite !bool_decide_eq_true_2.
  - rewrite !bool_decide_eq_false_2; congruence.
Qed.

Lemma filter_nothing {A} (P : A → Prop) `{∀ x, Decision (P x)} (l : list A) :
  (∀ x, x ∈ l → ¬ P x) → filter P l = [].
Proof.
  induction l as [|y l IH]; intros Hno; [done|].
  rewrite filter_cons_False by (apply Hno; left).
  apply IH. intros x Hx. apply Hno. by right.
Qed.

(** With a key column, [WHERE key = k] selects exactly the row that has it. *)
Lemma filter_key_unique {A K} `{EqDecision K} (f : A → K) (l : list A) (x : A) :
  NoDup (f <$> l) → x ∈ l → filter (fun y => f y = f x) l = [x].
Proof.
  induction l as [|y l IH]; intros Hnd Hin.
  - by apply elem_of_nil in Hin.
  - rewrite fmap_cons in Hnd. apply NoDup_cons in Hnd as [Hy Hnd].
    apply elem_of_cons in Hin as [->|Hin].
    + rewrite filter_cons_True by done. f_equal.
      apply filter_nothing. intros z Hz Heq. apply Hy. rewrite <- Heq.
      by apply list_elem_of_fmap_2.
    + rewrite filter_cons_False; [by apply IH|].
      intros Heq. apply Hy. rewrite Heq. by apply list_elem_of_fmap_2.
Qed.

(** The resolver finds the organization of the caller's profile. *)
Lemma get_my_org_profile (d : db) (p : Profiles.row) :
  pk_profiles d → p ∈ profiles d →
  get_my_org d (Some (Profiles.id p)) = Profiles.organization_id p.
Proof.
  intros Hpk Hin. unfold get_my_org.
  rewrite (list_filter_iff _ (fun q => Profiles.id q = Profiles.id p)).
  - by rewrite (filter_key_unique Profiles.id).
  - intros q. rewrite is_true_sql_eq, bool_decide_spec. split; congruence.
Qed.

Lemma am_i_admin_spec (d : db) (uid : option uuid) :
  am_i_admin d uid = true ↔
  ∃ p, p ∈ profiles d ∧ uid = Some (Profiles.id p)
       ∧ Profiles.role p = admin ∧ Profiles.deleted_at p = None.
Proof.
  unfold am_i_admin. rewrite existsb_exists. split.
  - intros (p & Hin & Hp). exists p. apply list_elem_of_In in Hin.
    destruct uid as [u|]; simpl in Hp.
    + repeat case_bool_decide; simpl in Hp; try done. naive_solver.
    + by repeat case_bool_decide.
  - intros (p & Hin & -> & Hr & Hd). exists p. split; [by apply list_elem_of_In|].
    simpl. by rewrite !bool_decide_eq_true_2.
Qed.

(** Closing tactics for concrete tables: membership of a listed row, and
    distinctness of the listed keys. *)
Ltac in_table := repeat first [apply list_elem_of_here | apply list_elem_of_further].
Ltac keys_distinct :=
  unfold pk_profiles, pk_agents, pk_sub_agents;
  match goal with |- ?P => apply (bool_decide_unpack P); vm_compute; exact I end.

Lemma key_unique {A K} `{EqDecision K} (f : A → K) (l : list A) (x y : A) :
  NoDup (f <$> l) → x ∈ l → y ∈ l → f y = f x → y = x.
Proof.
  intros Hnd Hx Hy Heq.
  assert (Hin : y ∈ filter (fun z => f z = f x) l) by (by apply list_elem_of_filter).
  rewrite (filter_key_unique f l x Hnd Hx) in Hin. by apply list_elem_of_singleton in Hin.
Qed.

Lemma own_profile_rows (d : db) (p : Profiles.row) :
  pk_profiles d → p ∈ profiles d →
  filter (fun q => is_true (sql_eq (Some (Profiles.id q)) (Some (Profiles.id p))))
    (filter (fun q => is_true (profiles_select_own (Some (Profiles.id p)) q)) (profiles d))
  = [p].
Proof.
  intros Hpk Hin.
  rewrite (list_filter_iff (fun q => is_true (profiles_select_own _ q))
             (fun q => Profiles.id q = Profiles.id p)).
  - rewrite (filter_key_unique Profiles.id) by done.
    rewrite filter_cons_True; [done|].
    simpl. by rewrite bool_decide_eq_true_2.
  - intros q. unfold profiles_select_own. rewrite is_true_sql_eq, bool_decide_spec.
    split; congruence.
Qed.

(** C5 -- tenant isolation of reads.  For a principal whose profile
    belongs to tenant [T2], a read by id of an agent or sub-agent owned by
    a different tenant finds nothing, and the agent appears in no listing
    the principal can obtain; the principal's role and activation state
    play no part. *)
Theorem cross_tenant_get_not_found (d : db) (p : Profiles.row) (T2 : uuid) :
  pk_profiles d → p ∈ profiles d → Profiles.organization_id p = Some T2 →
  (∀ E, pk_agents d → E ∈ agents d → Agents.organization_id E ≠ T2 →
        get_agent d (Some (Profiles.id p)) (Agents.id E) = None
        ∧ ∀ active_only, E ∉ list_agents d (Some (Profiles.id p)) active_only)
  ∧ (∀ S, pk_sub_agents d → S ∈ sub_agents d → SubAgents.organization_id S ≠ T2 →
          get_sub_agent d (Some (Profiles.id p)) (SubAgents.id S) = None).
Proof.
  intros Hpk Hp Horg. split.
  - intros E Hpka HE Hne.
    assert (Hhidden : is_true (agents_select d (Some (Profiles.id p)) E) = false).
    { unfold agents_select. rewrite (get_my_org_profile d p Hpk Hp), Horg. simpl.
      by rewrite bool_decide_eq_false_2. }
    split.
    + unfold get_agent. rewrite filter_nothing; [done|].
      intros a Ha Hid. apply list_elem_of_filter in Ha as [Hvis Ha].
      apply bool_decide_spec in Hid.
      rewrite (key_unique Agents.id (agents d) E a Hpka HE Ha Hid) in Hvis.
      by rewrite Hhidden in Hvis.
    + intros ao Hin. unfold list_agents in Hin.
      apply list_elem_of_filter in Hin as [_ Hin].
      apply list_elem_of_filter in Hin as [Hvis _]. by rewrite Hhidden in Hvis.
  - intros S Hpks HS Hne. unfold get_sub_agent. rewrite filter_nothing; [done|].
    intros s Hs Hid. apply list_elem_of_filter in Hs as [Hvis Hs].
    apply bool_decide_spec in Hid.
    rewrite (key_unique SubAgents.id (sub_agents d) S s Hpks HS Hs Hid) in Hvis.
    unfold sub_agents_select_org in Hvis.
    rewrite (own_profile_rows d p Hpk Hp) in Hvis. simpl in Hvis. rewrite Horg in Hvis.
    rewrite bool_decide_eq_false_2 in Hvis by congruence. exact Hvis.
Qed.

Lemma cross_tenant_get_not_found_witness :
  get_agent Demo.demo (Some 20%N) 55%N = None
  ∧ get_sub_agent Demo.demo (Some 20%N) 77%N = None.
Proof.
  destruct (cross_tenant_get_not_found Demo.demo Demo.admin_other Demo.org_other)
    as [Ha Hs]; [keys_distinct | in_table | reflexivity |].
  split.
  - apply (Ha Demo.agent_copy); [keys_distinct | in_table | vm_compute; discriminate].
  - apply (Hs Demo.sub_writer); [keys_distinct | in_table | vm_compute; discriminate].
Defined.

Lemma filter_comm {A} (P1 P2 : A → Prop)
    `{!∀ x, Decision (P1 x), !∀ x, Decision (P2 x)} (l : list A) :
  filter P1 (filter P2 l) = filter P2 (filter P1 l).
Proof. rewrite !list_filter_filter. apply list_filter_iff. naive_solver. Qed.

(** A profile of the agent's tenant reads the agent whatever its
    [deleted_at]: ["agents_select"] consults [get_my_org] only. *)
Lemma same_tenant_get_found (d : db) (p : Profiles.row) (E : Agents.row) :
  pk_profiles d → pk_agents d → p ∈ profiles d → E ∈ agents d →
  Profiles.organization_id p = Some (Agents.organization_id E) →
  get_agent d (Some (Profiles.id p)) (Agents.id E) = Some E.
Proof.
  intros Hpk Hpka Hp HE Horg. unfold get_agent.
  rewrite filter_comm.
  rewrite (list_filter_iff (fun a => bool_decide (Agents.id a = Agents.id E))
             (fun a => Agents.id a = Agents.id E))
    by (intros a; apply bool_decide_spec).
  rewrite (filter_key_unique Agents.id) by done.
  rewrite filter_cons_True; [done|].
  unfold agents_select. rewrite (get_my_org_profile d p Hpk Hp), Horg. simpl.
  by rewrite bool_decide_eq_true_2.
Qed.

(** Writes on [agents] are refused to a deactivated caller: the write
    policies call [am_i_admin], which requires [deleted_at IS NULL]. *)
Lemma deactivated_cannot_write_agents (d : db) (p : Profiles.row) (a : Agents.row) :
  pk_profiles d → p ∈ profiles d → Profiles.deleted_at p ≠ None →
  is_true (agents_insert_admin d (Some (Profiles.id p)) a) = false
  ∧ is_true (agents_update_admin d (Some (Profiles.id p)) a) = false
  ∧ is_true (agents_delete_admin d (Some (Profiles.id p)) a) = false.
Proof.
  intros Hpk Hp Hdel.
  assert (Hadm : am_i_admin d (Some (Profiles.id p)) = false).
  { apply not_true_is_false. intros Hadm. apply am_i_admin_spec in Hadm as (q & Hq & Hid & _ & Hnull).
    injection Hid as Hid.
    rewrite (key_unique Profiles.id (profiles d) p q Hpk Hp Hq) in Hnull by done. done. }
  unfold agents_insert_admin, agents_update_admin, agents_delete_admin. rewrite Hadm.
  by destruct (sql_eq _ _) as [[]|].
Qed.

(** C1 -- deactivated principals.  On the demo data the soft-deleted
    member [12] (and the soft-deleted admin [13]) of tenant 2B is not
    active, yet a read by id returns the tenant's agent and sub-agent,
    the listing returns every agent of the tenant, and the sub-agent
    write policy still lets the soft-deleted admin through. *)
Theorem deactivated_principal_still_reads :
  is_user_active Demo.demo 12%N = false
  ∧ am_i_active Demo.demo (Some 12%N) = false
  ∧ get_agent Demo.demo (Some 12%N) 55%N = Some Demo.agent_copy
  ∧ list_agents Demo.demo (Some 12%N) false = [Demo.agent_copy; Demo.agent_ads]
  ∧ get_sub_agent Demo.demo (Some 12%N) 77%N = Some Demo.sub_writer
  ∧ is_user_active Demo.demo 13%N = false
  ∧ is_true (sub_agents_insert_admin Demo.demo (Some 13%N) Demo.sub_writer) = true.
Proof. repeat split; reflexivity. Qed.

(* --------------------------------------------------------------------- *)
(** *** Realtime reconciliation *)
(* --------------------------------------------------------------------- *)

Lemma find_by_id_is_Some (i : uuid) (l : list Agents.row) :
  is_Some (find (fun a => bool_decide (Agents.id a = i)) l) ↔ i ∈ Agents.id <$> l.
Proof.
  induction l as [|a l IH]; simpl.
  - split; [by intros [? ?]|]. by intros ?%elem_of_nil.
  - case_bool_decide as Hid.
    + split; [|by eauto]. intros _. rewrite <- Hid. apply list_elem_of_here.
    + rewrite IH, elem_of_cons. naive_solver.
Qed.

Lemma remove_by_id (i : uuid) (l : list Agents.row) :
  filter (fun a => negb (bool_decide (Agents.id a = i))) l = apply_op (Remove i) l.
Proof.
  simpl. apply list_filter_iff. intros a.
  rewrite negb_True, bool_decide_spec. done.
Qed.

(** C6 -- reconciliation under an active-only filter.  For a subscriber
    with [activeOnly] set: an update event whose row is inactive acts as
    [Remove] of the row's id, and no entry with that id stays in the view;
    an update event whose row is active acts as [Upsert] of the row, and
    the row is in the view afterwards; a delete event acts as [Remove]
    (under either filter). *)
Theorem active_only_reconciliation (prev : list Agents.row) :
  (∀ e, truthy (Agents.is_active e) = false →
        on_postgres_changes true (UPDATE e) prev = apply_op (Remove (Agents.id e)) prev
        ∧ Agents.id e ∉ Agents.id <$> on_postgres_changes true (UPDATE e) prev)
  ∧ (∀ e, truthy (Agents.is_active e) = true →
          on_postgres_changes true (UPDATE e) prev = apply_op (Upsert e) prev
          ∧ e ∈ on_postgres_changes true (UPDATE e) prev)
  ∧ (∀ activeOnly i,
          on_postgres_changes activeOnly (DELETE i) prev = apply_op (Remove i) prev
          ∧ i ∉ Agents.id <$> on_postgres_changes activeOnly (DELETE i) prev).
Proof.
  assert (Hgone : ∀ i, i ∉ Agents.id <$> apply_op (Remove i) prev).
  { intros i Hin. apply list_elem_of_fmap in Hin as (a & -> & Ha).
    simpl in Ha. by apply list_elem_of_filter in Ha as [Hne _]. }
  split; [|split].
  - intros e Hoff. unfold on_postgres_changes. rewrite Hoff. simpl negb. simpl andb.
    cbv iota. rewrite remove_by_id. split; [done|apply Hgone].
  - intros e Hon.
    assert (Heq : on_postgres_changes true (UPDATE e) prev = apply_op (Upsert e) prev).
    { unfold on_postgres_changes. rewrite Hon. simpl.
      destruct (decide (Agents.id e ∈ Agents.id <$> prev)) as [Hin|Hout].
      - rewrite bool_decide_eq_true_2 by (by apply find_by_id_is_Some). simpl.
        apply list_fmap_ext. intros _ a _. by case_bool_decide; case_decide.
      - rewrite bool_decide_eq_false_2; [done|]. by rewrite find_by_id_is_Some. }
    split; [done|]. rewrite Heq. simpl. case_decide as Hin.
    + apply list_elem_of_fmap in Hin as (a & Hid & Ha).
      apply list_elem_of_fmap. exists a. split; [|done]. by rewrite decide_True.
    + apply elem_of_app. right. apply list_elem_of_here.
  - intros ao i. unfold on_postgres_changes. rewrite remove_by_id. split; [done|apply Hgone].
Qed.

Lemma active_only_reconciliation_witness :
  on_postgres_changes true
    (UPDATE (agent_assign
               (AgentUpdate.Build None None None None None (Some false) None None None
                  None None None None) Demo.agent_copy))
    [Demo.agent_copy]
  = [].
Proof.
  destruct (active_only_reconciliation [Demo.agent_copy]) as [Hoff _].
  destruct (Hoff (agent_assign
               (AgentUpdate.Build None None None None None (Some false) None None None
                  None None None None) Demo.agent_copy)) as [Heq _]; [reflexivity|].
  rewrite Heq. reflexivity.
Defined.

(* --------------------------------------------------------------------- *)
(** *** Soft delete *)
(* --------------------------------------------------------------------- *)

Lemma fmap_id_on {A} (f : A → A) (l : list A) :
  (∀ x, x ∈ l → f x = x) → f <$> l = l.
Proof.
  intros Hf. rewrite <- (list_fmap_id l) at 2.
  apply list_fmap_ext. intros _ x Hx%list_elem_of_lookup_2. by apply Hf.
Qed.

Lemma with_profiles_same (d : db) : with_profiles (profiles d) d = d.
Proof. by destruct d. Qed.

Lemma existsb_false_iff {A} (f : A → bool) (l : list A) :
  existsb f l = false ↔ ∀ x, x ∈ l → f x = false.
Proof.
  rewrite <- not_true_iff_false, existsb_exists. split.
  - intros Hno x Hx. apply not_true_is_false. intros Hfx. apply Hno.
    exists x. by rewrite <- list_elem_of_In.
  - intros Hall (x & Hx%list_elem_of_In & Hfx). by rewrite (Hall x Hx) in Hfx.
Qed.

Lemma soft_delete_user_noop (d : db) (now : timestamptz) (t : uuid) :
  is_user_active d t = false → soft_delete_user d now t = (d, false).
Proof.
  intros Hno. unfold soft_delete_user. unfold is_user_active in Hno. rewrite Hno. f_equal.
  rewrite fmap_id_on; [apply with_profiles_same|].
  intros q Hq. by rewrite (proj1 (existsb_false_iff _ _) Hno q Hq).
Qed.

Lemma soft_delete_user_deactivates (d : db) (now : timestamptz) (t : uuid) :
  is_user_active (soft_delete_user d now t).1 t = false.
Proof.
  apply existsb_false_iff. intros q Hq. simpl in Hq.
  apply list_elem_of_fmap in Hq as (q0 & -> & _).
  repeat (case_bool_decide; simpl in * ); congruence.
Qed.

Lemma restore_user_noop (d : db) (now : timestamptz) (t : uuid) :
  existsb (fun p => bool_decide (Profiles.id p = t)
                    && negb (bool_decide (Profiles.deleted_at p = None))) (profiles d) = false →
  restore_user d now t = (d, false).
Proof.
  intros Hno. unfold restore_user. rewrite Hno. f_equal.
  rewrite fmap_id_on; [apply with_profiles_same|].
  intros q Hq. by rewrite (proj1 (existsb_false_iff _ _) Hno q Hq).
Qed.

Lemma restore_user_reactivates (d : db) (now : timestamptz) (t : uuid) :
  existsb (fun p => bool_decide (Profiles.id p = t)
                    && negb (bool_decide (Profiles.deleted_at p = None)))
    (profiles (restore_user d now t).1) = false.
Proof.
  apply existsb_false_iff. intros q Hq. simpl in Hq.
  apply list_elem_of_fmap in Hq as (q0 & -> & _).
  repeat (case_bool_decide; simpl in * ); congruence.
Qed.

(** C7 -- [deactivate] and [reactivate].  For a principal with a profile
    row [p]: while [p] is active, [soft_delete_user] returns true and
    stamps the row with the current time (all other rows and tables are
    left alone), and [restore_user] returns false and changes nothing;
    while [p] is deactivated, [soft_delete_user] returns false and changes
    nothing, and [restore_user] returns true and clears the timestamp.
    In any state, a second [soft_delete_user] (or [restore_user]) of the
    same principal returns false and changes nothing. *)
Theorem soft_delete_restore_spec (d : db) (now later : timestamptz) (p : Profiles.row) :
  pk_profiles d → p ∈ profiles d →
  (Profiles.deleted_at p = None →
     soft_delete_user d now (Profiles.id p)
     = (with_profiles
          ((fun q => if decide (Profiles.id q = Profiles.id p)
                     then deactivated now p else q) <$> profiles d) d, true)
     ∧ Profiles.deleted_at (deactivated now p) = Some now
     ∧ restore_user d now (Profiles.id p) = (d, false))
  ∧ (Profiles.deleted_at p ≠ None →
       soft_delete_user d now (Profiles.id p) = (d, false)
       ∧ restore_user d now (Profiles.id p)
         = (with_profiles
              ((fun q => if decide (Profiles.id q = Profiles.id p)
                         then reactivated now p else q) <$> profiles d) d, true)
       ∧ Profiles.deleted_at (reactivated now p) = None)
  ∧ soft_delete_user (soft_delete_user d now (Profiles.id p)).1 later (Profiles.id p)
    = ((soft_delete_user d now (Profiles.id p)).1, false)
  ∧ restore_user (restore_user d now (Profiles.id p)).1 later (Profiles.id p)
    = ((restore_user d now (Profiles.id p)).1, false).
Proof.
  intros Hpk Hp.
  assert (Hsame : ∀ q, q ∈ profiles d → Profiles.id q = Profiles.id p → q = p).
  { intros q Hq Hid. by apply (key_unique Profiles.id (profiles d)). }
  split; [|split; [|split]].
  - intros Hnull. split; [|split; [done|]].
    + unfold soft_delete_user. f_equal.
      * f_equal. apply list_fmap_ext. intros _ q Hq%list_elem_of_lookup_2.
        case_bool_decide as Hid; case_decide; try done; simpl.
        -- rewrite (Hsame q Hq Hid), bool_decide_eq_true_2 by done. done.
      * apply existsb_exists. exists p. split; [by apply list_elem_of_In|].
        by rewrite !bool_decide_eq_true_2.
    + unfold restore_user. f_equal.
      * rewrite fmap_id_on; [apply with_profiles_same|].
        intros q Hq. case_bool_decide as Hid; [|done].
        rewrite (Hsame q Hq Hid), bool_decide_eq_true_2 by done. done.
      * apply existsb_false_iff. intros q Hq. case_bool_decide as Hid; [|done].
        rewrite (Hsame q Hq Hid), bool_decide_eq_true_2 by done. done.
  - intros Hset. split; [|split; [|done]].
    + unfold soft_delete_user. f_equal.
      * rewrite fmap_id_on; [apply with_profiles_same|].
        intros q Hq. case_bool_decide as Hid; [|done].
        rewrite (Hsame q Hq Hid), bool_decide_eq_false_2 by done. done.
      * apply existsb_false_iff. intros q Hq. case_bool_decide as Hid; [|done].
        rewrite (Hsame q Hq Hid), bool_decide_eq_false_2 by done. done.
    + unfold restore_user. f_equal.
      * f_equal. apply list_fmap_ext. intros _ q Hq%list_elem_of_lookup_2.
        case_bool_decide as Hid; case_decide; try done; simpl.
        rewrite (Hsame q Hq Hid), bool_decide_eq_false_2 by done. done.
      * apply existsb_exists. exists p. split; [by apply list_elem_of_In|].
        rewrite bool_decide_eq_true_2 by done. by rewrite bool_decide_eq_false_2.
  - apply soft_delete_user_noop, soft_delete_user_deactivates.
  - apply restore_user_noop, restore_user_reactivates.
Qed.

Lemma soft_delete_restore_spec_witness :
  (soft_delete_user Demo.demo 900 11%N).2 = true
  ∧ soft_delete_user Demo.demo 900 12%N = (Demo.demo, false)
  ∧ (restore_user Demo.demo 900 12%N).2 = true
  ∧ restore_user Demo.demo 900 11%N = (Demo.demo, false).
Proof.
  destruct (soft_delete_restore_spec Demo.demo 900 901 Demo.member_2b)
    as (Hactive & _ & _); [keys_distinct | in_table |].
  destruct (soft_delete_restore_spec Demo.demo 900 901 Demo.gone_2b)
    as (_ & Hgone & _); [keys_distinct | in_table |].
  destruct (Hactive eq_refl) as (Hs & _ & Hr).
  destruct (Hgone ltac:(discriminate)) as (Hs' & Hr' & _).
  change (Profiles.id Demo.member_2b) with 11%N in *.
  change (Profiles.id Demo.gone_2b) with 12%N in *.
  rewrite Hs, Hr, Hs', Hr'. repeat split.
Defined.

(* --------------------------------------------------------------------- *)
(** *** Sign-up *)
(* --------------------------------------------------------------------- *)

(** C10 -- profiles created at sign-up.  Whenever the sign-up trigger
    succeeds it appends exactly one profile: it has the id of the new
    user, role [user], no organization and no soft-delete timestamp; no
    existing profile is touched; and the trigger succeeds whenever no
    profile has the new user's id yet. *)
Theorem handle_new_user_creates_member (d : db) (now : timestamptz) (NEW : AuthUsers.row) :
  (∀ d', handle_new_user d now NEW = Ok d' →
     ∃ p, d' = with_profiles (profiles d ++ [p]) d
          ∧ Profiles.id p = AuthUsers.id NEW
          ∧ Profiles.role p = user
          ∧ Profiles.organization_id p = None
          ∧ Profiles.deleted_at p = None)
  ∧ (profile_exists d (AuthUsers.id NEW) = false →
     ∃ d', handle_new_user d now NEW = Ok d').
Proof.
  unfold handle_new_user. split.
  - intros d' Hrun. destruct (profile_exists d (AuthUsers.id NEW)); simpl in Hrun; [done|].
    injection Hrun as <-. by exists (handle_new_user_row now NEW).
  - intros ->. simpl. eauto.
Qed.

Lemma handle_new_user_creates_member_witness :
  ∃ p, handle_new_user Demo.demo 7 (AuthUsers.Build 30%N (Some "new@2b.com") None)
       = Ok (with_profiles (profiles Demo.demo ++ [p]) Demo.demo)
       ∧ Profiles.role p = user ∧ Profiles.organization_id p = None
       ∧ Profiles.deleted_at p = None.
Proof.
  destruct (handle_new_user_creates_member Demo.demo 7
              (AuthUsers.Build 30%N (Some "new@2b.com") None)) as [Hok Hrun].
  destruct (Hrun eq_refl) as [d' Hd'].
  destruct (Hok d' Hd') as (p & -> & _ & Hr & Ho & Hdel).
  exists p. repeat split; assumption.
Defined.

(* --------------------------------------------------------------------- *)
(** *** The audit trigger *)
(* --------------------------------------------------------------------- *)

Lemma jsonb_concat_entry_nonempty (c : gmap string jsonb) (k : string) (o n : jsonb) :
  jsonb_concat c (change_entry k o n) ≠ ∅.
Proof.
  intros Hempty.
  assert (Hk : jsonb_concat c (change_entry k o n) !! k = None) by (by rewrite Hempty).
  unfold jsonb_concat, change_entry, jsonb_build_object in Hk. simpl in Hk.
  apply lookup_union_None in Hk as [Hk _]. by rewrite lookup_insert_eq in Hk.
Qed.

Lemma is_distinct_from_spec {A} `{EqDecision A} (a b : option A) :
  is_distinct_from a b = true ↔ a ≠ b.
Proof. unfold is_distinct_from. rewrite negb_true_iff, bool_decide_eq_false. done. Qed.

Lemma is_distinct_from_false {A} `{EqDecision A} (a b : option A) :
  is_distinct_from a b = false ↔ a = b.
Proof. unfold is_distinct_from. rewrite negb_false_iff, bool_decide_eq_true. done. Qed.

(** The diff is non-empty exactly when a tracked column differs. *)
Lemma changes_json_nonempty (OLD NEW : Agents.row) :
  jsonb_nonempty (changes_json OLD NEW) = true ↔ tracked_change OLD NEW.
Proof.
  unfold jsonb_nonempty, changes_json, tracked_change.
  rewrite bool_decide_eq_true.
  destruct (is_distinct_from (Agents.is_active OLD) (Agents.is_active NEW)) eqn:H6;
    [ apply is_distinct_from_spec in H6; split; [tauto | intros _; apply jsonb_concat_entry_nonempty] |].
  destruct (is_distinct_from (Agents.temperature OLD) (Agents.temperature NEW)) eqn:H5;
    [ apply is_distinct_from_spec in H5; split; [tauto | intros _; apply jsonb_concat_entry_nonempty] |].
  destruct (is_distinct_from (Agents.ai_model OLD) (Agents.ai_model NEW)) eqn:H4;
    [ apply is_distinct_from_spec in H4; split; [tauto | intros _; apply jsonb_concat_entry_nonempty] |].
  destruct (is_distinct_from (Agents.system_prompt OLD) (Agents.system_prompt NEW)) eqn:H3;
    [ apply is_distinct_from_spec in H3; split; [tauto | intros _; apply jsonb_concat_entry_nonempty] |].
  destruct (is_distinct_from (Some (Agents.role OLD)) (Some (Agents.role NEW))) eqn:H2;
    [ apply is_distinct_from_spec in H2; split;
      [intros _; right; left; congruence | intros _; apply jsonb_concat_entry_nonempty] |].
  destruct (is_distinct_from (Some (Agents.name OLD)) (Some (Agents.name NEW))) eqn:H1;
    [ apply is_distinct_from_spec in H1; split;
      [intros _; left; congruence | intros _; apply jsonb_concat_entry_nonempty] |].
  apply is_distinct_from_false in H1, H2, H3, H4, H5, H6.
  split; [done|]. intros [?|[?|[?|[?|[?|?]]]]]; congruence.
Qed.

Lemma next_version (v : option Z) :
  sql_add (COALESCE [v; Some 0]) (Some 1) = Some (default 0 v + 1).
Proof. by destruct v. Qed.

(** What the trigger does, by cases. *)
Lemma track_agent_config_change_cases (now : timestamptz) (OLD NEW : Agents.row) :
  (∃ who, tracked_change OLD NEW ∧ Agents.modified_by NEW = Some who
          ∧ track_agent_config_change now OLD NEW
            = (Agents.set_version (Some (default 0 (Agents.version OLD) + 1)) NEW,
               [AgentConfigHistory.Build (Agents.id NEW) who (Some now)
                  (JObj (changes_json OLD NEW)) (JObj (prev_config OLD)) None]))
  ∨ ((¬ tracked_change OLD NEW ∨ Agents.modified_by NEW = None)
     ∧ track_agent_config_change now OLD NEW = (NEW, [])).
Proof.
  unfold track_agent_config_change.
  destruct (jsonb_nonempty (changes_json OLD NEW)) eqn:Hne.
  - apply changes_json_nonempty in Hne.
    destruct (Agents.modified_by NEW) as [who|] eqn:Hwho.
    + left. exists who. by rewrite next_version.
    + right. split; [by right|done].
  - right. split; [|done]. left. rewrite <- changes_json_nonempty. by rewrite Hne.
Qed.

(* --------------------------------------------------------------------- *)
(** *** Creation: slug conflicts and the initial version *)
(* --------------------------------------------------------------------- *)

Lemma existsb_true_iff {A} (f : A → bool) (l : list A) :
  existsb f l = true ↔ ∃ x, x ∈ l ∧ f x = true.
Proof.
  rewrite existsb_exists. split; intros (x & Hx & Hf); exists x; split; try done;
    by apply list_elem_of_In.
Qed.






(* --------------------------------------------------------------------- *)
(** *** Column bounds *)
(* --------------------------------------------------------------------- *)





(* --------------------------------------------------------------------- *)
(** *** Row updates *)
(* --------------------------------------------------------------------- *)

(** The triggers change [version] and [updated_at] only. *)
Lemma agents_before_update_stored (now : timestamptz) (OLD NEW : Agents.row) :
  let STORED := (agents_before_update now OLD NEW).1 in
  Agents.id STORED = Agents.id NEW
  ∧ Agents.organization_id STORED = Agents.organization_id NEW
  ∧ Agents.temperature STORED = Agents.temperature NEW
  ∧ Agents.max_tokens STORED = Agents.max_tokens NEW
  ∧ Agents.modified_by STORED = Agents.modified_by NEW.
Proof.
  unfold agents_before_update.
  by destruct (track_agent_config_change_cases now OLD NEW)
    as [(who & _ & _ & ->)|[_ ->]].
Qed.


(** What a successful row update went through. *)
Lemma update_agent_row_ok (d : db) (uid : option uuid) (now : timestamptz)
    (u : AgentUpdate.t) (OLD STORED : Agents.row) (r : list AgentConfigHistory.row) :
  update_agent_row d uid now u OLD = Ok (STORED, r) →
  (STORED, r) = agents_before_update now OLD (agent_assign u OLD)
  ∧ temperature_check (Agents.temperature STORED) = true
  ∧ max_tokens_check (Agents.max_tokens STORED) = true
  ∧ fk_profile d (Agents.modified_by STORED) = true.
Proof.
  unfold update_agent_row.
  destruct (agents_before_update now OLD (agent_assign u OLD)) as [NEW recs].
  intros Hrun.
  repeat match type of Hrun with
         | context [require ?b ?e] => destruct b eqn:?; simpl in Hrun; [|done]
         end.
  by injection Hrun as <- <-.
Qed.

(** A statement that selects no row stores nothing. *)
Lemma update_agent_rows_none (d : db) (uid : option uuid) (now : timestamptz)
    (target : uuid) (u : AgentUpdate.t) (rows : list Agents.row) :
  (∀ a, a ∈ rows → update_agent_selects d uid target a = false) →
  update_agent_rows d uid now target u rows = Ok (rows, []).
Proof.
  induction rows as [|a rows IH]; intros Hnone; [done|]. simpl.
  rewrite (Hnone a) by left. rewrite IH; [done|].
  intros b Hb. apply Hnone. by right.
Qed.

(** Each stored row is the old row, or the outcome of a successful row
    update of a selected row; each audit record comes from the trigger
    run on a selected row. *)
Lemma update_agent_rows_ok (d : db) (uid : option uuid) (now : timestamptz)
    (target : uuid) (u : AgentUpdate.t) (rows rows' : list Agents.row)
    (recs : list AgentConfigHistory.row) :
  update_agent_rows d uid now target u rows = Ok (rows', recs) →
  Forall2 (fun OLD STORED =>
             if update_agent_selects d uid target OLD
             then ∃ r, update_agent_row d uid now u OLD = Ok (STORED, r)
             else STORED = OLD) rows rows'
  ∧ (∀ h, h ∈ recs →
       ∃ OLD, OLD ∈ rows ∧ update_agent_selects d uid target OLD = true
              ∧ h ∈ (agents_before_update now OLD (agent_assign u OLD)).2).
Proof.
  revert rows' recs. induction rows as [|OLD rows IH]; intros rows' recs Hrun.
  - injection Hrun as <- <-. split; [constructor|]. by intros h ?%elem_of_nil.
  - simpl in Hrun. destruct (update_agent_selects d uid target OLD) eqn:Hsel.
    + destruct (update_agent_row d uid now u OLD) as [[NEW r]|e] eqn:Hrow; [|done].
      simpl in Hrun.
      destruct (update_agent_rows d uid now target u rows) as [[rest' recs']|e] eqn:Hrest;
        [|done].
      simpl in Hrun. injection Hrun as <- <-.
      destruct (IH rest' recs' eq_refl) as [Hrows Hrecs]. split.
      * constructor; [|done]. rewrite Hsel. eauto.
      * intros h [Hh|Hh]%elem_of_app.
        -- exists OLD. split; [left|]. split; [done|].
           apply update_agent_row_ok in Hrow as [Hpair _]. by rewrite <- Hpair.
        -- destruct (Hrecs h Hh) as (O & HO & HselO & HhO).
           exists O. split; [by right|done].
    + destruct (update_agent_rows d uid now target u rows) as [[rest' recs']|e] eqn:Hrest;
        [|done].
      simpl in Hrun. injection Hrun as <- <-.
      destruct (IH rest' recs' eq_refl) as [Hrows Hrecs]. split.
      * constructor; [|done]. by rewrite Hsel.
      * intros h Hh. destruct (Hrecs h Hh) as (O & HO & HselO & HhO).
        exists O. split; [by right|done].
Qed.




(** With a primary key, an update statement is the update of the one
    selected row. *)
Lemma update_agent_rows_selected (d : db) (uid : option uuid) (now : timestamptz)
    (target : uuid) (u : AgentUpdate.t) (rows : list Agents.row) (OLD : Agents.row) :
  NoDup (Agents.id <$> rows) → OLD ∈ rows → update_agent_selects d uid target OLD = true →
  update_agent_rows d uid now target u rows
  = match update_agent_row d uid now u OLD with
    | Ok (STORED, recs) =>
        Ok ((fun a => if decide (Agents.id a = target) then STORED else a) <$> rows, recs)
    | Err e => Err e
    end.
Proof.
  intros Hpk HOLD Hsel.
  assert (Htarget : Agents.id OLD = target).
  { by apply andb_true_iff in Hsel as [?%bool_decide_eq_true _]. }
  induction rows as [|a rows IH]; [by apply elem_of_nil in HOLD|].
  pose proof Hpk as Hpk'. rewrite fmap_cons in Hpk'. apply NoDup_cons in Hpk' as [Hfresh Hrest].
  assert (Hhead : Agents.id a = target → a = OLD).
  { intros Hid. symmetry. apply (key_unique Agents.id (a :: rows)); try done; [left|congruence]. }
  simpl. destruct (update_agent_selects d uid target a) eqn:Ha.
  - assert (a = OLD) as ->
      by (by apply Hhead; apply andb_true_iff in Ha as [?%bool_decide_eq_true _]).
    assert (Hnone : ∀ b, b ∈ rows → Agents.id b ≠ target).
    { intros b Hb Heq. apply Hfresh. rewrite Htarget, <- Heq. by apply list_elem_of_fmap_2. }
    rewrite (update_agent_rows_none d uid now target u rows).
    + destruct (update_agent_row d uid now u OLD) as [[STORED recs]|e]; [|done]. simpl.
      rewrite app_nil_r, decide_True by done.
      rewrite (fmap_id_on _ rows); [done|].
      intros b Hb. rewrite decide_False; [done|by apply Hnone].
    + intros b Hb. unfold update_agent_selects.
      rewrite bool_decide_eq_false_2; [done|by apply Hnone].
  - assert (Hne : Agents.id a ≠ target).
    { intros Hid. rewrite (Hhead Hid) in Ha. congruence. }
    apply elem_of_cons in HOLD as [->|HOLD]; [congruence|].
    rewrite (IH Hrest HOLD).
    destruct (update_agent_row d uid now u OLD) as [[STORED recs]|e]; [|done]. simpl.
    by rewrite decide_False.
Qed.





Lemma update_sub_agent_row_ok (d : db) (uid : option uuid) (now : timestamptz)
    (u : SubAgentUpdate.t) (OLD STORED : SubAgents.row) :
  update_sub_agent_row d uid now u OLD = Ok STORED →
  STORED = update_sub_agents_updated_at now (sub_agent_assign u OLD)
  ∧ temperature_check (SubAgents.temperature STORED) = true
  ∧ max_tokens_check (SubAgents.max_tokens STORED) = true.
Proof.
  unfold update_sub_agent_row. intros Hrun.
  repeat match type of Hrun with
         | context [require ?b ?e] => destruct b eqn:?; simpl in Hrun; [|done]
         end.
  by injection Hrun as <-.
Qed.

Lemma update_sub_agent_rows_none (d : db) (uid : option uuid) (now : timestamptz)
    (target : uuid) (u : SubAgentUpdate.t) (rows : list SubAgents.row) :
  (∀ s, s ∈ rows → update_sub_agent_selects d uid target s = false) →
  update_sub_agent_rows d uid now target u rows = Ok rows.
Proof.
  induction rows as [|s rows IH]; intros Hnone; [done|]. simpl.
  rewrite (Hnone s) by left. rewrite IH; [done|].
  intros b Hb. apply Hnone. by right.
Qed.

Lemma update_sub_agent_rows_ok (d : db) (uid : option uuid) (now : timestamptz)
    (target : uuid) (u : SubAgentUpdate.t) (rows rows' : list SubAgents.row) :
  update_sub_agent_rows d uid now target u rows = Ok rows' →
  Forall2 (fun OLD STORED =>
             if update_sub_agent_selects d uid target OLD
             then update_sub_agent_row d uid now u OLD = Ok STORED
             else STORED = OLD) rows rows'.
Proof.
  revert rows'. induction rows as [|OLD rows IH]; intros rows' Hrun.
  - injection Hrun as <-. constructor.
  - simpl in Hrun. destruct (update_sub_agent_selects d uid target OLD) eqn:Hsel.
    + destruct (update_sub_agent_row d uid now u OLD) as [NEW|e] eqn:Hrow; [|done].
      simpl in Hrun.
      destruct (update_sub_agent_rows d uid now target u rows) as [rest'|e]; [|done].
      simpl in Hrun. injection Hrun as <-. constructor; [by rewrite Hsel|by apply IH].
    + destruct (update_sub_agent_rows d uid now target u rows) as [rest'|e]; [|done].
      simpl in Hrun. injection Hrun as <-. constructor; [by rewrite Hsel|by apply IH].
Qed.





Lemma db_eta (d : db) :
  Db (profiles d) (agents d) (sub_agents d) (agent_config_history d) = d.
Proof. by destruct d. Qed.


Lemma with_sub_agents_same (d : db) : with_sub_agents (sub_agents d) d = d.
Proof. by destruct d. Qed.




(* --------------------------------------------------------------------- *)
(** *** Invariants of the reachable states *)
(* --------------------------------------------------------------------- *)

Lemma Forall2_elem_r {A B} (P : A → B → Prop) (l : list A) (k : list B) (y : B) :
  Forall2 P l k → y ∈ k → ∃ x, x ∈ l ∧ P x y.
Proof.
  induction 1 as [|x y' l k HP _ IH]; intros Hy.
  - by apply elem_of_nil in Hy.
  - apply elem_of_cons in Hy as [->|Hy].
    + exists x. split; [left|done].
    + destruct (IH Hy) as (x' & Hx' & HP'). exists x'. split; [by right|done].
Qed.

(** Induction over the statements that led to a state. *)
Lemma run_all_invariant (P : db → Prop) (allowed : operation → bool) :
  (∀ now op d, allowed op = true → P d → P (step now op d)) →
  ∀ ops d, forallb (fun x => allowed x.2) ops = true → P d → P (run_all ops d).
Proof.
  intros Hstep ops. induction ops as [|[now op] ops IH]; intros d Hall HP; [done|].
  simpl in Hall. apply andb_true_iff in Hall as [Hop Hall].
  simpl. apply IH; [done|]. by apply Hstep.
Qed.

Lemma reachable_invariant (P : db → Prop) :
  P empty_db → (∀ now op d, P d → P (step now op d)) → ∀ d, reachable d → P d.
Proof.
  intros H0 Hstep d [ops <-].
  apply (run_all_invariant P (fun _ => true)); [by intros; apply Hstep| |done].
  by induction ops.
Qed.

Lemma insert_agent_ok (d d' : db) (uid : option uuid) (now : timestamptz)
    (i : AgentInsert.t) :
  insert_agent d uid now i = Ok d' →
  d' = with_agents (agents d ++ [agent_new_row now i]) d
  ∧ temperature_check (Agents.temperature (agent_new_row now i)) = true
  ∧ max_tokens_check (Agents.max_tokens (agent_new_row now i)) = true
  ∧ agent_exists d (AgentInsert.id i) = false.
Proof.
  unfold insert_agent. intros Hrun.
  repeat match type of Hrun with
         | context [require ?b ?e] => destruct b eqn:?; simpl in Hrun; [|done]
         end.
  injection Hrun as <-. repeat split; try done.
  by apply negb_true_iff.
Qed.

Lemma insert_sub_agent_ok (d d' : db) (uid : option uuid) (now : timestamptz)
    (i : SubAgentInsert.t) :
  insert_sub_agent d uid now i = Ok d' →
  d' = with_sub_agents (sub_agents d ++ [sub_agent_new_row now i]) d
  ∧ temperature_check (SubAgents.temperature (sub_agent_new_row now i)) = true
  ∧ max_tokens_check (SubAgents.max_tokens (sub_agent_new_row now i)) = true.
Proof.
  unfold insert_sub_agent. intros Hrun.
  repeat match type of Hrun with
         | context [require ?b ?e] => destruct b eqn:?; simpl in Hrun; [|done]
         end.
  by injection Hrun as <-.
Qed.

Lemma insert_agent_config_history_ok (d d' : db) (uid : option uuid) (h : AgentConfigHistory.row) :
  insert_agent_config_history d uid h = Ok d' →
  d' = Db (profiles d) (agents d) (sub_agents d) (agent_config_history d ++ [h])
  ∧ is_true (admins_can_insert_config_history d uid h) = true.
Proof.
  unfold insert_agent_config_history. intros Hrun.
  repeat match type of Hrun with
         | context [require ?b ?e] => destruct b eqn:?; simpl in Hrun; [|done]
         end.
  by injection Hrun as <-.
Qed.

Lemma handle_new_user_ok (d d' : db) (now : timestamptz) (NEW : AuthUsers.row) :
  handle_new_user d now NEW = Ok d' →
  d' = with_profiles (profiles d ++ [handle_new_user_row now NEW]) d.
Proof.
  unfold handle_new_user. destruct (profile_exists d _); simpl; [done|].
  by intros [= <-].
Qed.







(* --------------------------------------------------------------------- *)
(** *** Where audit records come from *)
(* --------------------------------------------------------------------- *)

Lemma admins_can_insert_config_history_spec (d : db) (uid : option uuid) (h : AgentConfigHistory.row) :
  is_true (admins_can_insert_config_history d uid h) = true →
  ∃ p, p ∈ profiles d ∧ uid = Some (Profiles.id p) ∧ Profiles.role p = admin.
Proof.
  unfold admins_can_insert_config_history. simpl.
  destruct (existsb _ _) eqn:Hex; [intros _|done].
  apply existsb_true_iff in Hex as (p & Hp & Hadm).
  apply list_elem_of_filter in Hp as [_ Hp]. exists p. split; [done|].
  destruct uid as [w|]; simpl in Hadm; [|by repeat case_bool_decide].
  repeat case_bool_decide; simpl in Hadm; try done. split; congruence.
Qed.

Lemma agents_before_update_records (now : timestamptz) (OLD : Agents.row)
    (u : AgentUpdate.t) (h : AgentConfigHistory.row) :
  h ∈ (agents_before_update now OLD (agent_assign u OLD)).2 →
  ∃ who, tracked_change OLD (agent_assign u OLD)
         ∧ Agents.modified_by (agent_assign u OLD) = Some who
         ∧ h = audit_record now OLD (agent_assign u OLD) who.
Proof.
  unfold agents_before_update.
  destruct (track_agent_config_change_cases now OLD (agent_assign u OLD))
    as [(who & Hch & Hwho & ->)|[_ ->]]; simpl.
  - intros ->%list_elem_of_singleton. by exists who.
  - by intros ?%elem_of_nil.
Qed.

(** C4 (as amended) -- origin of audit records.  A statement either only
    appends records to the audit table, and then each record it appends
    was written by the update trigger (for a selected agent row whose
    tracked columns changed under a modifying principal) or was inserted
    directly by a caller whose profile has the admin role; or it is a
    delete of an agent, which only removes audit records.  In particular
    no other statement, and no direct insert of a caller without the admin
    role, creates an audit record. *)
Theorem audit_record_origin (now : timestamptz) (op : operation) (d : db) :
  (∃ added,
      agent_config_history (step now op d) = agent_config_history d ++ added
      ∧ ∀ h, h ∈ added → written_by_trigger now op d h ∨ inserted_by_admin op d h)
  ∨ ((∃ uid target, op = DeleteAgent uid target)
     ∧ agent_config_history (step now op d) `sublist_of` agent_config_history d).
Proof.
  assert (Hsame : ∀ d', agent_config_history d' = agent_config_history d →
            ∃ added, agent_config_history d' = agent_config_history d ++ added
                     ∧ ∀ h, h ∈ added →
                            written_by_trigger now op d h ∨ inserted_by_admin op d h).
  { intros d' ->. exists []. split; [by rewrite app_nil_r|]. by intros h ?%elem_of_nil. }
  unfold step. destruct (run now op d) as [d'|e] eqn:Hrun; [|left; by apply Hsame].
  destruct op; simpl in Hrun.
  - apply handle_new_user_ok in Hrun as ->. left. by apply Hsame.
  - injection Hrun as <-. left. by apply Hsame.
  - injection Hrun as <-. left. by apply Hsame.
  - injection Hrun as <-. left. by apply Hsame.
  - apply insert_agent_ok in Hrun as (-> & _). left. by apply Hsame.
  - unfold update_agent in Hrun.
    destruct (update_agent_rows d uid now target u (agents d)) as [[rows recs]|] eqn:Hrows;
      [|done].
    simpl in Hrun. injection Hrun as <-. simpl. left. exists recs. split; [done|].
    intros h Hh. left.
    apply update_agent_rows_ok in Hrows as [_ Hrecs].
    destruct (Hrecs h Hh) as (OLD & HOLD & Hsel & Hrec).
    apply agents_before_update_records in Hrec as (who & Hch & Hwho & ->).
    by exists uid, target, u, OLD, who.
  - injection Hrun as <-. right. split; [by eauto|]. unfold delete_agent.
    destruct (existsb _ (agents d)); [|done]. simpl. apply sublist_filter.
  - apply insert_sub_agent_ok in Hrun as (-> & _). left. by apply Hsame.
  - unfold update_sub_agent in Hrun.
    destruct (update_sub_agent_rows d uid now target u (sub_agents d)); [|done].
    simpl in Hrun. injection Hrun as <-. left. by apply Hsame.
  - injection Hrun as <-. left. by apply Hsame.
  - apply insert_agent_config_history_ok in Hrun as [-> Hpol]. simpl.
    left. exists [h]. split; [done|].
    intros h' ->%list_elem_of_singleton. right.
    apply admins_can_insert_config_history_spec in Hpol as (p & Hp & Huid & Hrole).
    by exists uid, p.
Qed.

Lemma audit_record_origin_witness :
  let u := Demo.set_temperature (float8_of_frac 12 10) 10%N in
  let h := audit_record 5 Demo.agent_copy (agent_assign u Demo.agent_copy) 10%N in
  agent_config_history (step 5 (UpdateAgent (Some 10%N) 55%N u) Demo.demo) = [h]
  ∧ written_by_trigger 5 (UpdateAgent (Some 10%N) 55%N u) Demo.demo h.
Proof.
  intros u h.
  assert (Hrun : agent_config_history
                   (step 5 (UpdateAgent (Some 10%N) 55%N u) Demo.demo) = [h])
    by (vm_compute; reflexivity).
  split; [exact Hrun|].
  destruct (audit_record_origin 5 (UpdateAgent (Some 10%N) 55%N u) Demo.demo)
    as [(added & Happ & Horigin)|[_ Hsub]].
  - rewrite Hrun in Happ. simpl in Happ. subst added.
    destruct (Horigin h) as [Htr|(uid & p & Hop & _)]; [in_table|exact Htr|discriminate].
  - rewrite Hrun in Hsub. by apply sublist_nil_r in Hsub.
Defined.

(** C4 (as stated) fails where the policy "Admins can insert config
    history" is installed: the admin [10] inserts a made-up record for the
    agent [55] directly, and the record is stored although no agent was
    updated. *)
Lemma direct_audit_insert_counterexample :
  ¬ (∀ now op d h,
        h ∈ agent_config_history (step now op d) →
        h ∈ agent_config_history d ∨ ∃ uid target u, op = UpdateAgent uid target u).
Proof.
  intros Hclaim.
  destruct (Hclaim 5 (InsertConfigHistory (Some 10%N) Demo.forged) Demo.demo
              Demo.forged) as [Hold|(uid & target & u & Hop)].
  - vm_compute. in_table.
  - by apply elem_of_nil in Hold.
  - discriminate.
Qed.

(* --------------------------------------------------------------------- *)
(** *** Version counter and audit count *)
(* --------------------------------------------------------------------- *)



Lemma count_for_none (recs : list AgentConfigHistory.row) (i : uuid) :
  (∀ h, h ∈ recs → AgentConfigHistory.agent_id h ≠ i) → count_for recs i = 0.
Proof. intros Hnone. unfold count_for. by rewrite filter_nothing. Qed.

Lemma agent_exists_spec (d : db) (i : uuid) :
  agent_exists d i = true ↔ i ∈ Agents.id <$> agents d.
Proof.
  unfold agent_exists. rewrite existsb_true_iff, list_elem_of_fmap. split.
  - intros (a & Ha & Hid%bool_decide_eq_true). by exists a.
  - intros (a & -> & Ha). exists a. by rewrite bool_decide_eq_true_2.
Qed.










(* --------------------------------------------------------------------- *)
(** *** Primary keys *)
(* --------------------------------------------------------------------- *)

Lemma fmap_id_preserved {A K} (key : A → K) (f : A → A) (l : list A) :
  (∀ x, key (f x) = key x) → key <$> (f <$> l) = key <$> l.
Proof.
  intros Hkey. rewrite <- list_fmap_compose. apply list_fmap_ext.
  intros _ x _. apply Hkey.
Qed.

Lemma NoDup_fmap_filter {A K} (key : A → K) (P : A → Prop)
    `{!∀ x, Decision (P x)} (l : list A) :
  NoDup (key <$> l) → NoDup (key <$> filter P l).
Proof.
  induction l as [|x l IH]; intros Hnd; [done|].
  rewrite fmap_cons in Hnd. apply NoDup_cons in Hnd as [Hx Hnd].
  rewrite filter_cons. case_decide; [|by apply IH].
  rewrite fmap_cons. apply NoDup_cons. split; [|by apply IH].
  intros (y & Hy & [_ Hin]%list_elem_of_filter)%list_elem_of_fmap.
  apply Hx. rewrite Hy. by apply list_elem_of_fmap_2.
Qed.

Lemma NoDup_fmap_snoc {A K} (key : A → K) (l : list A) (x : A) :
  NoDup (key <$> l) → key x ∉ key <$> l → NoDup (key <$> (l ++ [x])).
Proof.
  intros Hnd Hfresh. rewrite fmap_app. apply NoDup_app. split; [done|]. split.
  - intros k Hk ->%list_elem_of_singleton. done.
  - apply NoDup_singleton.
Qed.

Lemma update_agent_rows_ids (d : db) (uid : option uuid) (now : timestamptz)
    (target : uuid) (u : AgentUpdate.t) (rows rows' : list Agents.row)
    (recs : list AgentConfigHistory.row) :
  update_agent_rows d uid now target u rows = Ok (rows', recs) →
  Agents.id <$> rows' = Agents.id <$> rows.
Proof.
  intros [Hrows _]%update_agent_rows_ok.
  induction Hrows as [|OLD STORED l k Hrel _ IH]; [done|].
  rewrite !fmap_cons. f_equal; [|done].
  destruct (update_agent_selects d uid target OLD); [|by subst].
  destruct Hrel as [r [Hpair _]%update_agent_row_ok].
  destruct (agents_before_update_stored now OLD (agent_assign u OLD)) as (Hid & _).
  by rewrite <- Hpair in Hid.
Qed.

Lemma update_sub_agent_rows_ids (d : db) (uid : option uuid) (now : timestamptz)
    (target : uuid) (u : SubAgentUpdate.t) (rows rows' : list SubAgents.row) :
  update_sub_agent_rows d uid now target u rows = Ok rows' →
  SubAgents.id <$> rows' = SubAgents.id <$> rows.
Proof.
  intros Hrows%update_sub_agent_rows_ok.
  induction Hrows as [|OLD STORED l k Hrel _ IH]; [done|].
  rewrite !fmap_cons. f_equal; [|done].
  destruct (update_sub_agent_selects d uid target OLD); [|by subst].
  by apply update_sub_agent_row_ok in Hrel as [-> _].
Qed.

Lemma profile_exists_spec (d : db) (i : uuid) :
  profile_exists d i = true ↔ i ∈ Profiles.id <$> profiles d.
Proof.
  unfold profile_exists. rewrite existsb_true_iff, list_elem_of_fmap. split.
  - intros (a & Ha & Hid%bool_decide_eq_true). by exists a.
  - intros (a & -> & Ha). exists a. by rewrite bool_decide_eq_true_2.
Qed.

Lemma sub_agent_exists_spec (d : db) (i : uuid) :
  sub_agent_exists d i = true ↔ i ∈ SubAgents.id <$> sub_agents d.
Proof.
  unfold sub_agent_exists. rewrite existsb_true_iff, list_elem_of_fmap. split.
  - intros (a & Ha & Hid%bool_decide_eq_true). by exists a.
  - intros (a & -> & Ha). exists a. by rewrite bool_decide_eq_true_2.
Qed.

Lemma insert_sub_agent_fresh (d d' : db) (uid : option uuid) (now : timestamptz)
    (i : SubAgentInsert.t) :
  insert_sub_agent d uid now i = Ok d' → sub_agent_exists d (SubAgentInsert.id i) = false.
Proof.
  unfold insert_sub_agent. intros Hrun.
  repeat match type of Hrun with
         | context [require ?b ?e] => destruct b eqn:?; simpl in Hrun; [|done]
         end.
  by apply negb_true_iff.
Qed.

Lemma handle_new_user_fresh (d d' : db) (now : timestamptz) (NEW : AuthUsers.row) :
  handle_new_user d now NEW = Ok d' → profile_exists d (AuthUsers.id NEW) = false.
Proof.
  unfold handle_new_user. by destruct (profile_exists d _).
Qed.

(** The primary keys of the three tables hold in every reachable state. *)
Lemma reachable_primary_keys (d : db) :
  reachable d → pk_profiles d ∧ pk_agents d ∧ pk_sub_agents d.
Proof.
  revert d.
  apply (reachable_invariant (fun d => pk_profiles d ∧ pk_agents d ∧ pk_sub_agents d));
    [repeat split; constructor|].
  intros now op d (Hp & Ha & Hs). unfold step.
  destruct (run now op d) as [d'|e] eqn:Hrun; [|done].
  unfold pk_profiles, pk_agents, pk_sub_agents in *.
  destruct op; simpl in Hrun.
  - pose proof (handle_new_user_fresh _ _ _ _ Hrun) as Hfresh.
    apply handle_new_user_ok in Hrun as ->. split; [|done]. simpl.
    apply NoDup_fmap_snoc; [done|]. simpl. rewrite <- profile_exists_spec. by rewrite Hfresh.
  - injection Hrun as <-. split; [|done]. simpl.
    rewrite fmap_id_preserved; [done|]. intros p. by destruct (is_true _).
  - injection Hrun as <-. split; [|done]. simpl.
    rewrite fmap_id_preserved; [done|]. intros p. by destruct (_ && _).
  - injection Hrun as <-. split; [|done]. simpl.
    rewrite fmap_id_preserved; [done|]. intros p. by destruct (_ && _).
  - apply insert_agent_ok in Hrun as (-> & _ & _ & Hfresh). split; [done|]. split; [|done].
    simpl. apply NoDup_fmap_snoc; [done|]. simpl. rewrite <- agent_exists_spec.
    by rewrite Hfresh.
  - unfold update_agent in Hrun.
    destruct (update_agent_rows d uid now target u (agents d)) as [[rows recs]|] eqn:Hrows;
      [|done].
    simpl in Hrun. injection Hrun as <-. simpl. split; [done|]. split; [|done].
    by rewrite (update_agent_rows_ids _ _ _ _ _ _ _ _ Hrows).
  - injection Hrun as <-. unfold delete_agent.
    destruct (existsb _ (agents d)); [|done]. simpl. split; [done|].
    split; by apply NoDup_fmap_filter.
  - pose proof (insert_sub_agent_fresh _ _ _ _ _ Hrun) as Hfresh.
    apply insert_sub_agent_ok in Hrun as (-> & _). split; [done|]. split; [done|].
    simpl. apply NoDup_fmap_snoc; [done|]. simpl. rewrite <- sub_agent_exists_spec.
    by rewrite Hfresh.
  - unfold update_sub_agent in Hrun.
    destruct (update_sub_agent_rows d uid now target u (sub_agents d)) as [rows|] eqn:Hrows;
      [|done].
    simpl in Hrun. injection Hrun as <-. simpl. split; [done|]. split; [done|].
    by rewrite (update_sub_agent_rows_ids _ _ _ _ _ _ _ Hrows).
  - injection Hrun as <-. simpl. split; [done|]. split; [done|].
    by apply NoDup_fmap_filter.
  - apply insert_agent_config_history_ok in Hrun as [-> _]. done.
Qed.

(* --------------------------------------------------------------------- *)
(** *** Who may write the configuration tables *)
(* --------------------------------------------------------------------- *)

Lemma not_admin_policies (d : db) (uid : option uuid) (a : Agents.row) :
  am_i_admin d uid = false →
  is_true (agents_insert_admin d uid a) = false
  ∧ is_true (agents_update_admin d uid a) = false
  ∧ is_true (agents_delete_admin d uid a) = false.
Proof.
  intros Hadm. unfold agents_insert_admin, agents_update_admin, agents_delete_admin.
  rewrite Hadm. by destruct (sql_eq _ _) as [[]|].
Qed.

(** X1 -- Writes on [agents] by a caller who is not an active administrator:
    an insert is refused by the policy, an update and a delete select no
    row and leave the database as it is. *)
Theorem agents_write_requires_admin (d : db) (uid : option uuid) (now : timestamptz) :
  am_i_admin d uid = false →
  (∀ i, insert_agent d uid now i = Err insufficient_privilege)
  ∧ (∀ target u, update_agent d uid now target u = Ok d)
  ∧ (∀ target, delete_agent d uid target = d).
Proof.
  intros Hadm. split; [|split].
  - intros i. unfold insert_agent.
    by rewrite (proj1 (not_admin_policies d uid (agent_new_row now i) Hadm)).
  - intros target u. unfold update_agent.
    rewrite update_agent_rows_none.
    + simpl. by rewrite app_nil_r, db_eta.
    + intros a _. unfold update_agent_selects.
      rewrite (proj1 (proj2 (not_admin_policies d uid a Hadm))). apply andb_false_r.
  - intros target. unfold delete_agent.
    rewrite (proj2 (existsb_false_iff _ _)); [done|].
    intros a _. unfold delete_agent_selects.
    rewrite (proj2 (proj2 (not_admin_policies d uid a Hadm))). apply andb_false_r.
Qed.

Lemma agents_write_requires_admin_witness :
  am_i_admin Demo.demo (Some 11%N) = false
  ∧ insert_agent Demo.demo (Some 11%N) 9 Demo.ads_insert = Err insufficient_privilege
  ∧ update_agent Demo.demo (Some 11%N) 9 55%N (Demo.set_temperature (float8_of_Z 1) 11%N)
    = Ok Demo.demo
  ∧ delete_agent Demo.demo (Some 11%N) 55%N = Demo.demo.
Proof.
  assert (H : am_i_admin Demo.demo (Some 11%N) = false) by reflexivity.
  destruct (agents_write_requires_admin Demo.demo (Some 11%N) 9 H) as (Hi & Hu & Hd).
  split; [exact H|]. split; [apply Hi|]. split; [apply Hu | apply Hd].
Defined.

Lemma agents_policy_own_tenant (d : db) (uid : option uuid) (a : Agents.row) :
  is_true (sql_and (sql_eq (Some (Agents.organization_id a)) (get_my_org d uid))
                   (Some (am_i_admin d uid))) = true →
  Some (Agents.organization_id a) = get_my_org d uid.
Proof.
  destruct (get_my_org d uid) as [o|]; simpl; [|by destruct (am_i_admin d uid)].
  case_bool_decide as Heq; [intros _; by rewrite Heq|].
  by destruct (am_i_admin d uid).
Qed.

Lemma update_agent_row_tenant (d : db) (uid : option uuid) (now : timestamptz)
    (u : AgentUpdate.t) (OLD STORED : Agents.row) (r : list AgentConfigHistory.row) :
  update_agent_row d uid now u OLD = Ok (STORED, r) →
  Agents.organization_id STORED = Agents.organization_id OLD
  ∧ Agents.slug STORED = Agents.slug OLD.
Proof.
  intros Hok. apply update_agent_row_ok in Hok as (Heq & _).
  assert (HS : STORED = (agents_before_update now OLD (agent_assign u OLD)).1)
    by (by rewrite <- Heq).
  rewrite HS. unfold agents_before_update, track_agent_config_change.
  by destruct (jsonb_nonempty (changes_json OLD (agent_assign u OLD))),
             (Agents.modified_by (agent_assign u OLD)).
Qed.

Lemma update_agent_rows_foreign (d : db) (uid : option uuid) (now : timestamptz)
    (target : uuid) (u : AgentUpdate.t) (rows rows' : list Agents.row)
    (recs : list AgentConfigHistory.row) :
  update_agent_rows d uid now target u rows = Ok (rows', recs) →
  foreign_agents d uid rows' = foreign_agents d uid rows.
Proof.
  intros Hok. apply update_agent_rows_ok in Hok as [Hall _].
  unfold foreign_agents.
  induction Hall as [|OLD STORED rows rows' Hrow _ IH]; [done|].
  destruct (update_agent_selects d uid target OLD) eqn:Hsel.
  - destruct Hrow as [r Hr].
    apply update_agent_row_tenant in Hr as [Horg _].
    apply andb_true_iff in Hsel as [_ Hpol].
    apply agents_policy_own_tenant in Hpol.
    rewrite !filter_cons_False; [exact IH| |]; intros Hne; apply Hne; congruence.
  - subst STORED. by rewrite !filter_cons, IH.
Qed.

(** X2 -- Writes on [agents] never reach another tenant: whoever the caller
    is, an insert, an update and a delete leave the agents of every
    organization other than the caller's own exactly as they were. *)
Theorem agents_write_tenant_isolation (d : db) (uid : option uuid) (now : timestamptz) :
  (∀ i, foreign_agents d uid (agents (step now (InsertAgent uid i) d))
        = foreign_agents d uid (agents d))
  ∧ (∀ target u, foreign_agents d uid (agents (step now (UpdateAgent uid target u) d))
                 = foreign_agents d uid (agents d))
  ∧ (∀ target, foreign_agents d uid (agents (step now (DeleteAgent uid target) d))
               = foreign_agents d uid (agents d)).
Proof.
  split; [|split].
  - intros i. unfold step. simpl.
    destruct (insert_agent d uid now i) as [d'|e] eqn:Hins; [|done].
    assert (Hpol : is_true (agents_insert_admin d uid (agent_new_row now i)) = true).
    { unfold insert_agent in Hins.
      by destruct (is_true (agents_insert_admin d uid (agent_new_row now i))). }
    apply insert_agent_ok in Hins as (-> & _). simpl.
    unfold foreign_agents. rewrite filter_app, filter_cons_False, app_nil_r; [done|].
    intros Hne. apply Hne. by apply agents_policy_own_tenant.
  - intros target u. unfold step. simpl. unfold update_agent.
    destruct (update_agent_rows d uid now target u (agents d)) as [[rows recs]|e] eqn:Hup;
      [|done].
    simpl. by apply (update_agent_rows_foreign d uid now target u (agents d) rows recs).
  - intros target. unfold step. simpl. unfold delete_agent.
    destruct (existsb _ _); [|done]. simpl.
    unfold foreign_agents. rewrite list_filter_filter. apply list_filter_iff.
    intros a. split; [by intros [? _]|]. intros Hne. split; [done|].
    destruct (delete_agent_selects d uid target a) eqn:Hsel; [|done].
    apply andb_true_iff in Hsel as [_ Hpol]. by apply agents_policy_own_tenant in Hpol.
Qed.

Lemma filter_everything {A} (P : A → Prop) `{∀ x, Decision (P x)} (l : list A) :
  (∀ x, x ∈ l → P x) → filter P l = l.
Proof.
  induction l as [|y l IH]; intros Hall; [done|].
  rewrite filter_cons_True by (apply Hall; left).
  f_equal. apply IH. intros x Hx. apply Hall. by right.
Qed.

Lemma is_org_admin_true (d : db) (uid : option uuid) (org : uuid) :
  is_true (is_org_admin d uid (Some org)) = true →
  ∃ p, p ∈ profiles d ∧ uid = Some (Profiles.id p)
       ∧ Profiles.organization_id p = Some org ∧ Profiles.role p = admin.
Proof.
  unfold is_org_admin.
  destruct (filter _ (profiles d)) as [|p rest] eqn:Hf; [done|].
  assert (Hp : p ∈ p :: rest) by left. rewrite <- Hf in Hp.
  apply list_elem_of_filter in Hp as [Hp Hin].
  intros Hrole. exists p. split; [done|].
  destruct uid as [w|], (Profiles.organization_id p) as [o|];
    simpl in Hp, Hrole; repeat case_bool_decide; simpl in *; try done.
  by subst.
Qed.

Lemma is_org_admin_own_tenant (d : db) (uid : option uuid) (org : uuid) :
  pk_profiles d → is_true (is_org_admin d uid (Some org)) = true →
  Some org = get_my_org d uid.
Proof.
  intros Hpk (p & Hin & -> & Horg & _)%is_org_admin_true.
  by rewrite (get_my_org_profile d p Hpk Hin).
Qed.

(** X3 -- Writes on [sub_agents] by a caller none of whose profiles has the
    admin role: an insert is refused by the policy, an update and a
    delete select no row and leave the database as it is. *)
Theorem sub_agents_write_requires_admin (d : db) (uid : option uuid) (now : timestamptz) :
  (∀ p, p ∈ profiles d → uid = Some (Profiles.id p) → Profiles.role p ≠ admin) →
  (∀ i, insert_sub_agent d uid now i = Err insufficient_privilege)
  ∧ (∀ target u, update_sub_agent d uid now target u = Ok d)
  ∧ (∀ target, delete_sub_agent d uid target = d).
Proof.
  intros Hno.
  assert (Hpol : ∀ org, is_true (is_org_admin d uid (Some org)) = false).
  { intros org. apply not_true_is_false. intros (p & Hin & Hid & _ & Hr)%is_org_admin_true.
    by apply (Hno p). }
  split; [|split].
  - intros i. unfold insert_sub_agent, sub_agents_insert_admin. by rewrite Hpol.
  - intros target u. unfold update_sub_agent.
    rewrite update_sub_agent_rows_none.
    + simpl. apply f_equal, with_sub_agents_same.
    + intros s _. unfold update_sub_agent_selects, sub_agents_update_admin.
      rewrite Hpol. apply andb_false_r.
  - intros target. unfold delete_sub_agent.
    rewrite filter_everything; [apply with_sub_agents_same|].
    intros s _. unfold sub_agents_delete_admin. by rewrite Hpol, andb_false_r.
Qed.

Lemma sub_agents_write_requires_admin_witness :
  insert_sub_agent Demo.demo (Some 11%N) 9 Demo.writer_insert = Err insufficient_privilege
  ∧ update_sub_agent Demo.demo (Some 11%N) 9 77%N Demo.rename_writer = Ok Demo.demo
  ∧ delete_sub_agent Demo.demo (Some 11%N) 77%N = Demo.demo.
Proof.
  assert (H : ∀ p, p ∈ profiles Demo.demo → Some 11%N = Some (Profiles.id p) →
                   Profiles.role p ≠ admin).
  { intros p Hin Hid. simpl in Hin.
    repeat (apply elem_of_cons in Hin as [->|Hin]; [by vm_compute in Hid |- *|]).
    by apply elem_of_nil in Hin. }
  destruct (sub_agents_write_requires_admin Demo.demo (Some 11%N) 9 H) as (Hi & Hu & Hd).
  split; [apply Hi|]. split; [apply Hu | apply Hd].
Defined.

Lemma update_sub_agent_rows_foreign (d : db) (uid : option uuid) (now : timestamptz)
    (target : uuid) (u : SubAgentUpdate.t) (rows rows' : list SubAgents.row) :
  pk_profiles d →
  update_sub_agent_rows d uid now target u rows = Ok rows' →
  foreign_sub_agents d uid rows' = foreign_sub_agents d uid rows.
Proof.
  intros Hpk Hall%update_sub_agent_rows_ok.
  unfold foreign_sub_agents.
  induction Hall as [|OLD STORED rows rows' Hrow _ IH]; [done|].
  destruct (update_sub_agent_selects d uid target OLD) eqn:Hsel.
  - apply update_sub_agent_row_ok in Hrow as [-> _].
    apply andb_true_iff in Hsel as [_ Hpol].
    apply (is_org_admin_own_tenant d uid _ Hpk) in Hpol.
    by rewrite !filter_cons_False; [exact IH| |]; intros Hne; apply Hne.
  - subst STORED. by rewrite !filter_cons, IH.
Qed.

(** X4 -- Statements on [sub_agents] never reach another tenant: under the
    primary key of [profiles], an insert, an update and a delete leave
    the sub-agents of every organization other than the caller's own
    exactly as they were. *)
Theorem sub_agents_write_tenant_isolation (d : db) (uid : option uuid) (now : timestamptz) :
  pk_profiles d →
  (∀ i, foreign_sub_agents d uid (sub_agents (step now (InsertSubAgent uid i) d))
        = foreign_sub_agents d uid (sub_agents d))
  ∧ (∀ target u,
       foreign_sub_agents d uid (sub_agents (step now (UpdateSubAgent uid target u) d))
       = foreign_sub_agents d uid (sub_agents d))
  ∧ (∀ target,
       foreign_sub_agents d uid (sub_agents (step now (DeleteSubAgent uid target) d))
       = foreign_sub_agents d uid (sub_agents d)).
Proof.
  intros Hpk. split; [|split].
  - intros i. unfold step. simpl.
    destruct (insert_sub_agent d uid now i) as [d'|e] eqn:Hins; [|done].
    assert (Hpol : is_true (sub_agents_insert_admin d uid (sub_agent_new_row now i)) = true).
    { unfold insert_sub_agent in Hins.
      by destruct (is_true (sub_agents_insert_admin d uid (sub_agent_new_row now i))). }
    apply insert_sub_agent_ok in Hins as (-> & _). simpl.
    unfold foreign_sub_agents. rewrite filter_app, filter_cons_False, app_nil_r; [done|].
    intros Hne. apply Hne. by apply (is_org_admin_own_tenant d uid _ Hpk).
  - intros target u. unfold step. simpl. unfold update_sub_agent.
    destruct (update_sub_agent_rows d uid now target u (sub_agents d)) as [rows|e] eqn:Hup;
      [|done].
    simpl. by apply (update_sub_agent_rows_foreign d uid now target u (sub_agents d) rows).
  - intros target. unfold step. simpl. unfold delete_sub_agent. simpl.
    unfold foreign_sub_agents. rewrite list_filter_filter. apply list_filter_iff.
    intros s. split; [by intros [? _]|]. intros Hne. split; [done|].
    destruct (bool_decide _ && is_true (sub_agents_delete_admin d uid s)) eqn:Hsel; [|done].
    apply andb_true_iff in Hsel as [_ Hpol].
    by apply (is_org_admin_own_tenant d uid _ Hpk) in Hpol.
Qed.

Lemma sub_agents_write_tenant_isolation_witness :
  foreign_sub_agents Demo.demo (Some 20%N)
    (sub_agents (step 9 (DeleteSubAgent (Some 20%N) 77%N) Demo.demo))
  = foreign_sub_agents Demo.demo (Some 20%N) (sub_agents Demo.demo).
Proof.
  apply (sub_agents_write_tenant_isolation Demo.demo (Some 20%N) 9). keys_distinct.
Defined.

(* --------------------------------------------------------------------- *)
(** *** Unique slugs *)
(* --------------------------------------------------------------------- *)

Lemma update_agent_rows_slug_keys (d : db) (uid : option uuid) (now : timestamptz)
    (target : uuid) (u : AgentUpdate.t) (rows rows' : list Agents.row)
    (recs : list AgentConfigHistory.row) :
  update_agent_rows d uid now target u rows = Ok (rows', recs) →
  agent_slug_key <$> rows' = agent_slug_key <$> rows.
Proof.
  intros [Hall _]%update_agent_rows_ok.
  induction Hall as [|OLD STORED rows rows' Hrow _ IH]; [done|].
  rewrite !fmap_cons, IH. f_equal.
  destruct (update_agent_selects d uid target OLD); [|by subst].
  destruct Hrow as [r [Horg Hslug]%update_agent_row_tenant].
  unfold agent_slug_key. by rewrite Horg, Hslug.
Qed.

Lemma update_sub_agent_rows_slug_keys (d : db) (uid : option uuid) (now : timestamptz)
    (target : uuid) (u : SubAgentUpdate.t) (rows rows' : list SubAgents.row) :
  update_sub_agent_rows d uid now target u rows = Ok rows' →
  sub_agent_slug_key <$> rows' = sub_agent_slug_key <$> rows.
Proof.
  intros Hall%update_sub_agent_rows_ok.
  induction Hall as [|OLD STORED rows rows' Hrow _ IH]; [done|].
  rewrite !fmap_cons, IH. f_equal.
  destruct (update_sub_agent_selects d uid target OLD); [|by subst].
  by apply update_sub_agent_row_ok in Hrow as [-> _].
Qed.

Lemma insert_agent_slug_free (d d' : db) (uid : option uuid) (now : timestamptz)
    (i : AgentInsert.t) :
  insert_agent d uid now i = Ok d' →
  agent_slug_key (agent_new_row now i) ∉ agent_slug_key <$> agents d.
Proof.
  intros Hins Hin. unfold insert_agent in Hins.
  destruct (is_true (agents_insert_admin _ _ _)); [|done].
  destruct (temperature_check _); [|done].
  destruct (max_tokens_check _); [|done].
  destruct (negb (agent_exists _ _)); [|done]. simpl in Hins.
  destruct (existsb _ (agents d)) eqn:Hex; [done|].
  apply list_elem_of_fmap in Hin as (a & Hkey & Ha).
  pose proof (proj1 (existsb_false_iff _ _) Hex a Ha) as Hno. simpl in Hno.
  injection Hkey as Horg Hslug. simpl in Horg, Hslug.
  by rewrite !bool_decide_eq_true_2 in Hno.
Qed.

Lemma insert_sub_agent_slug_free (d d' : db) (uid : option uuid) (now : timestamptz)
    (i : SubAgentInsert.t) :
  insert_sub_agent d uid now i = Ok d' →
  sub_agent_slug_key (sub_agent_new_row now i) ∉ sub_agent_slug_key <$> sub_agents d.
Proof.
  intros Hins Hin. unfold insert_sub_agent in Hins.
  destruct (is_true (sub_agents_insert_admin _ _ _)); [|done].
  destruct (temperature_check _); [|done].
  destruct (max_tokens_check _); [|done].
  destruct (negb (sub_agent_exists _ _)); [|done]. simpl in Hins.
  destruct (existsb _ (sub_agents d)) eqn:Hex; [done|].
  apply list_elem_of_fmap in Hin as (s & Hkey & Hs).
  pose proof (proj1 (existsb_false_iff _ _) Hex s Hs) as Hno. simpl in Hno.
  injection Hkey as Hpar Hslug. simpl in Hpar, Hslug.
  by rewrite !bool_decide_eq_true_2 in Hno.
Qed.

Lemma unique_slugs_step (now : timestamptz) (op : operation) (d : db) :
  unique_slugs d → unique_slugs (step now op d).
Proof.
  intros [Ha Hs]. unfold step.
  destruct (run now op d) as [d'|e] eqn:Hrun; [|done].
  destruct op as [NEW|e r org n|t|t|uid i|uid t u|uid t|uid i|uid t u|uid t|uid h];
    simpl in Hrun.
  - by apply handle_new_user_ok in Hrun as ->.
  - by injection Hrun as <-.
  - by injection Hrun as <-.
  - by injection Hrun as <-.
  - pose proof (insert_agent_slug_free _ _ _ _ _ Hrun) as Hfree.
    apply insert_agent_ok in Hrun as (-> & _). split; [|done]. simpl.
    by apply NoDup_fmap_snoc.
  - unfold update_agent in Hrun.
    destruct (update_agent_rows d uid now t u (agents d)) as [[rows recs]|] eqn:Hup;
      [|done].
    injection Hrun as <-. split; [|done]. simpl.
    by rewrite (update_agent_rows_slug_keys _ _ _ _ _ _ _ _ Hup).
  - injection Hrun as <-. unfold delete_agent.
    destruct (existsb _ _); [|done]. split; simpl; by apply NoDup_fmap_filter.
  - pose proof (insert_sub_agent_slug_free _ _ _ _ _ Hrun) as Hfree.
    apply insert_sub_agent_ok in Hrun as (-> & _). split; [done|]. simpl.
    by apply NoDup_fmap_snoc.
  - unfold update_sub_agent in Hrun.
    destruct (update_sub_agent_rows d uid now t u (sub_agents d)) as [rows|] eqn:Hup;
      [|done].
    injection Hrun as <-. split; [done|]. simpl.
    by rewrite (update_sub_agent_rows_slug_keys _ _ _ _ _ _ _ Hup).
  - injection Hrun as <-. split; [done|]. simpl. by apply NoDup_fmap_filter.
  - by apply insert_agent_config_history_ok in Hrun as (-> & _).
Qed.

(** X5 -- In every state the statements can reach, no two agents of one
    organization share a slug and no two sub-agents of one parent agent
    share a slug. *)
Theorem reachable_unique_slugs (d : db) :
  reachable d → unique_slugs d.
Proof.
  apply (reachable_invariant unique_slugs).
  - split; apply NoDup_nil_2.
  - intros now op d0. apply unique_slugs_step.
Qed.

Lemma reachable_unique_slugs_witness :
  unique_slugs (run_all Demo.story empty_db).
Proof.
  apply reachable_unique_slugs. by exists Demo.story.
Defined.

(* --------------------------------------------------------------------- *)
(** *** Referential integrity *)
(* --------------------------------------------------------------------- *)

Lemma fk_profile_mono (d d' : db) (who : option uuid) :
  Profiles.id <$> profiles d ⊆ Profiles.id <$> profiles d' →
  fk_profile d who = true → fk_profile d' who = true.
Proof.
  intros Hsub. destruct who as [w|]; [|done]. simpl.
  rewrite !profile_exists_spec. apply Hsub.
Qed.

Lemma refs_mono (d d' : db) :
  Profiles.id <$> profiles d ⊆ Profiles.id <$> profiles d' →
  Agents.id <$> agents d ⊆ Agents.id <$> agents d' →
  (∀ s, sub_agent_refs d s → sub_agent_refs d' s)
  ∧ (∀ h, audit_refs d h → audit_refs d' h)
  ∧ (∀ a, agent_refs d a → agent_refs d' a).
Proof.
  intros Hp Ha. split; [|split].
  - intros s (H1 & H2 & H3). repeat split; [by apply Ha|by eapply fk_profile_mono..].
  - intros h [H1 H2]. split; [by apply Ha | by apply Hp].
  - intros a H. by eapply fk_profile_mono.
Qed.

(** A statement that keeps the keys of [profiles] and [agents] and whose
    rows of the three referencing tables are old rows or rows that
    reference the old state keeps the foreign keys. *)
Lemma foreign_keys_extend (d d' : db) :
  foreign_keys_hold d →
  Profiles.id <$> profiles d ⊆ Profiles.id <$> profiles d' →
  Agents.id <$> agents d ⊆ Agents.id <$> agents d' →
  (∀ s, s ∈ sub_agents d' → s ∈ sub_agents d ∨ sub_agent_refs d s) →
  (∀ h, h ∈ agent_config_history d' → h ∈ agent_config_history d ∨ audit_refs d h) →
  (∀ a, a ∈ agents d' → a ∈ agents d ∨ agent_refs d a) →
  foreign_keys_hold d'.
Proof.
  intros (Hs & Hh & Ha) Hp Hag Hs' Hh' Ha'.
  destruct (refs_mono d d' Hp Hag) as (Ms & Mh & Ma).
  split; [|split].
  - intros s [Hin|Hok]%Hs'; apply Ms; [by apply Hs | done].
  - intros h [Hin|Hok]%Hh'; apply Mh; [by apply Hh | done].
  - intros a [Hin|Hok]%Ha'; apply Ma; [by apply Ha | done].
Qed.

Lemma Forall2_elem_l {A B} (P : A → B → Prop) (l : list A) (k : list B) (x : A) :
  Forall2 P l k → x ∈ l → ∃ y, y ∈ k ∧ P x y.
Proof.
  induction 1 as [|a b l k Hab _ IH]; intros Hin.
  - by apply elem_of_nil in Hin.
  - apply elem_of_cons in Hin as [->|Hin].
    + exists b. split; [left | done].
    + destruct (IH Hin) as (y & Hy & HP). exists y. split; [by right | done].
Qed.

Lemma update_agent_row_refs (d : db) (uid : option uuid) (now : timestamptz)
    (u : AgentUpdate.t) (OLD STORED : Agents.row) (r : list AgentConfigHistory.row) :
  update_agent_row d uid now u OLD = Ok (STORED, r) →
  agent_refs d STORED
  ∧ ∀ h, h ∈ r → AgentConfigHistory.agent_id h = Agents.id OLD
               ∧ AgentConfigHistory.changed_by h ∈ Profiles.id <$> profiles d.
Proof.
  intros (Heq & _ & _ & Hfk)%update_agent_row_ok. split; [done|].
  intros h Hin.
  assert (Hr : r = (agents_before_update now OLD (agent_assign u OLD)).2)
    by (by rewrite <- Heq).
  assert (HS : STORED = (agents_before_update now OLD (agent_assign u OLD)).1)
    by (by rewrite <- Heq).
  rewrite Hr in Hin. apply agents_before_update_records in Hin as (who & _ & Hwho & ->).
  split; [done|]. simpl.
  destruct (agents_before_update_stored now OLD (agent_assign u OLD)) as (_ & _ & _ & _ & Hm).
  rewrite <- HS, Hwho in Hm. rewrite Hm in Hfk. by apply profile_exists_spec.
Qed.

Lemma update_sub_agent_row_refs (d : db) (uid : option uuid) (now : timestamptz)
    (u : SubAgentUpdate.t) (OLD STORED : SubAgents.row) :
  sub_agent_refs d OLD →
  update_sub_agent_row d uid now u OLD = Ok STORED → sub_agent_refs d STORED.
Proof.
  intros (Hp & Hc & _) Hok.
  pose proof Hok as [-> _]%update_sub_agent_row_ok.
  unfold update_sub_agent_row in Hok.
  destruct (is_true _); [|done]. destruct (temperature_check _); [|done].
  destruct (max_tokens_check _); [|done]. simpl in Hok.
  destruct (fk_profile d (assigned_nullable (SubAgentUpdate.modified_by u)
                            (SubAgents.modified_by OLD))) eqn:Hfk; [|done].
  split; [exact Hp | split; [exact Hc | exact Hfk]].
Qed.

Lemma insert_sub_agent_refs (d d' : db) (uid : option uuid) (now : timestamptz)
    (i : SubAgentInsert.t) :
  insert_sub_agent d uid now i = Ok d' → sub_agent_refs d (sub_agent_new_row now i).
Proof.
  unfold insert_sub_agent. intros Hok.
  destruct (is_true _); [|done]. destruct (temperature_check _); [|done].
  destruct (max_tokens_check _); [|done]. destruct (negb (sub_agent_exists _ _)); [|done].
  destruct (negb (existsb _ _)); [|done]. simpl in Hok.
  destruct (agent_exists d _) eqn:Hag; [|done]. simpl in Hok.
  destruct (fk_profile d _) eqn:Hfk; [|done].
  split; [by apply agent_exists_spec | by split].
Qed.

Lemma insert_agent_config_history_refs (d d' : db) (uid : option uuid)
    (h : AgentConfigHistory.row) :
  insert_agent_config_history d uid h = Ok d' → audit_refs d h.
Proof.
  unfold insert_agent_config_history. intros Hok.
  destruct (is_true _); [|done]. simpl in Hok.
  destruct (agent_exists d _) eqn:Hag; [|done]. simpl in Hok.
  destruct (profile_exists d _) eqn:Hp; [|done].
  split; [by apply agent_exists_spec | by apply profile_exists_spec].
Qed.

Lemma profile_ids_fmap (f : Profiles.row → Profiles.row) (l : list Profiles.row) :
  (∀ p, Profiles.id (f p) = Profiles.id p) →
  Profiles.id <$> (f <$> l) = Profiles.id <$> l.
Proof. apply fmap_id_preserved. Qed.

Lemma foreign_keys_profiles (d : db) (l : list Profiles.row) :
  Profiles.id <$> profiles d ⊆ Profiles.id <$> l →
  foreign_keys_hold d → foreign_keys_hold (with_profiles l d).
Proof.
  intros Hsub Hfk. apply (foreign_keys_extend d); simpl; auto.
Qed.

Lemma foreign_keys_delete_agent (d : db) (uid : option uuid) (target : uuid) :
  foreign_keys_hold d → foreign_keys_hold (delete_agent d uid target).
Proof.
  intros (Hs & Hh & Ha). unfold delete_agent.
  destruct (existsb _ _); [|done].
  assert (Hkept : ∀ i, i ≠ target → i ∈ Agents.id <$> agents d →
            i ∈ Agents.id <$> filter (fun a => negb (delete_agent_selects d uid target a))
                                (agents d)).
  { intros i Hne (a & -> & Hin)%list_elem_of_fmap.
    apply list_elem_of_fmap. exists a. split; [done|].
    apply list_elem_of_filter. split; [|done].
    unfold delete_agent_selects. by rewrite bool_decide_eq_false_2. }
  split; [|split]; simpl.
  - intros s [Hne Hin]%list_elem_of_filter.
    destruct (Hs s Hin) as (H1 & H2 & H3). repeat split; [|done..].
    apply Hkept; [|done]. intros Heq. by rewrite bool_decide_eq_true_2 in Hne.
  - intros h [Hne Hin]%list_elem_of_filter.
    destruct (Hh h Hin) as [H1 H2]. split; [|done].
    apply Hkept; [|done]. intros Heq. by rewrite bool_decide_eq_true_2 in Hne.
  - intros a [_ Hin]%list_elem_of_filter. by apply Ha.
Qed.

Lemma foreign_keys_step (now : timestamptz) (op : operation) (d : db) :
  foreign_keys_hold d → foreign_keys_hold (step now op d).
Proof.
  intros Hfk. unfold step.
  destruct (run now op d) as [d'|e] eqn:Hrun; [|done].
  destruct op as [NEW|e r org n|t|t|uid i|uid t u|uid t|uid i|uid t u|uid t|uid h];
    simpl in Hrun.
  - apply handle_new_user_ok in Hrun as ->.
    apply foreign_keys_profiles; [|done]. rewrite fmap_app. set_solver.
  - injection Hrun as <-. apply foreign_keys_profiles; [|done].
    unfold assign_role. simpl. rewrite profile_ids_fmap; [done|].
    intros p. by destruct (is_true _).
  - injection Hrun as <-. apply foreign_keys_profiles; [|done].
    simpl. rewrite profile_ids_fmap; [done|]. intros p. by destruct (_ && _).
  - injection Hrun as <-. apply foreign_keys_profiles; [|done].
    simpl. rewrite profile_ids_fmap; [done|]. intros p. by destruct (_ && _).
  - apply insert_agent_ok in Hrun as (-> & _).
    apply (foreign_keys_extend d); simpl; auto.
    + rewrite fmap_app. set_solver.
    + intros a [Hin|Hin]%elem_of_app; [by left | right].
      by apply list_elem_of_singleton in Hin as ->.
  - unfold update_agent in Hrun.
    destruct (update_agent_rows d uid now t u (agents d)) as [[rows recs]|] eqn:Hup;
      [|done].
    injection Hrun as <-.
    pose proof (update_agent_rows_ids _ _ _ _ _ _ _ _ Hup) as Hids.
    apply update_agent_rows_ok in Hup as [Hall Hrecs].
    apply (foreign_keys_extend d); simpl; auto.
    + by rewrite Hids.
    + intros h [Hin|Hin]%elem_of_app; [by left | right].
      destruct (Hrecs h Hin) as (OLD & HOLD & Hsel & Hh).
      destruct (Forall2_elem_l _ _ _ _ Hall HOLD) as (STORED & _ & Hrow).
      rewrite Hsel in Hrow. destruct Hrow as [r Hrow].
      pose proof Hrow as (Heq & _)%update_agent_row_ok.
      assert (Hr : r = (agents_before_update now OLD (agent_assign u OLD)).2)
        by (by rewrite <- Heq).
      rewrite <- Hr in Hh.
      destruct (proj2 (update_agent_row_refs _ _ _ _ _ _ _ Hrow) h Hh) as [Hid Hby].
      split; [|done]. rewrite Hid. by apply list_elem_of_fmap_2.
    + intros a Hin. destruct (Forall2_elem_r _ _ _ _ Hall Hin) as (OLD & HOLD & Hrow).
      destruct (update_agent_selects d uid t OLD).
      * destruct Hrow as [r Hrow]. right. by apply update_agent_row_refs in Hrow as [? _].
      * subst a. by left.
  - injection Hrun as <-. by apply foreign_keys_delete_agent.
  - pose proof (insert_sub_agent_refs _ _ _ _ _ Hrun) as Hrefs.
    apply insert_sub_agent_ok in Hrun as (-> & _).
    apply (foreign_keys_extend d); simpl; auto.
    intros s [Hin|Hin]%elem_of_app; [by left | right].
    by apply list_elem_of_singleton in Hin as ->.
  - unfold update_sub_agent in Hrun.
    destruct (update_sub_agent_rows d uid now t u (sub_agents d)) as [rows|] eqn:Hup;
      [|done].
    injection Hrun as <-. apply update_sub_agent_rows_ok in Hup.
    apply (foreign_keys_extend d); simpl; auto.
    intros s Hin. destruct (Forall2_elem_r _ _ _ _ Hup Hin) as (OLD & HOLD & Hrow).
    destruct (update_sub_agent_selects d uid t OLD).
    + right. apply (update_sub_agent_row_refs d uid now u OLD); [|done].
      by apply (proj1 Hfk).
    + subst s. by left.
  - injection Hrun as <-. apply (foreign_keys_extend d); simpl; auto.
    intros s [_ Hin]%list_elem_of_filter. by left.
  - pose proof (insert_agent_config_history_refs _ _ _ _ Hrun) as Hrefs.
    apply insert_agent_config_history_ok in Hrun as (-> & _).
    apply (foreign_keys_extend d); simpl; auto.
    intros h0 [Hin|Hin]%elem_of_app; [by left | right].
    by apply list_elem_of_singleton in Hin as ->.
Qed.

(** X6 -- In every state the statements can reach, every sub-agent has its
    parent agent, every audit record has its agent and its author, and
    every modifying-principal and creator reference names a profile:
    inserts and updates check the references, and deleting an agent
    removes its sub-agents and its audit records with it. *)
Theorem reachable_foreign_keys (d : db) :
  reachable d → foreign_keys_hold d.
Proof.
  apply (reachable_invariant foreign_keys_hold).
  - split; [|split]; intros ? Hin; by apply elem_of_nil in Hin.
  - intros now op d0. apply foreign_keys_step.
Qed.

Lemma reachable_foreign_keys_witness :
  foreign_keys_hold (run_all Demo.story empty_db).
Proof.
  apply reachable_foreign_keys. by exists Demo.story.
Defined.

(* --------------------------------------------------------------------- *)
(** *** Reading the audit table *)
(* --------------------------------------------------------------------- *)

Lemma is_true_sql_and (a b : option bool) :
  is_true (sql_and a b) = is_true a && is_true b.
Proof. by destruct a as [[]|], b as [[]|]. Qed.

Lemma is_true_sql_eq_l {A} `{EqDecision A} (x : option A) (y : A) :
  is_true (sql_eq x (Some y)) = bool_decide (x = Some y).
Proof.
  destruct x as [x|]; simpl; [|done].
  destruct (decide (x = y)) as [->|Hne].
  - by rewrite !bool_decide_eq_true_2.
  - rewrite !bool_decide_eq_false_2; congruence.
Qed.

Lemma agent_config_history_select_spec (d : db) (uid : option uuid)
    (h : AgentConfigHistory.row) :
  is_true (agent_config_history_select d uid h) = true
  ↔ ∃ a, a ∈ agents d ∧ Agents.id a = AgentConfigHistory.agent_id h
         ∧ get_my_org d uid = Some (Agents.organization_id a).
Proof.
  unfold agent_config_history_select. cbn [is_true].
  assert (Hb : ∀ b : bool, (if b then true else false) = b) by (by intros []).
  rewrite Hb, existsb_true_iff. split.
  - intros (a & [_ Ha]%list_elem_of_filter & Hc). exists a. split; [done|].
    rewrite is_true_sql_and, !is_true_sql_eq in Hc.
    apply andb_true_iff in Hc as [H1%bool_decide_eq_true H2%bool_decide_eq_true].
    split; congruence.
  - intros (a & Ha & Hid & Horg). exists a. split.
    + apply list_elem_of_filter. split; [|done].
      unfold agents_select. by rewrite is_true_sql_eq, bool_decide_eq_true_2.
    + rewrite is_true_sql_and, !is_true_sql_eq.
      rewrite !bool_decide_eq_true_2; [done|done|congruence].
Qed.

Lemma users_can_view_agent_config_history_spec (d : db) (uid : option uuid)
    (h : AgentConfigHistory.row) :
  is_true (users_can_view_agent_config_history d uid h) = true
  → ∃ a q, a ∈ agents d ∧ Agents.id a = AgentConfigHistory.agent_id h
           ∧ q ∈ profiles d ∧ uid = Some (Profiles.id q)
           ∧ Profiles.organization_id q = Some (Agents.organization_id a).
Proof.
  unfold users_can_view_agent_config_history. cbn [is_true].
  assert (Hb : ∀ b : bool, (if b then true else false) = b) by (by intros []).
  rewrite Hb, existsb_true_iff.
  intros (a & [_ Ha]%list_elem_of_filter & (q & [_ Hq]%list_elem_of_filter & Hc)%existsb_true_iff).
  exists a, q. split; [done|].
  rewrite is_true_sql_and, is_true_sql_eq_l, !is_true_sql_eq in Hc.
  apply andb_true_iff in Hc as [H1%bool_decide_eq_true [H2%bool_decide_eq_true H3%bool_decide_eq_true]%andb_true_iff].
  repeat split; congruence.
Qed.

(** X7 -- The audit records a caller can read are exactly those of the agents
    of the organization of the caller's profile, whatever the caller's
    role: under the primary key of [profiles], a record is visible to
    the caller with profile [p] if and only if its agent exists and
    belongs to the organization of [p]. *)
Theorem audit_read_tenant_scoped (d : db) (p : Profiles.row) (h : AgentConfigHistory.row) :
  pk_profiles d → p ∈ profiles d →
  agent_config_history_visible d (Some (Profiles.id p)) h = true
  ↔ ∃ a, a ∈ agents d ∧ Agents.id a = AgentConfigHistory.agent_id h
         ∧ Profiles.organization_id p = Some (Agents.organization_id a).
Proof.
  intros Hpk Hin. unfold agent_config_history_visible.
  rewrite orb_true_iff, agent_config_history_select_spec.
  rewrite (get_my_org_profile d p Hpk Hin). split; [|by left].
  intros [Hsel|(a & q & Ha & Hid & Hq & Huid & Horg)%users_can_view_agent_config_history_spec];
    [done|].
  exists a. split; [done|]. split; [done|].
  injection Huid as Huid.
  by rewrite (key_unique Profiles.id (profiles d) q p Hpk Hq Hin Huid).
Qed.

Lemma audit_read_tenant_scoped_witness :
  list_agent_config_history (run_all Demo.story empty_db) (Some 10%N) 55%N
  = agent_config_history (run_all Demo.story empty_db)
  ∧ ∃ a, a ∈ agents (run_all Demo.story empty_db)
         ∧ Agents.id a = 55%N
         ∧ Some Demo.org_2b = Some (Agents.organization_id a).
Proof.
  split; [reflexivity|].
  set (d := run_all Demo.story empty_db).
  assert (Hp : ∃ p, p ∈ profiles d ∧ Profiles.id p = 10%N
                    ∧ Profiles.organization_id p = Some Demo.org_2b).
  { eexists. split; [vm_compute; in_table|]. by split. }
  destruct Hp as (p & Hp & Hid & Horg).
  assert (Hh : ∃ h, h ∈ agent_config_history d ∧ AgentConfigHistory.agent_id h = 55%N).
  { eexists. split; [vm_compute; in_table|]. done. }
  destruct Hh as (h & Hh & Hag).
  rewrite <- Horg, <- Hag.
  apply (audit_read_tenant_scoped d p h); [unfold d; keys_distinct | done |].
  rewrite Hid. revert Hh. unfold d. vm_compute.
  intros Hin. apply list_elem_of_singleton in Hin as ->. reflexivity.
Defined.

(* --------------------------------------------------------------------- *)
(** *** Activation state and the policy helpers *)
(* --------------------------------------------------------------------- *)

Lemma existsb_fmap {A B} (f : A → B) (g : B → bool) (l : list A) :
  existsb g (f <$> l) = existsb (fun x => g (f x)) l.
Proof. induction l as [|x l IH]; [done|]. rewrite fmap_cons. simpl. by rewrite IH. Qed.

Lemma existsb_ext_in {A} (f g : A → bool) (l : list A) :
  (∀ x, x ∈ l → f x = g x) → existsb f l = existsb g l.
Proof.
  induction l as [|x l IH]; intros Hfg; [done|]. simpl.
  rewrite (Hfg x) by left. f_equal. apply IH. intros y Hy. apply Hfg. by right.
Qed.

Lemma am_i_active_is_user_active (d : db) (u : uuid) :
  am_i_active d (Some u) = is_user_active d u.
Proof.
  unfold am_i_active, is_user_active. apply existsb_ext_in. intros p _.
  rewrite is_true_sql_and, is_true_sql_eq. cbn [is_true].
  destruct (bool_decide (Profiles.deleted_at p = None)); [|by rewrite !andb_false_r].
  rewrite !andb_true_r. apply bool_decide_ext. split; congruence.
Qed.

(** X8 -- A soft delete takes effect on the policy helpers at once and for
    the target only: afterwards the target is neither active nor an
    administrator for [am_i_active], [is_user_active] and [am_i_admin],
    and every other caller gets the answers they got before.  A restore
    makes the target active again whenever the target has a profile. *)
Theorem soft_delete_takes_effect (d : db) (now : timestamptz) (t : uuid) :
  am_i_active (soft_delete_user d now t).1 (Some t) = false
  ∧ am_i_admin (soft_delete_user d now t).1 (Some t) = false
  ∧ (∀ u, u ≠ t →
       am_i_active (soft_delete_user d now t).1 (Some u) = am_i_active d (Some u)
       ∧ am_i_admin (soft_delete_user d now t).1 (Some u) = am_i_admin d (Some u))
  ∧ is_user_active (restore_user d now t).1 t = profile_exists d t.
Proof.
  split; [|split; [|split]].
  - rewrite am_i_active_is_user_active. apply soft_delete_user_deactivates.
  - apply existsb_false_iff. intros q Hq. simpl in Hq.
    apply list_elem_of_fmap in Hq as (q0 & -> & _).
    rewrite !is_true_sql_and, is_true_sql_eq. cbn [is_true].
    repeat (case_bool_decide; simpl in * ); congruence.
  - intros u Hne. unfold am_i_active, am_i_admin, soft_delete_user.
    cbn [fst with_profiles profiles].
    rewrite !existsb_fmap. split; apply existsb_ext_in; intros p _;
      rewrite !is_true_sql_and, !is_true_sql_eq; cbn [is_true];
      repeat (case_bool_decide; simpl in * ); congruence.
  - unfold is_user_active, profile_exists. simpl. rewrite existsb_fmap.
    apply existsb_ext_in. intros p _.
    repeat (case_bool_decide; simpl in * ); congruence.
Qed.

(* --------------------------------------------------------------------- *)
(** *** A new account *)
(* --------------------------------------------------------------------- *)

Lemma own_rows_after_sign_up (d : db) (row : Profiles.row) :
  profile_exists d (Profiles.id row) = false →
  filter (fun p => is_true (sql_eq (Some (Profiles.id p)) (Some (Profiles.id row))))
    (profiles d ++ [row]) = [row].
Proof.
  intros Hfresh. rewrite filter_app, filter_nothing.
  - rewrite filter_cons_True; [done|]. simpl. by rewrite bool_decide_eq_true_2.
  - intros p Hp Hid. rewrite is_true_sql_eq in Hid. apply bool_decide_spec in Hid.
    pose proof (proj1 (existsb_false_iff _ _) Hfresh p Hp) as Hno. simpl in Hno.
    rewrite bool_decide_eq_false in Hno. congruence.
Qed.

(** X9 -- A principal who has just signed up belongs to no organization: the
    account is active but not an administrator, it reads no agent, no
    sub-agent and no audit record, and the write policies of [agents]
    and [sub_agents] refuse it. *)
Theorem new_account_has_no_access (d d' : db) (now : timestamptz) (NEW : AuthUsers.row) :
  handle_new_user d now NEW = Ok d' →
  let uid := Some (AuthUsers.id NEW) in
  get_my_org d' uid = None
  ∧ am_i_active d' uid = true
  ∧ am_i_admin d' uid = false
  ∧ (∀ active_only, list_agents d' uid active_only = [])
  ∧ (∀ i, get_agent d' uid i = None)
  ∧ (∀ i, get_sub_agent d' uid i = None)
  ∧ (∀ h, agent_config_history_visible d' uid h = false)
  ∧ (∀ s, is_true (sub_agents_insert_admin d' uid s) = false).
Proof.
  intros Hok uid.
  pose proof (handle_new_user_fresh _ _ _ _ Hok) as Hfresh.
  apply handle_new_user_ok in Hok as ->.
  set (row := handle_new_user_row now NEW).
  change (AuthUsers.id NEW) with (Profiles.id row) in Hfresh, uid.
  assert (Hown := own_rows_after_sign_up d row Hfresh).
  assert (Horg : get_my_org (with_profiles (profiles d ++ [row]) d) uid = None).
  { unfold get_my_org, uid. cbn [with_profiles profiles]. by rewrite Hown. }
  assert (Hhidden : ∀ a, is_true (agents_select (with_profiles (profiles d ++ [row]) d)
                                    uid a) = false).
  { intros a. unfold agents_select. by rewrite Horg. }
  assert (Hfalse : ∀ p, p ∈ profiles d →
            bool_decide (Profiles.id p = Profiles.id row) = false).
  { intros p Hp. exact (proj1 (existsb_false_iff _ _) Hfresh p Hp). }
  split; [done|]. split; [|split; [|split; [|split; [|split; [|split]]]]].
  - unfold am_i_active. simpl. rewrite existsb_app. simpl.
    rewrite bool_decide_eq_true_2 by done. simpl. apply orb_true_r.
  - apply not_true_is_false. intros (p & Hp & Huid & Hrole & _)%am_i_admin_spec.
    cbn [with_profiles profiles] in Hp. apply elem_of_app in Hp as [Hp|Hp].
    + unfold uid in Huid. injection Huid as Huid. pose proof (Hfalse p Hp) as Hno.
      rewrite bool_decide_eq_false in Hno. apply Hno. symmetry. exact Huid.
    + apply list_elem_of_singleton in Hp as ->. discriminate Hrole.
  - intros ao. unfold list_agents. rewrite (filter_nothing (fun a => is_true (agents_select _ _ a))).
    + done.
    + intros a _. rewrite Hhidden. intros [].
  - intros i. unfold get_agent. rewrite (filter_nothing (fun a => is_true (agents_select _ _ a))).
    + done.
    + intros a _. rewrite Hhidden. intros [].
  - intros i. unfold get_sub_agent.
    rewrite (filter_nothing (fun s => is_true (sub_agents_select_org _ _ s))); [done|].
    intros s _. unfold sub_agents_select_org. cbn [with_profiles profiles].
    rewrite (list_filter_iff (fun p => is_true (profiles_select_own uid p))
               (fun p => is_true (sql_eq (Some (Profiles.id p)) (Some (Profiles.id row))))).
    + rewrite Hown.
      rewrite filter_cons_True by (rewrite is_true_sql_eq; by apply bool_decide_pack).
      rewrite filter_nil. vm_compute. intros [].
    + intros p. unfold profiles_select_own, uid.
      rewrite is_true_sql_eq, is_true_sql_eq_l. rewrite !bool_decide_spec.
      split; congruence.
  - intros h. apply not_true_is_false. unfold agent_config_history_visible.
    rewrite orb_true_iff, agent_config_history_select_spec.
    intros [(a & _ & _ & Ha)|(a & q & _ & _ & Hq & Huid & Hqorg)%users_can_view_agent_config_history_spec].
    + by rewrite Horg in Ha.
    + simpl in Hq. apply elem_of_app in Hq as [Hq|Hq].
      * unfold uid in Huid. injection Huid as Huid. pose proof (Hfalse q Hq) as Hno.
        rewrite bool_decide_eq_false in Hno. apply Hno. symmetry. exact Huid.
      * apply list_elem_of_singleton in Hq as ->. done.
  - intros s. apply not_true_is_false.
    intros (p & Hp & Huid & Hporg & _)%is_org_admin_true.
    simpl in Hp. apply elem_of_app in Hp as [Hp|Hp].
    + unfold uid in Huid. injection Huid as Huid. pose proof (Hfalse p Hp) as Hno.
      rewrite bool_decide_eq_false in Hno. apply Hno. symmetry. exact Huid.
    + apply list_elem_of_singleton in Hp as ->. done.
Qed.

Lemma new_account_has_no_access_witness :
  list_agents
    (with_profiles
       (profiles Demo.demo
        ++ [handle_new_user_row 7 (AuthUsers.Build 30%N (Some "new@2b.com") None)])
       Demo.demo) (Some 30%N) false = [].
Proof.
  assert (H : handle_new_user Demo.demo 7 (AuthUsers.Build 30%N (Some "new@2b.com") None)
              = Ok (with_profiles
                      (profiles Demo.demo
                       ++ [handle_new_user_row 7
                             (AuthUsers.Build 30%N (Some "new@2b.com") None)])
                      Demo.demo)) by reflexivity.
  destruct (new_account_has_no_access _ _ _ _ H) as (_ & _ & _ & Hl & _).
  apply Hl.
Defined.

(* --------------------------------------------------------------------- *)
(** *** The content of an audit record *)
(* --------------------------------------------------------------------- *)





(* --------------------------------------------------------------------- *)
(** *** The subscriber's list *)
(* --------------------------------------------------------------------- *)

Lemma Forall_filter_keep {A} (P : A → Prop) (Q : A → Prop) `{∀ x, Decision (Q x)}
    (l : list A) :
  Forall P l → Forall P (filter Q l).
Proof.
  rewrite !Forall_forall. intros Hall x [_ Hx]%list_elem_of_filter. by apply Hall.
Qed.

Lemma on_postgres_changes_active (payload : postgres_change) (prev : list Agents.row) :
  Forall (fun a => truthy (Agents.is_active a) = true) prev →
  Forall (fun a => truthy (Agents.is_active a) = true)
    (on_postgres_changes true payload prev).
Proof.
  intros Hall. destruct payload as [a|a|i]; simpl.
  - destruct (truthy (Agents.is_active a)) eqn:Ha; [|done].
    apply Forall_app. split; [done|]. by apply Forall_singleton.
  - destruct (truthy (Agents.is_active a)) eqn:Ha; simpl.
    + case_bool_decide; simpl.
      * apply Forall_fmap. eapply Forall_impl; [exact Hall|].
        intros b Hb. simpl. by case_bool_decide.
      * apply Forall_app. split; [done|]. by apply Forall_singleton.
    + by apply Forall_filter_keep.
  - by apply Forall_filter_keep.
Qed.

(** X11 -- A subscriber that asked for active agents only never shows an
    inactive one: if every agent of the list is active, so is every agent
    of the list after any sequence of insert, update and delete events. *)
Theorem active_only_view_stays_active (events : list postgres_change)
    (prev : list Agents.row) :
  Forall (fun a => truthy (Agents.is_active a) = true) prev →
  Forall (fun a => truthy (Agents.is_active a) = true) (replay true events prev).
Proof.
  revert prev. induction events as [|e events IH]; intros prev Hall; [done|].
  simpl. apply IH. by apply on_postgres_changes_active.
Qed.

Lemma active_only_view_stays_active_witness :
  Forall (fun a => truthy (Agents.is_active a) = true)
    (replay true [UPDATE Demo.agent_ads; INSERT Demo.agent_ads; DELETE 66%N]
       [Demo.agent_copy]).
Proof.
  apply active_only_view_stays_active. apply Forall_singleton. reflexivity.
Defined.

(** X12 -- The list never holds two entries for one agent unless an insert
    event repeats an identifier it already shows: update and delete
    events keep the identifiers distinct, and so does an insert event
    for a new identifier. *)
Theorem view_ids_stay_distinct (activeOnly : bool) (payload : postgres_change)
    (prev : list Agents.row) :
  NoDup (Agents.id <$> prev) →
  (∀ a, payload = INSERT a → Agents.id a ∉ Agents.id <$> prev) →
  NoDup (Agents.id <$> on_postgres_changes activeOnly payload prev).
Proof.
  intros Hnd Hfresh. destruct payload as [a|a|i]; simpl.
  - destruct (negb activeOnly || truthy (Agents.is_active a)); [|done].
    apply NoDup_fmap_snoc; [done|]. by apply Hfresh.
  - destruct (activeOnly && negb (truthy (Agents.is_active a))).
    { by apply NoDup_fmap_filter. }
    destruct (activeOnly && truthy (Agents.is_active a) && _) eqn:Hadd.
    + apply NoDup_fmap_snoc; [done|].
      apply andb_true_iff in Hadd as [_ Hnot]. apply negb_true_iff in Hnot.
      apply bool_decide_eq_false in Hnot.
      intros Hin. apply Hnot. by apply find_by_id_is_Some.
    + rewrite fmap_id_preserved; [done|]. intros b.
      destruct (decide (Agents.id b = Agents.id a)) as [Heq|Hne];
        [by rewrite bool_decide_eq_true_2 | by rewrite bool_decide_eq_false_2].
  - by apply NoDup_fmap_filter.
Qed.

Lemma view_ids_stay_distinct_witness :
  NoDup (Agents.id <$> on_postgres_changes false (UPDATE Demo.agent_ads)
                         [Demo.agent_copy; Demo.agent_ads]).
Proof.
  apply view_ids_stay_distinct; [|discriminate].
  match goal with |- ?P => apply (bool_decide_unpack P); vm_compute; exact I end.
Defined.



Lemma filter_ext_in {A} (P Q : A → Prop) `{∀ x, Decision (P x), ∀ x, Decision (Q x)}
    (l : list A) :
  (∀ x, x ∈ l → P x ↔ Q x) → filter P l = filter Q l.
Proof.
  induction l as [|x l IH]; intros Hf; [done|].
  rewrite !filter_cons.
  assert (Hx : P x ↔ Q x) by (apply Hf; left).
  rewrite IH by (intros y Hy; apply Hf; by right).
  destruct (decide (P x)), (decide (Q x)); naive_solver.
Qed.



(* --------------------------------------------------------------------- *)
(** *** The slug of a new sub-agent *)
(* --------------------------------------------------------------------- *)

Ltac each_code_unit c :=
  destruct c as [[] [] [] [] [] [] [] []]; vm_compute; try reflexivity; try discriminate.

Lemma kept_not_space_is_slug_char (c : ascii) :
  kept_by_first_replace c = true → is_space_or_underscore c = false → is_slug_char c = true.
Proof. each_code_unit c. Qed.

Lemma slug_char_kept (c : ascii) :
  is_slug_char c = true →
  toLowerCase_unit c = c ∧ kept_by_first_replace c = true
  ∧ is_space_or_underscore c = false.
Proof. each_code_unit c; by intros _. Qed.

Lemma hyphen_is_slug_char (c : ascii) : is_hyphen c = true → c = "-"%char.
Proof. each_code_unit c. Qed.

Lemma underscore_removed (c : ascii) :
  code c = 95%N → kept_by_first_replace (toLowerCase_unit c) = false.
Proof. each_code_unit c. Qed.

(** Characters of the class disappear or become [rep]; the others stay. *)
Lemma replace_runs_from_Forall (P : ascii → Prop) (b : bool) (class : ascii → bool)
    (rep : ascii) (s : list ascii) :
  P rep → Forall (fun c => class c = false → P c) s →
  Forall P (replace_runs_from b class rep s).
Proof.
  intros Hrep Hall. revert b. induction Hall as [|c s Hc _ IH]; intros b; [done|].
  simpl. destruct (class c) eqn:Hcl.
  - destruct b; [apply IH | constructor; [done | apply IH]].
  - constructor; [by apply Hc | apply IH].
Qed.

Lemma slug_of_name_chars (name : list ascii) :
  Forall (fun c => is_slug_char c = true) (slug_of_name name).
Proof.
  unfold slug_of_name. apply Forall_take.
  apply replace_runs_from_Forall; [done|].
  eapply Forall_impl; [|by intros c Hc _; exact Hc].
  apply replace_runs_from_Forall; [done|].
  apply Forall_forall. intros c [Hkept _]%list_elem_of_filter Hsp.
  apply kept_not_space_is_slug_char; [|done]. by apply Is_true_true.
Qed.

Lemma no_adjacent_cons (class : ascii → bool) (c1 c2 : ascii) (s : list ascii) :
  no_adjacent class (c1 :: c2 :: s)
  = negb (class c1 && class c2) && no_adjacent class (c2 :: s).
Proof. done. Qed.

Lemma replace_runs_from_head (b : bool) (class : ascii → bool) (rep : ascii)
    (s : list ascii) :
  class rep = true →
  match replace_runs_from b class rep s with
  | c :: _ => b = true → class c = false
  | [] => True
  end.
Proof.
  intros Hrep. revert b. induction s as [|c s IH]; intros b; [done|].
  simpl. destruct (class c) eqn:Hcl.
  - destruct b; [apply IH | done].
  - done.
Qed.

Lemma replace_runs_from_no_adjacent (b : bool) (class : ascii → bool) (rep : ascii)
    (s : list ascii) :
  class rep = true → no_adjacent class (replace_runs_from b class rep s) = true.
Proof.
  intros Hrep. revert b. induction s as [|c s IH]; intros b; [done|].
  simpl. destruct (class c) eqn:Hcl.
  - destruct b; [apply IH|].
    pose proof (replace_runs_from_head true class rep s Hrep) as Hhd.
    pose proof (IH true) as Hrest.
    destruct (replace_runs_from true class rep s) as [|c2 rest]; [done|].
    rewrite no_adjacent_cons. rewrite Hrest, (Hhd eq_refl), andb_false_r. done.
  - pose proof (IH false) as Hrest.
    destruct (replace_runs_from false class rep s) as [|c2 rest]; [done|].
    rewrite no_adjacent_cons. by rewrite Hrest, Hcl.
Qed.

Lemma no_adjacent_take (class : ascii → bool) (n : nat) (s : list ascii) :
  no_adjacent class s = true → no_adjacent class (take n s) = true.
Proof.
  revert n. induction s as [|c1 s IH]; intros n Hs; [by destruct n|].
  destruct n as [|n]; [done|]. destruct s as [|c2 s]; [by destruct n|].
  rewrite no_adjacent_cons in Hs. apply andb_true_iff in Hs as [H12 Hs].
  destruct n as [|n]; [done|].
  change (take (S (S n)) (c1 :: c2 :: s)) with (c1 :: take (S n) (c2 :: s)).
  specialize (IH (S n) Hs).
  change (take (S n) (c2 :: s)) with (c2 :: take n s) in *.
  rewrite no_adjacent_cons. by rewrite H12, IH.
Qed.

Lemma no_adjacent_lookup (class : ascii → bool) (s : list ascii) (i : nat) (c1 c2 : ascii) :
  no_adjacent class s = true → s !! i = Some c1 → s !! S i = Some c2 →
  class c1 = true → class c2 = false.
Proof.
  revert i. induction s as [|a s IH]; intros i Hs H1 H2 Hc1; [done|].
  destruct s as [|b s]; [done|].
  rewrite no_adjacent_cons in Hs. apply andb_true_iff in Hs as [Hab Hs].
  destruct i as [|i].
  - simpl in H1, H2. injection H1 as ->. injection H2 as ->.
    rewrite Hc1 in Hab. simpl in Hab. by apply negb_true_iff in Hab.
  - by apply (IH i).
Qed.

(** A run-collapsing replacement leaves alone a string that has no two
    neighbours in the class and whose class members are [rep]. *)
Lemma replace_runs_fixed (class : ascii → bool) (rep : ascii) (s : list ascii) :
  no_adjacent class s = true →
  Forall (fun c => class c = true → c = rep) s →
  replace_runs_from false class rep s = s
  ∧ match s with
    | c :: rest => class c = false → replace_runs_from true class rep s = s
    | [] => True
    end.
Proof.
  induction s as [|c s IH]; intros Hno Hall; [done|].
  apply Forall_cons in Hall as [Hc Hall].
  assert (Hs : no_adjacent class s = true).
  { destruct s as [|c2 s]; [done|]. rewrite no_adjacent_cons in Hno.
    by apply andb_true_iff in Hno as [_ ?]. }
  destruct (IH Hs Hall) as [IH1 IH2]. simpl.
  destruct (class c) eqn:Hcl.
  - split; [|done]. rewrite (Hc eq_refl) in Hno |- *. f_equal.
    destruct s as [|c2 s]; [done|]. apply IH2.
    rewrite no_adjacent_cons in Hno. apply andb_true_iff in Hno as [Hno _].
    rewrite (Hc eq_refl) in Hcl. rewrite Hcl in Hno. simpl in Hno.
    by apply negb_true_iff in Hno.
  - by rewrite IH1.
Qed.

Lemma replace_runs_none (b : bool) (class : ascii → bool) (rep : ascii) (s : list ascii) :
  Forall (fun c => class c = false) s → replace_runs_from b class rep s = s.
Proof.
  intros Hall. revert b. induction Hall as [|c s Hc _ IH]; intros b; [done|].
  simpl. by rewrite Hc, IH.
Qed.

Lemma slug_of_name_no_adjacent (name : list ascii) :
  no_adjacent is_hyphen (slug_of_name name) = true.
Proof.
  unfold slug_of_name. apply no_adjacent_take.
  by apply replace_runs_from_no_adjacent.
Qed.

(** X14 -- The generated slug is made of lower-case letters, digits and
    hyphens only, is at most 50 characters long, and never has two
    hyphens in a row. *)
Theorem slug_of_name_shape (name : list ascii) :
  Forall (fun c => is_slug_char c = true) (slug_of_name name)
  ∧ (length (slug_of_name name) ≤ 50)%nat
  ∧ ∀ i, slug_of_name name !! i = Some "-"%char →
         slug_of_name name !! S i ≠ Some "-"%char.
Proof.
  split; [apply slug_of_name_chars|]. split.
  - unfold slug_of_name. rewrite length_take. lia.
  - intros i Hi HSi.
    by pose proof (no_adjacent_lookup is_hyphen _ i _ _
                     (slug_of_name_no_adjacent name) Hi HSi eq_refl).
Qed.

(** X15 -- Generating a slug from a generated slug gives it back: what the form
    produces is a fixed point of the generator. *)
Theorem slug_of_name_idempotent (name : list ascii) :
  slug_of_name (slug_of_name name) = slug_of_name name.
Proof.
  pose proof (slug_of_name_chars name) as Hchars.
  pose proof (slug_of_name_no_adjacent name) as Hno.
  assert (Hlen : (length (slug_of_name name) ≤ 50)%nat)
    by (unfold slug_of_name; rewrite length_take; lia).
  set (t := slug_of_name name) in *. unfold slug_of_name at 1.
  assert (Hlow : toLowerCase t = t).
  { unfold toLowerCase. apply fmap_id_on. intros c Hc.
    rewrite Forall_forall in Hchars. by apply slug_char_kept, Hchars. }
  rewrite Hlow.
  rewrite filter_everything.
  2: { intros c Hc. rewrite Forall_forall in Hchars.
       apply Is_true_true. by apply slug_char_kept, Hchars. }
  unfold replace_runs. rewrite (replace_runs_none false is_space_or_underscore).
  2: { eapply Forall_impl; [exact Hchars|]. intros c Hc. by apply slug_char_kept. }
  assert (Hhy : Forall (fun c => is_hyphen c = true → c = "-"%char) t).
  { apply Forall_forall. intros c _. apply hyphen_is_slug_char. }
  rewrite (proj1 (replace_runs_fixed is_hyphen "-"%char t Hno Hhy)).
  by apply take_ge.
Qed.

(** X16 -- Underscores never reach the slug: the first replacement removes
    them before the second one could turn them into hyphens, so a name
    and the same name without its underscores get the same slug. *)
Theorem slug_of_name_drops_underscores (name : list ascii) :
  slug_of_name (filter (fun c => code c ≠ 95%N) name) = slug_of_name name.
Proof.
  unfold slug_of_name. do 3 f_equal. unfold toLowerCase.
  induction name as [|c name IH]; [done|].
  rewrite filter_cons. case_decide as Hc.
  - rewrite !fmap_cons, !filter_cons, IH. done.
  - rewrite fmap_cons, filter_cons_False, IH; [done|].
    rewrite (underscore_removed c Hc). by intros [].
Qed.

(** X17 -- The slug is empty exactly when the name has no letter, digit, white
    space or hyphen to keep. *)
Theorem slug_of_name_empty (name : list ascii) :
  slug_of_name name = []
  ↔ Forall (fun c => kept_by_first_replace (toLowerCase_unit c) = false) name.
Proof.
  unfold slug_of_name, replace_runs, toLowerCase.
  set (kept := filter _ _).
  assert (Hkept : kept = [] ↔
            Forall (fun c => kept_by_first_replace (toLowerCase_unit c) = false) name).
  { unfold kept. clear kept. induction name as [|c name IH]; [done|].
    rewrite fmap_cons, filter_cons, Forall_cons.
    destruct (kept_by_first_replace (toLowerCase_unit c)) eqn:Hc.
    - rewrite decide_True by done. split; [done|]. by intros [? _].
    - rewrite decide_False by (by intros []). rewrite IH. naive_solver. }
  rewrite <- Hkept. split; [|by intros ->].
  destruct kept as [|c rest]; [done|]. intros Hnil. exfalso.
  assert (Hne : ∀ b class rep s, s ≠ [] → b = false → replace_runs_from b class rep s ≠ []).
  { intros b class rep s Hs ->. destruct s as [|x s]; [done|]. simpl.
    by destruct (class x). }
  apply (f_equal length) in Hnil. rewrite length_take in Hnil.
  pose proof (Hne false is_space_or_underscore "-"%char (c :: rest) ltac:(done) eq_refl) as H1.
  pose proof (Hne false is_hyphen "-"%char _ H1 eq_refl) as H2.
  destruct (replace_runs_from false is_hyphen _ _); [done|]. simpl in Hnil. lia.
Qed.

(* --------------------------------------------------------------------- *)
(** *** The route guard *)
(* --------------------------------------------------------------------- *)

(** X18 -- With authentication configured, the guard lets a request through in
    two cases only: a signed-in user without an authentication error on
    a protected page other than the root, or a visitor without a user on
    a public page.  A visitor on a protected page is sent to the login
    page, which is told where to return.  Without configuration every
    request goes through. *)
Theorem middleware_route_protection (user error : bool) (pathname : string) :
  (middleware true user error pathname = Next
   ↔ (user = true ∧ error = false ∧ isPublicRoute pathname = false ∧ pathname ≠ "/")
     ∨ (user = false ∧ isPublicRoute pathname = true))
  ∧ (user = false → isPublicRoute pathname = false → pathname ≠ "/" →
     ∃ q c, middleware true user error pathname = Redirect "/login" q c
            ∧ ("redirectTo", pathname) ∈ q)
  ∧ middleware false user error pathname = Next.
Proof.
  assert (Hroot : isPublicRoute "/" = false) by reflexivity.
  unfold middleware. split; [|split; [|done]].
  - destruct (String.eqb_spec pathname "/") as [->|Hne].
    + rewrite Hroot. destruct user, error; simpl; naive_solver.
    + destruct user, error, (isPublicRoute pathname); simpl; naive_solver.
  - intros -> -> Hne. apply String.eqb_neq in Hne. rewrite Hne.
    destruct error; simpl; eexists _, _; (split; [reflexivity|]); by left.
Qed.

Lemma middleware_route_protection_witness :
  ∃ q c, middleware true false false "/tienda/snatched" = Redirect "/login" q c
         ∧ ("redirectTo", "/tienda/snatched") ∈ q.
Proof.
  apply (middleware_route_protection false false "/tienda/snatched");
    [reflexivity | reflexivity | discriminate].
Defined.

(* --------------------------------------------------------------------- *)
(** *** The two generations of policy helpers *)
(* --------------------------------------------------------------------- *)

Lemma active_profile_rows_of (d : db) (p : Profiles.row) :
  pk_profiles d → p ∈ profiles d →
  active_profile_rows d (Some (Profiles.id p))
  = if decide (Profiles.deleted_at p = None) then [p] else [].
Proof.
  intros Hpk Hin. unfold active_profile_rows.
  rewrite (list_filter_iff _ (fun q => Profiles.deleted_at q = None
                                      ∧ Profiles.id q = Profiles.id p)).
  2: { intros q. rewrite is_true_sql_and, is_true_sql_eq. cbn [is_true].
       destruct (bool_decide (Profiles.deleted_at q = None)) eqn:Hd.
       - apply bool_decide_eq_true in Hd. rewrite andb_true_r, bool_decide_spec.
         split; [intros [= ->]; by split | intros [_ ->]; done].
       - apply bool_decide_eq_false in Hd. rewrite andb_false_r. naive_solver. }
  rewrite <- list_filter_filter, (filter_key_unique Profiles.id) by done.
  rewrite filter_cons, filter_nil. by destruct (decide (Profiles.deleted_at p = None)).
Qed.

(** X19 -- The helpers of the recursion fix and those of the consolidated
    policies answer alike for an active account: the same organization
    and the same admin test.  For a deactivated account the helpers of
    the recursion fix answer NULL and false, whereas [get_my_org] goes
    on naming the organization of the profile. *)
Theorem policy_helpers_agree (d : db) (p : Profiles.row) :
  pk_profiles d → p ∈ profiles d →
  is_admin d (Some (Profiles.id p)) = am_i_admin d (Some (Profiles.id p))
  ∧ get_my_org d (Some (Profiles.id p)) = Profiles.organization_id p
  ∧ (Profiles.deleted_at p = None →
     get_user_organization d (Some (Profiles.id p)) = Profiles.organization_id p
     ∧ get_user_role d (Some (Profiles.id p)) = Some (role_text (Profiles.role p))
     ∧ is_admin d (Some (Profiles.id p)) = bool_decide (Profiles.role p = admin))
  ∧ (Profiles.deleted_at p ≠ None →
     get_user_organization d (Some (Profiles.id p)) = None
     ∧ get_user_role d (Some (Profiles.id p)) = None
     ∧ is_admin d (Some (Profiles.id p)) = false).
Proof.
  intros Hpk Hin. split; [done|]. split; [by apply get_my_org_profile|].
  unfold get_user_organization, get_user_role.
  rewrite (active_profile_rows_of d p Hpk Hin).
  assert (Hadm : is_admin d (Some (Profiles.id p)) = true
                 ↔ Profiles.role p = admin ∧ Profiles.deleted_at p = None).
  { change (is_admin d (Some (Profiles.id p))) with (am_i_admin d (Some (Profiles.id p))).
    rewrite am_i_admin_spec. split.
    - intros (q & Hq & [= Hid] & Hr & Hd).
      by rewrite (key_unique Profiles.id (profiles d) q p Hpk Hq Hin Hid).
    - intros [Hr Hd]. by exists p. }
  split.
  - intros Hnull. rewrite decide_True by done. split; [done|]. split; [done|].
    destruct (decide (Profiles.role p = admin)) as [Hr|Hr].
    + rewrite bool_decide_eq_true_2 by done. by apply Hadm.
    + rewrite bool_decide_eq_false_2 by done. apply not_true_is_false.
      intros [? _]%Hadm. done.
  - intros Hset. rewrite decide_False by done. split; [done|]. split; [done|].
    apply not_true_is_false. intros [_ ?]%Hadm. done.
Qed.

Lemma policy_helpers_agree_witness :
  get_user_organization Demo.demo (Some 12%N) = None
  ∧ get_my_org Demo.demo (Some 12%N) = Some Demo.org_2b.
Proof.
  destruct (policy_helpers_agree Demo.demo Demo.gone_2b) as (_ & Hmy & _ & Hgone);
    [keys_distinct | in_table |].
  destruct (Hgone ltac:(discriminate)) as (Horg & _). split; [exact Horg | exact Hmy].
Defined.

(* --------------------------------------------------------------------- *)
(** *** Reading back what was written *)
(* --------------------------------------------------------------------- *)

Lemma filter_key_is (A K : Type) `{EqDecision K} (key : A → K) (l : list A) (x : A) (k : K) :
  NoDup (key <$> l) → x ∈ l → key x = k →
  filter (fun y => bool_decide (key y = k)) l = [x].
Proof.
  intros Hnd Hin <-.
  rewrite (list_filter_iff _ (fun y => key y = key x))
    by (intros y; apply bool_decide_spec).
  by rewrite (filter_key_unique key).
Qed.

(** X20 -- A writer reads back the own write: after an accepted insert the new
    agent is what a read by its identifier returns to the writer, after
    an accepted update of a selected agent the stored row is, and after
    a delete of a selected agent the read finds nothing for any caller,
    no sub-agent names the agent as its parent and no audit record
    refers to it. *)
Theorem read_after_write (d : db) (w : option uuid) (now : timestamptz) :
  (∀ i d', insert_agent d w now i = Ok d' →
           get_agent d' w (AgentInsert.id i) = Some (agent_new_row now i))
  ∧ (∀ target u d' OLD,
       pk_agents d → OLD ∈ agents d → update_agent_selects d w target OLD = true →
       update_agent d w now target u = Ok d' →
       get_agent d' w target = Some (agents_before_update now OLD (agent_assign u OLD)).1)
  ∧ (∀ a, pk_agents d → a ∈ agents d → delete_agent_selects d w (Agents.id a) a = true →
          (∀ reader, get_agent (delete_agent d w (Agents.id a)) reader (Agents.id a) = None)
          ∧ (∀ s, s ∈ sub_agents (delete_agent d w (Agents.id a)) →
                  SubAgents.parent_agent_id s ≠ Agents.id a)
          ∧ audit_count (delete_agent d w (Agents.id a)) (Agents.id a) = 0).
Proof.
  split; [|split].
  - intros i d' Hins.
    assert (Hpol : is_true (agents_insert_admin d w (agent_new_row now i)) = true).
    { unfold insert_agent in Hins.
      by destruct (is_true (agents_insert_admin d w (agent_new_row now i))). }
    apply agents_policy_own_tenant in Hpol.
    apply insert_agent_ok in Hins as (-> & _ & _ & Hfresh).
    unfold get_agent.
    change (agents (with_agents (agents d ++ [agent_new_row now i]) d))
      with (agents d ++ [agent_new_row now i]).
    change (agents_select (with_agents (agents d ++ [agent_new_row now i]) d) w)
      with (agents_select d w).
    rewrite filter_app, filter_app.
    rewrite (filter_nothing (fun a => bool_decide (Agents.id a = AgentInsert.id i))).
    + rewrite filter_cons_True.
      * rewrite filter_cons_True; [done|]. by apply bool_decide_pack.
      * unfold agents_select. rewrite <- Hpol. simpl. by rewrite bool_decide_eq_true_2.
    + intros a [_ Ha]%list_elem_of_filter Hid%bool_decide_unpack.
      pose proof (proj1 (existsb_false_iff _ _) Hfresh a Ha) as Hno. simpl in Hno.
      by rewrite bool_decide_eq_true_2 in Hno.
  - intros target u d' OLD Hpk HOLD Hsel Hup.
    unfold update_agent in Hup.
    rewrite (update_agent_rows_selected d w now target u (agents d) OLD Hpk HOLD Hsel) in Hup.
    destruct (update_agent_row d w now u OLD) as [[STORED recs]|e] eqn:Hrow; [|done].
    injection Hup as <-.
    pose proof (update_agent_row_tenant _ _ _ _ _ _ _ Hrow) as [Horg _].
    apply update_agent_row_ok in Hrow as (Heq & _).
    assert (HS : (agents_before_update now OLD (agent_assign u OLD)).1 = STORED)
      by (by rewrite <- Heq).
    rewrite HS.
    apply andb_true_iff in Hsel as [Hid%bool_decide_eq_true Hpol].
    apply agents_policy_own_tenant in Hpol.
    assert (HidS : Agents.id STORED = target).
    { rewrite <- HS.
      by destruct (agents_before_update_stored now OLD (agent_assign u OLD)) as (-> & _). }
    unfold get_agent.
    change (agents (Db (profiles d) ((fun a => if decide (Agents.id a = target)
                                             then STORED else a) <$> agents d)
                      (sub_agents d) (agent_config_history d ++ recs)))
      with ((fun a => if decide (Agents.id a = target) then STORED else a) <$> agents d).
    change (agents_select (Db (profiles d) ((fun a => if decide (Agents.id a = target)
                                             then STORED else a) <$> agents d)
                      (sub_agents d) (agent_config_history d ++ recs)) w)
      with (agents_select d w).
    rewrite filter_comm.
    rewrite (filter_key_is _ _ Agents.id _ STORED target).
    + rewrite filter_cons_True; [done|].
      unfold agents_select. rewrite Horg, <- Hpol. simpl. by rewrite bool_decide_eq_true_2.
    + rewrite fmap_id_preserved; [done|]. intros a. case_decide; congruence.
    + apply list_elem_of_fmap. exists OLD. by rewrite decide_True.
    + done.
  - intros a Hpk Ha Hsel. unfold delete_agent.
    rewrite (proj2 (existsb_true_iff _ _)) by (by exists a).
    split; [|split].
    + intros reader. unfold get_agent. cbn [agents].
      rewrite filter_nothing; [done|].
      intros b [_ [Hkeep Hb]%list_elem_of_filter]%list_elem_of_filter Hid%bool_decide_unpack.
      rewrite (key_unique Agents.id (agents d) a b Hpk Ha Hb Hid) in Hkeep.
      by rewrite Hsel in Hkeep.
    + cbn [sub_agents]. intros s [Hne _]%list_elem_of_filter Heq.
      by rewrite bool_decide_eq_true_2 in Hne.
    + unfold audit_count. cbn [agent_config_history]. apply count_for_none.
      intros h [Hne _]%list_elem_of_filter Heq.
      by rewrite bool_decide_eq_true_2 in Hne.
Qed.

Lemma read_after_write_witness :
  get_agent (delete_agent Demo.demo (Some 10%N) 55%N) (Some 11%N) 55%N = None.
Proof.
  destruct (read_after_write Demo.demo (Some 10%N) 9) as (_ & _ & Hd).
  destruct (Hd Demo.agent_copy) as (Hget & _); [keys_distinct | in_table | reflexivity |].
  apply Hget.
Defined.

(* --------------------------------------------------------------------- *)
(** *** Loading the caller's profile *)
(* --------------------------------------------------------------------- *)

(** X21 -- The front end gets a profile only for the caller's own, active
    account: the own profile is returned while it is not soft-deleted,
    nothing is returned once it is, nothing is returned for the
    identifier of anybody else, and nothing without a session. *)
Theorem fetch_profile_own_active (d : db) (p : Profiles.row) :
  pk_profiles d → p ∈ profiles d →
  fetchProfile d (Some (Profiles.id p)) (Profiles.id p)
  = (if decide (Profiles.deleted_at p = None) then Some p else None)
  ∧ (∀ other, other ≠ Profiles.id p → fetchProfile d (Some (Profiles.id p)) other = None)
  ∧ (∀ userId, fetchProfile d None userId = None).
Proof.
  intros Hpk Hin.
  assert (Hown : filter (fun q => is_true (profiles_select_own (Some (Profiles.id p)) q))
                   (profiles d) = [p]).
  { rewrite (list_filter_iff _ (fun q => Profiles.id q = Profiles.id p)).
    - by rewrite (filter_key_unique Profiles.id).
    - intros q. unfold profiles_select_own. rewrite is_true_sql_eq, bool_decide_spec.
      split; congruence. }
  unfold fetchProfile. rewrite Hown. split; [|split].
  - rewrite filter_cons, filter_nil, bool_decide_eq_true_2 by done.
    destruct (decide (Profiles.deleted_at p = None)) as [Hd|Hd].
    + by rewrite bool_decide_eq_true_2.
    + by rewrite bool_decide_eq_false_2.
  - intros other Hne. rewrite filter_cons, filter_nil.
    by rewrite bool_decide_eq_false_2 by done.
  - intros userId. rewrite (filter_nothing (fun q => is_true (profiles_select_own None q)));
      [done|]. intros q _ [].
Qed.

Lemma fetch_profile_own_active_witness :
  fetchProfile Demo.demo (Some 12%N) 12%N = None
  ∧ fetchProfile Demo.demo (Some 11%N) 11%N = Some Demo.member_2b.
Proof.
  destruct (fetch_profile_own_active Demo.demo Demo.gone_2b) as (Hg & _);
    [keys_distinct | in_table |].
  destruct (fetch_profile_own_active Demo.demo Demo.member_2b) as (Hm & _);
    [keys_distinct | in_table |].
  split; [exact Hg | exact Hm].
Defined.

(* --------------------------------------------------------------------- *)
(** *** One visibility rule for agents and sub-agents *)
(* --------------------------------------------------------------------- *)

(** X22 -- The SELECT policy of [sub_agents] is written with a subquery on
    [profiles] and that of [agents] with [get_my_org()], yet under the
    primary key of [profiles] they admit the same rows: a sub-agent,
    like an agent, is visible exactly when its organization is the one
    of the caller's profile. *)
Theorem sub_agent_visibility (d : db) (uid : option uuid) (s : SubAgents.row) :
  pk_profiles d →
  is_true (sub_agents_select_org d uid s)
  = bool_decide (get_my_org d uid = Some (SubAgents.organization_id s)).
Proof.
  intros Hpk. unfold sub_agents_select_org.
  destruct uid as [u|].
  2: { rewrite (filter_nothing (fun p => is_true (profiles_select_own None p)))
         by (intros q _ []).
       unfold get_my_org.
       by rewrite (filter_nothing (fun p => is_true (sql_eq (Some (Profiles.id p)) None)))
         by (intros q _ []). }
  destruct (decide (u ∈ Profiles.id <$> profiles d)) as [Hin|Hout].
  - apply list_elem_of_fmap in Hin as (p & -> & Hp).
    rewrite (own_profile_rows d p Hpk Hp), (get_my_org_profile d p Hpk Hp).
    cbn [fmap list_fmap sql_in existsb]. rewrite !orb_false_r.
    destruct (Profiles.organization_id p) as [o|].
    + destruct (decide (o = SubAgents.organization_id s)) as [->|Hne];
        [by rewrite !bool_decide_eq_true_2|].
      rewrite !bool_decide_eq_false_2 by congruence. done.
    + by rewrite bool_decide_eq_false_2, bool_decide_eq_true_2.
  - assert (Hnone : filter (fun p => is_true (sql_eq (Some (Profiles.id p)) (Some u)))
                      (profiles d) = []).
    { apply filter_nothing. intros q Hq Hid. rewrite is_true_sql_eq in Hid.
      apply bool_decide_spec in Hid. injection Hid as Hid.
      apply Hout. rewrite Hid. by apply list_elem_of_fmap_2. }
    rewrite filter_comm, Hnone. unfold get_my_org. rewrite Hnone. done.
Qed.

Lemma sub_agent_visibility_witness :
  is_true (sub_agents_select_org Demo.demo (Some 20%N) Demo.sub_writer)
  = bool_decide (get_my_org Demo.demo (Some 20%N)
                 = Some (SubAgents.organization_id Demo.sub_writer)).
Proof. apply sub_agent_visibility. keys_distinct. Defined.

(* --------------------------------------------------------------------- *)
(** *** Sending a patch twice *)
(* --------------------------------------------------------------------- *)

Lemma assigned_twice {A} (new : option A) (old : A) :
  assigned new (assigned new old) = assigned new old.
Proof. by destruct new. Qed.

Lemma assigned_nullable_twice {A} (new old : option A) :
  assigned_nullable new (assigned_nullable new old) = assigned_nullable new old.
Proof. by destruct new. Qed.

Lemma agent_assign_stored (now : timestamptz) (OLD : Agents.row) (u : AgentUpdate.t) :
  agent_assign u (agents_before_update now OLD (agent_assign u OLD)).1
  = (agents_before_update now OLD (agent_assign u OLD)).1.
Proof.
  unfold agents_before_update, track_agent_config_change.
  destruct (jsonb_nonempty (changes_json OLD (agent_assign u OLD))),
           (Agents.modified_by (agent_assign u OLD));
    unfold agent_assign; cbn;
    by rewrite ?assigned_twice, ?assigned_nullable_twice.
Qed.

(** X24 -- Sending the same patch a second time changes nothing but the
    modification time: the row the first update stored already has
    every assigned value, so the second update finds no tracked column
    changed, leaves the version where it is and writes no audit
    record. *)
Theorem same_patch_twice (now later : timestamptz) (OLD : Agents.row) (u : AgentUpdate.t) :
  agents_before_update later
    (agents_before_update now OLD (agent_assign u OLD)).1
    (agent_assign u (agents_before_update now OLD (agent_assign u OLD)).1)
  = (Agents.set_updated_at (Some later)
       (agents_before_update now OLD (agent_assign u OLD)).1, []).
Proof.
  rewrite agent_assign_stored.
  set (S1 := (agents_before_update now OLD (agent_assign u OLD)).1).
  unfold agents_before_update.
  destruct (track_agent_config_change_cases later S1 S1)
    as [(who & Hch & _)|[_ ->]]; [|done].
  unfold tracked_change in Hch. naive_solver.
Qed.

(* --------------------------------------------------------------------- *)
(** *** The list of a subscriber that shows active agents only *)
(* --------------------------------------------------------------------- *)

Lemma is_true_active (x : option bool) : is_true (sql_eq x (Some true)) = truthy x.
Proof. by destruct x as [[]|]. Qed.

Lemma list_agents_active (d : db) (uid : option uuid) :
  list_agents d uid true
  = filter (fun a => truthy (Agents.is_active a))
      (filter (fun a => is_true (agents_select d uid a)) (agents d)).
Proof.
  unfold list_agents. apply list_filter_iff. intros a.
  by rewrite is_true_active.
Qed.

Lemma replace_by_key_split (rows : list Agents.row) (OLD STORED : Agents.row) :
  NoDup (Agents.id <$> rows) → OLD ∈ rows →
  ∃ l1 l2, rows = l1 ++ OLD :: l2
           ∧ (fun a => if decide (Agents.id a = Agents.id OLD) then STORED else a) <$> rows
             = l1 ++ STORED :: l2.
Proof.
  intros Hnd Hin. apply list_elem_of_split in Hin as (l1 & l2 & ->).
  exists l1, l2. split; [done|].
  rewrite fmap_app, fmap_cons, decide_True by done.
  rewrite fmap_app, fmap_cons in Hnd.
  apply NoDup_app in Hnd as (_ & H1 & H2). apply NoDup_cons in H2 as [H2 _].
  rewrite !fmap_id_on; [done| |].
  - intros a Ha. rewrite decide_False; [done|]. intros Heq. apply H2. rewrite <- Heq.
    by apply list_elem_of_fmap_2.
  - intros a Ha. rewrite decide_False; [done|]. intros Heq.
    apply (H1 (Agents.id a)); [by apply list_elem_of_fmap_2|]. rewrite Heq. left.
Qed.

(** X23 -- The list of a subscriber that shows active agents only follows
    the table up to the order of its entries: after an accepted insert,
    update or delete of an agent of the subscriber's organization,
    applying the event to the loaded list gives the agents a fresh load
    returns; only an agent that an update has just activated stands at
    the end of the list instead of its place in the table. *)
Theorem active_only_view_in_sync (d : db) (w sub : option uuid) (now : timestamptz) :
  (∀ i d', insert_agent d w now i = Ok d' →
           get_my_org d sub = Some (AgentInsert.organization_id i) →
           on_postgres_changes true (INSERT (agent_new_row now i)) (list_agents d sub true)
           = list_agents d' sub true)
  ∧ (∀ target u d' OLD,
       pk_agents d → OLD ∈ agents d → update_agent_selects d w target OLD = true →
       update_agent d w now target u = Ok d' →
       get_my_org d sub = Some (Agents.organization_id OLD) →
       on_postgres_changes true
         (UPDATE (agents_before_update now OLD (agent_assign u OLD)).1)
         (list_agents d sub true)
       ≡ₚ list_agents d' sub true)
  ∧ (∀ a, pk_agents d → a ∈ agents d → delete_agent_selects d w (Agents.id a) a = true →
          on_postgres_changes true (DELETE (Agents.id a)) (list_agents d sub true)
          = list_agents (delete_agent d w (Agents.id a)) sub true).
Proof.
  split; [|split].
  - intros i d' Hins Horg. apply insert_agent_ok in Hins as (-> & _).
    rewrite !list_agents_active. cbn [on_postgres_changes negb orb].
    change (agents (with_agents (agents d ++ [agent_new_row now i]) d))
      with (agents d ++ [agent_new_row now i]).
    change (agents_select (with_agents (agents d ++ [agent_new_row now i]) d) sub)
      with (agents_select d sub).
    rewrite filter_app, (filter_cons_True _ (agent_new_row now i)).
    2: { unfold agents_select. rewrite Horg. simpl. by rewrite bool_decide_eq_true_2. }
    rewrite filter_app, filter_cons, filter_nil.
    destruct (truthy (Agents.is_active (agent_new_row now i))) eqn:Hact.
    + by rewrite decide_True.
    + rewrite decide_False by (by intros []). by rewrite app_nil_r.
  - intros target u d' OLD Hpk HOLD Hsel Hup Horg.
    unfold update_agent in Hup.
    rewrite (update_agent_rows_selected d w now target u (agents d) OLD Hpk HOLD Hsel) in Hup.
    destruct (update_agent_row d w now u OLD) as [[STORED recs]|e] eqn:Hrow; [|done].
    injection Hup as <-.
    pose proof (update_agent_row_tenant _ _ _ _ _ _ _ Hrow) as [HorgS _].
    apply update_agent_row_ok in Hrow as (Heq & _).
    assert (HS : (agents_before_update now OLD (agent_assign u OLD)).1 = STORED)
      by (by rewrite <- Heq).
    rewrite HS.
    apply andb_true_iff in Hsel as [Hid%bool_decide_eq_true _]. subst target.
    assert (HidS : Agents.id STORED = Agents.id OLD).
    { rewrite <- HS.
      by destruct (agents_before_update_stored now OLD (agent_assign u OLD)) as (-> & _). }
    rewrite !list_agents_active.
    change (agents (Db (profiles d) ((fun a => if decide (Agents.id a = Agents.id OLD)
                                             then STORED else a) <$> agents d)
                      (sub_agents d) (agent_config_history d ++ recs)))
      with ((fun a => if decide (Agents.id a = Agents.id OLD) then STORED else a)
              <$> agents d).
    change (agents_select (Db (profiles d) ((fun a => if decide (Agents.id a = Agents.id OLD)
                                             then STORED else a) <$> agents d)
                      (sub_agents d) (agent_config_history d ++ recs)) sub)
      with (agents_select d sub).
    assert (HvisO : is_true (agents_select d sub OLD) = true).
    { unfold agents_select. rewrite Horg. simpl. by rewrite bool_decide_eq_true_2. }
    assert (HvisS : is_true (agents_select d sub STORED) = true).
    { unfold agents_select. rewrite HorgS, Horg. simpl. by rewrite bool_decide_eq_true_2. }
    destruct (replace_by_key_split (agents d) OLD STORED Hpk HOLD) as (l1 & l2 & Hrows & Hnew).
    rewrite Hnew, Hrows.
    assert (Hnd := Hpk). unfold pk_agents in Hnd. rewrite Hrows in Hnd.
    rewrite fmap_app, fmap_cons in Hnd.
    apply NoDup_app in Hnd as (_ & Hd1 & Hd2). apply NoDup_cons in Hd2 as [Hd2 _].
    pose (F := fun l : list Agents.row =>
                 filter (fun a => truthy (Agents.is_active a))
                   (filter (fun a => is_true (agents_select d sub a)) l)).
    assert (HF1 : ∀ l x, F (l ++ x :: l2)
                         = F l ++ (if truthy (Agents.is_active x)
                                      && is_true (agents_select d sub x)
                                   then [x] else []) ++ F l2).
    { intros l x. unfold F. rewrite filter_app, filter_cons.
      destruct (is_true (agents_select d sub x)) eqn:Hv.
      - rewrite decide_True by done. rewrite filter_app, filter_cons.
        destruct (truthy (Agents.is_active x)); [by rewrite decide_True|].
        by rewrite decide_False by (by intros []).
      - rewrite decide_False by (by intros []). rewrite filter_app, andb_false_r. done. }
    assert (Hout : ∀ l, Agents.id OLD ∉ Agents.id <$> l →
              filter (fun a => negb (bool_decide (Agents.id a = Agents.id STORED))) (F l) = F l
              ∧ (fun a => if bool_decide (Agents.id a = Agents.id STORED) then STORED else a)
                  <$> F l = F l
              ∧ Agents.id STORED ∉ Agents.id <$> F l).
    { intros l Hl.
      assert (Hne : ∀ a, a ∈ F l → Agents.id a ≠ Agents.id STORED).
      { intros a [_ [_ Ha]%list_elem_of_filter]%list_elem_of_filter Hida.
        apply Hl. rewrite <- HidS, <- Hida. by apply list_elem_of_fmap_2. }
      split; [|split].
      - apply filter_everything. intros a Ha. by rewrite bool_decide_eq_false_2 by auto.
      - apply fmap_id_on. intros a Ha. by rewrite bool_decide_eq_false_2 by auto.
      - intros (a & Hida & Ha)%list_elem_of_fmap. by apply (Hne a). }
    assert (H1 : Agents.id OLD ∉ Agents.id <$> l1).
    { intros Hin. apply (Hd1 _ Hin). left. }
    destruct (Hout l1 H1) as (Hf1 & Hm1 & Hn1), (Hout l2 Hd2) as (Hf2 & Hm2 & Hn2).
    change (on_postgres_changes true (UPDATE STORED) (F (l1 ++ OLD :: l2))
            ≡ₚ F (l1 ++ STORED :: l2)).
    rewrite !HF1, HvisO, HvisS, !andb_true_r.
    cbn [on_postgres_changes andb].
    destruct (truthy (Agents.is_active STORED)) eqn:HactS; cbn [negb].
    + destruct (truthy (Agents.is_active OLD)) eqn:HactO.
      * rewrite (bool_decide_eq_true_2 (is_Some _)).
        2: { apply find_by_id_is_Some. rewrite HidS, !fmap_app. set_solver. }
        cbn [negb]. rewrite !fmap_app, Hm1, Hm2. cbn [fmap list_fmap].
        by rewrite HidS, bool_decide_eq_true_2.
      * rewrite (bool_decide_eq_false_2 (is_Some _)).
        2: { rewrite find_by_id_is_Some, app_nil_l, fmap_app. set_solver. }
        cbn [negb]. rewrite !app_nil_l, <- !app_assoc.
        apply Permutation_app_head. cbn [app]. symmetry. apply Permutation_cons_append.
    + rewrite !filter_app, Hf1, Hf2, !app_nil_l.
      destruct (truthy (Agents.is_active OLD)); [|done].
      rewrite filter_cons, filter_nil, decide_False; [done|].
      rewrite HidS, bool_decide_eq_true_2 by done. by intros [].
  - intros a Hpk Ha Hsel. unfold delete_agent.
    rewrite (proj2 (existsb_true_iff _ _)) by (by exists a).
    rewrite !list_agents_active. cbn [on_postgres_changes].
    change (agents_select (Db _ _ _ _) sub) with (agents_select d sub).
    cbn [agents].
    rewrite (filter_ext_in (fun b => negb (delete_agent_selects d w (Agents.id a) b))
               (fun b => negb (bool_decide (Agents.id b = Agents.id a)))).
    + rewrite !list_filter_filter. apply list_filter_iff. naive_solver.
    + intros b Hb. unfold delete_agent_selects.
      destruct (decide (Agents.id b = Agents.id a)) as [Heq|Hne].
      * rewrite (key_unique Agents.id (agents d) a b Hpk Ha Hb Heq).
        unfold delete_agent_selects in Hsel. by rewrite Hsel, bool_decide_eq_true_2.
      * by rewrite bool_decide_eq_false_2.
Qed.

Lemma active_only_view_in_sync_witness :
  on_postgres_changes true (DELETE 55%N) (list_agents Demo.demo (Some 11%N) true)
  = list_agents (delete_agent Demo.demo (Some 10%N) 55%N) (Some 11%N) true.
Proof.
  destruct (active_only_view_in_sync Demo.demo (Some 10%N) (Some 11%N) 9) as (_ & _ & Hd).
  apply (Hd Demo.agent_copy); [keys_distinct | in_table | reflexivity].
Defined.
